(** * NEXUS agent messaging core: a shallow embedding

    The development follows the two source files that make up the
    coordination substrate of the repository:

      - [agents/base_agent.py]: the MCP message envelope ([MCPMessage]) and
        the abstract agent with its mailbox and dispatch loop ([BaseAgent]);
      - [messaging/message_bus.py]: the bus ([MessageBus]) and the registry
        with health monitoring ([EnhancedAgentRegistry]), over the pydantic
        model [AgentMessage] of [models/__init__.py].

    Python objects are modelled by records, dictionaries by insertion-ordered
    association lists, exceptions by an explicit result type, and the two
    sources of non-determinism ([uuid.uuid4] and [datetime.utcnow]) by
    oracles that are read through counters kept in the program state. *)

From Stdlib Require Import String Ascii List ZArith NArith Bool Lia Arith.
Import ListNotations.

Local Open Scope string_scope.
Local Open Scope list_scope.

(* ================================================================== *)
(** * Part I: definitions *)
(* ================================================================== *)

(** ** Python values *)

(** The values a payload ([Dict[str, Any]]) can hold.  [PyFloat n d] stands
    for the float nearest to the rational [n/d]; [PyObj cls] is any object
    the JSON encoder has no rule for (a [datetime], a [set], a model
    instance, ...), identified by its class name. *)
#[warnings="-register-all"]
Inductive pyval : Type :=
| PyNone
| PyBool (b : bool)
| PyInt (n : Z)
| PyFloat (num den : Z)
| PyStr (s : string)
| PyList (items : list pyval)
| PyDict (items : list (string * pyval))
| PyObj (cls : string).

(** Exceptions derived from [Exception]: class name and [str(e)]. *)
Record exn : Type := Exn { exc_type : string; exc_text : string }.

Inductive res (A : Type) : Type :=
| Ok (a : A)
| Raise (e : exn).
Arguments Ok {A} a.
Arguments Raise {A} e.

(** [json.dumps]: the class of the first object, in traversal order, that the
    encoder rejects.  The rendered text itself is not modelled. *)
Fixpoint json_reject (v : pyval) : option string :=
  match v with
  | PyObj c => Some c
  | PyList l =>
      (fix go (l : list pyval) : option string :=
         match l with
         | [] => None
         | x :: r => match json_reject x with Some c => Some c | None => go r end
         end) l
  | PyDict d =>
      (fix go (d : list (string * pyval)) : option string :=
         match d with
         | [] => None
         | (_, x) :: r => match json_reject x with Some c => Some c | None => go r end
         end) d
  | _ => None
  end.

Definition json_serializable (v : pyval) : bool :=
  match json_reject v with None => true | Some _ => false end.

Definition json_dumps (v : pyval) : res pyval :=
  match json_reject v with
  | None => Ok v
  | Some c => Raise (Exn "TypeError" ("Object of type " ++ c ++ " is not JSON serializable"))
  end.

(** Truthiness of [str] and of [Optional[str]], and the [x or y] idiom. *)
Definition str_truthy (s : string) : bool := negb (s =? "").

Definition opt_str_or (x : option string) (y : string) : string :=
  match x with
  | Some s => if str_truthy s then s else y
  | None => y
  end.

(** ** Dictionaries

    A Python [dict] keeps insertion order and has unique keys: [dset]
    overwrites in place or appends, [ddel] removes the key. *)
Section Dict.
Context {K V : Type} (eqb : K -> K -> bool).

Fixpoint dget (k : K) (d : list (K * V)) : option V :=
  match d with
  | [] => None
  | (k', v) :: r => if eqb k k' then Some v else dget k r
  end.

Definition dmem (k : K) (d : list (K * V)) : bool :=
  match dget k d with Some _ => true | None => false end.

Fixpoint dset (k : K) (v : V) (d : list (K * V)) : list (K * V) :=
  match d with
  | [] => [(k, v)]
  | (k', v') :: r => if eqb k k' then (k', v) :: r else (k', v') :: dset k v r
  end.

Fixpoint ddel (k : K) (d : list (K * V)) : list (K * V) :=
  match d with
  | [] => []
  | (k', v') :: r => if eqb k k' then ddel k r else (k', v') :: ddel k r
  end.
End Dict.

(** [x in lst] and [lst.remove(x)] (first occurrence) on lists of strings. *)
Fixpoint str_in (x : string) (l : list string) : bool :=
  match l with
  | [] => false
  | y :: r => if x =? y then true else str_in x r
  end.

Fixpoint list_remove (x : string) (l : list string) : list string :=
  match l with
  | [] => []
  | y :: r => if x =? y then r else y :: list_remove x r
  end.

(** ** [datetime] *)
Module Datetime.

(** A naive [datetime]; the constructor of the Python class enforces
    [valid]. *)
Record datetime : Type := mk {
  year : Z; month : Z; day : Z;
  hour : Z; minute : Z; second : Z; microsecond : Z
}.

Definition is_leap (y : Z) : bool :=
  (((y mod 4 =? 0) && negb (y mod 100 =? 0)) || (y mod 400 =? 0))%Z.

Definition days_in_month (y m : Z) : Z :=
  (if (m =? 2) then (if is_leap y then 29 else 28)
   else if (m =? 4) || (m =? 6) || (m =? 9) || (m =? 11) then 30
   else 31)%Z.

Definition valid (t : datetime) : bool :=
  ((1 <=? year t) && (year t <=? 9999) &&
   (1 <=? month t) && (month t <=? 12) &&
   (1 <=? day t) && (day t <=? days_in_month (year t) (month t)) &&
   (0 <=? hour t) && (hour t <? 24) &&
   (0 <=? minute t) && (minute t <? 60) &&
   (0 <=? second t) && (second t <? 60) &&
   (0 <=? microsecond t) && (microsecond t <? 1000000))%Z.

(** Position on the time line, in microseconds; day 1 is 0001-01-01 as in
    [datetime.toordinal]. *)
Definition days_before_year (y : Z) : Z :=
  ((y - 1) * 365 + (y - 1) / 4 - (y - 1) / 100 + (y - 1) / 400)%Z.

Fixpoint days_before_month_aux (y : Z) (n : nat) : Z :=
  match n with
  | O => 0%Z
  | S n' => (days_before_month_aux y n' + days_in_month y (Z.of_nat n))%Z
  end.

Definition days_before_month (y m : Z) : Z :=
  days_before_month_aux y (Z.to_nat (m - 1)).

Definition toordinal (t : datetime) : Z :=
  (days_before_year (year t) + days_before_month (year t) (month t) + day t)%Z.

Definition to_us (t : datetime) : Z :=
  ((((toordinal t * 24 + hour t) * 60 + minute t) * 60 + second t) * 1000000
   + microsecond t)%Z.

Definition min_us : Z := to_us (mk 1 1 1 0 0 0 0).
Definition max_us : Z := to_us (mk 9999 12 31 23 59 59 999999).

(** Decimal fields of fixed width, most significant digit first. *)
Definition digit_char (d : Z) : ascii := ascii_of_nat (48 + Z.to_nat d).

Definition digit_val (c : ascii) : option Z :=
  let n := nat_of_ascii c in
  if ((48 <=? n) && (n <=? 57))%nat then Some (Z.of_nat (n - 48)) else None.

Fixpoint fixed (k : nat) (n : Z) : list ascii :=
  match k with
  | O => []
  | S k' => digit_char (n / 10 ^ Z.of_nat k')%Z :: fixed k' (n mod 10 ^ Z.of_nat k')%Z
  end.

Fixpoint parse_digits (k : nat) (acc : Z) (l : list ascii) : option (Z * list ascii) :=
  match k with
  | O => Some (acc, l)
  | S k' =>
      match l with
      | c :: r =>
          match digit_val c with
          | Some d => parse_digits k' (10 * acc + d)%Z r
          | None => None
          end
      | [] => None
      end
  end.

Definition expect (c : ascii) (l : list ascii) : option (list ascii) :=
  match l with
  | x :: r => if Ascii.eqb x c then Some r else None
  | [] => None
  end.

Definition any_char (l : list ascii) : option (list ascii) :=
  match l with
  | _ :: r => Some r
  | [] => None
  end.

(** [datetime.isoformat()]: [YYYY-MM-DDTHH:MM:SS], followed by [.ffffff]
    when the microsecond is not zero. *)
Definition isoformat_chars (t : datetime) : list ascii :=
  fixed 4 (year t) ++ "-"%char :: fixed 2 (month t) ++ "-"%char :: fixed 2 (day t)
  ++ "T"%char :: fixed 2 (hour t) ++ ":"%char :: fixed 2 (minute t)
  ++ ":"%char :: fixed 2 (second t)
  ++ (if (microsecond t =? 0)%Z then [] else "."%char :: fixed 6 (microsecond t)).

Definition isoformat (t : datetime) : string :=
  string_of_list_ascii (isoformat_chars t).

Definition parse_fraction (l : list ascii) : option Z :=
  match l with
  | [] => Some 0%Z
  | _ =>
      match expect "."%char l with
      | Some l1 =>
          match parse_digits 6 0 l1 with
          | Some (us, []) => Some us
          | _ => None
          end
      | None => None
      end
  end.

Definition bind {A B : Type} (x : option A) (f : A -> option B) : option B :=
  match x with Some a => f a | None => None end.

(** [datetime.fromisoformat], on the two layouts [isoformat] writes for a
    naive datetime (any single character is accepted as the date/time
    separator); every other text is refused with [ValueError]. *)
Definition fromisoformat_chars (l : list ascii) : option datetime :=
  bind (parse_digits 4 0 l) (fun '(y, l) =>
  bind (expect "-"%char l) (fun l =>
  bind (parse_digits 2 0 l) (fun '(m, l) =>
  bind (expect "-"%char l) (fun l =>
  bind (parse_digits 2 0 l) (fun '(d, l) =>
  bind (any_char l) (fun l =>
  bind (parse_digits 2 0 l) (fun '(h, l) =>
  bind (expect ":"%char l) (fun l =>
  bind (parse_digits 2 0 l) (fun '(mi, l) =>
  bind (expect ":"%char l) (fun l =>
  bind (parse_digits 2 0 l) (fun '(s, l) =>
  bind (parse_fraction l) (fun us =>
    let t := mk y m d h mi s us in
    if valid t then Some t else None)))))))))))).

Definition fromisoformat (s : string) : res datetime :=
  match fromisoformat_chars (list_ascii_of_string s) with
  | Some t => Ok t
  | None => Raise (Exn "ValueError" ("Invalid isoformat string: " ++ s))
  end.

End Datetime.
Export Datetime(datetime).

(** ** [uuid.uuid4] *)
Module Uuid.

Definition hex_char (d : N) : ascii :=
  match d with
  | 10 => "a" | 11 => "b" | 12 => "c" | 13 => "d" | 14 => "e" | 15 => "f"
  | _ => ascii_of_N (48 + d)
  end%N%char.

Fixpoint hex_fixed (k : nat) (n : N) : list ascii :=
  match k with
  | O => []
  | S k' => hex_char ((n / 16 ^ N.of_nat k') mod 16)%N :: hex_fixed k' n
  end.

(** [UUID(bytes=os.urandom(16), version=4)]: the variant and version bits
    are forced on the 128-bit integer. *)
Definition uuid4_int (r : N) : N :=
  let i := (r mod 2 ^ 128)%N in
  let i := N.lor (N.ldiff i (N.shiftl 0xc000 48)) (N.shiftl 0x8000 48) in
  N.lor (N.ldiff i (N.shiftl 0xf000 64)) (N.shiftl 4 76).

(** [str(UUID)]: 32 hexadecimal digits grouped 8-4-4-4-12. *)
Definition uuid_str (i : N) : string :=
  let h := hex_fixed 32 i in
  string_of_list_ascii
    (firstn 8 h ++ "-"%char :: firstn 4 (skipn 8 h) ++ "-"%char :: firstn 4 (skipn 12 h)
     ++ "-"%char :: firstn 4 (skipn 16 h) ++ "-"%char :: skipn 20 h).

Definition uuid4 (r : N) : string := uuid_str (uuid4_int r).

End Uuid.

(** ** The environment: entropy, clock and standard output *)

(** What [print] writes.  Lines are kept structured; the second line of
    [BaseAgent.send_message] carries the payload that [json.dumps]
    rendered. *)
Inductive output : Type :=
| OutSending (agent_id message_type : string) (target : option string)
| OutPayload (payload : pyval)
| OutHandlerError (message_type text : string)
| OutNoHandler (message_type : string)
| OutLoopError (agent_id text : string).

(** [draws] and [ticks] count the reads of [os.urandom] and of
    [datetime.utcnow] so far. *)
Record World : Type := mkWorld {
  draws : nat;
  ticks : nat;
  stdout : list output
}.

Definition print (o : output) (w : World) : World :=
  mkWorld (draws w) (ticks w) (stdout w ++ [o]).

Section Oracles.
(** [urandom n] is the [n]-th block of 16 random bytes (as an integer),
    [clock n] the [n]-th reading of the UTC clock. *)
Variable urandom : nat -> N.
Variable clock : nat -> datetime.

Definition uuid4 (w : World) : string * World :=
  (Uuid.uuid4 (urandom (draws w)), mkWorld (S (draws w)) (ticks w) (stdout w)).

Definition utcnow (w : World) : datetime * World :=
  (clock (ticks w), mkWorld (draws w) (S (ticks w)) (stdout w)).
End Oracles.

(** ** [agents/base_agent.py]: the MCP envelope *)
Module MCPMessage.

Record t : Type := mk {
  id : string;
  timestamp : datetime;
  message_type : string;
  payload : pyval;
  source : string;
  target : option string;
  correlation_id : string
}.

Section WithOracles.
Variable urandom : nat -> N.
Variable clock : nat -> datetime.

(** [MCPMessage.__init__]: the identifier and the timestamp are drawn
    first, then [correlation_id or self.id]. *)
Definition init (message_type : string) (payload : pyval) (source : string)
    (target : option string) (correlation_id : option string) (w : World)
  : t * World :=
  let '(new_id, w1) := uuid4 urandom w in
  let '(now, w2) := utcnow clock w1 in
  (mk new_id now message_type payload source target
      (opt_str_or correlation_id new_id), w2).

(** [to_dict]: the flat record, keys in the order of the dict literal. *)
Definition to_dict (self : t) : list (string * pyval) :=
  [ ("id", PyStr (id self));
    ("timestamp", PyStr (Datetime.isoformat (timestamp self)));
    ("type", PyStr (message_type self));
    ("payload", payload self);
    ("source", PyStr (source self));
    ("target", match target self with Some s => PyStr s | None => PyNone end);
    ("correlation_id", PyStr (correlation_id self)) ].

Definition key_error (k : string) : exn := Exn "KeyError" ("'" ++ k ++ "'").

(** [data[k]] *)
Definition subscript (data : list (string * pyval)) (k : string) : res pyval :=
  match dget String.eqb k data with
  | Some v => Ok v
  | None => Raise (key_error k)
  end.

(** The envelope is typed by its annotations: a record entry of another
    type than the annotated one is outside the model and stops the
    reconstruction ([ill_typed]); Python itself would store it as is. *)
Definition ill_typed (k : string) : exn :=
  Exn "TypeError" ("field " ++ k ++ " does not have its annotated type").

Definition as_str (k : string) (v : pyval) : res string :=
  match v with PyStr s => Ok s | _ => Raise (ill_typed k) end.

Definition as_opt_str (k : string) (v : option pyval) : res (option string) :=
  match v with
  | None | Some PyNone => Ok None
  | Some (PyStr s) => Ok (Some s)
  | Some _ => Raise (ill_typed k)
  end.

Definition rbind {A B : Type} (x : res A) (f : A -> res B) : res B :=
  match x with Ok a => f a | Raise e => Raise e end.

(** [from_dict]: the three subscripts and the two [get]s are evaluated
    before the constructor runs (so a missing key leaves the oracles
    untouched); [id] and [timestamp] are overwritten afterwards. *)
Definition from_dict (data : list (string * pyval)) (w : World) : res t * World :=
  let args :=
    rbind (rbind (subscript data "type") (as_str "type")) (fun ty =>
    rbind (subscript data "payload") (fun pl =>
    rbind (rbind (subscript data "source") (as_str "source")) (fun src =>
    rbind (as_opt_str "target" (dget String.eqb "target" data)) (fun tgt =>
    rbind (as_opt_str "correlation_id" (dget String.eqb "correlation_id" data)) (fun cid =>
    Ok (ty, pl, src, tgt, cid)))))) in
  match args with
  | Raise e => (Raise e, w)
  | Ok (ty, pl, src, tgt, cid) =>
      let '(msg, w1) := init ty pl src tgt cid w in
      (rbind (rbind (subscript data "id") (as_str "id")) (fun new_id =>
       rbind (rbind (subscript data "timestamp") (as_str "timestamp")) (fun iso =>
       rbind (Datetime.fromisoformat iso) (fun ts =>
       Ok (mk new_id ts (message_type msg) (payload msg) (source msg) (target msg)
              (correlation_id msg))))), w1)
  end.
End WithOracles.

End MCPMessage.

(** ** [agents/base_agent.py]: the agent *)

(** [asyncio.Queue(maxsize)]: [maxsize <= 0] means unbounded. *)
Module Queue.
Record t (A : Type) : Type := mk { maxsize : Z; items : list A }.
Arguments mk {A} maxsize items.
Arguments maxsize {A} _.
Arguments items {A} _.

Definition full {A} (q : t A) : bool :=
  if (maxsize q <=? 0)%Z then false
  else (maxsize q <=? Z.of_nat (length (items q)))%Z.

(** [await put(x)]: [None] when the caller would have to wait for a free
    slot. *)
Definition put {A} (x : A) (q : t A) : option (t A) :=
  if full q then None else Some (mk (maxsize q) (items q ++ [x])).

(** [get] under [wait_for]: [None] is the timeout on an empty queue. *)
Definition get {A} (q : t A) : option (A * t A) :=
  match items q with
  | [] => None
  | x :: r => Some (x, mk (maxsize q) r)
  end.
End Queue.

Module BaseAgent.

(** What one call of a handler does.  [Raises] covers the exceptions
    derived from [Exception]. *)
Inductive handler_result : Type :=
| Returns (response : option MCPMessage.t)
| Raises (e : exn).

(** The three handlers every agent registers, and the handlers of a
    subclass, given by their result on each message. *)
Inductive handler : Type :=
| handle_ping
| handle_heartbeat_request
| handle_status_request
| subclass_handler (f : MCPMessage.t -> handler_result).

Record t : Type := mk {
  agent_id : string;
  agent_type : string;
  capabilities : list string;
  status : string;
  last_heartbeat : datetime;
  message_handlers : list (string * handler);
  message_queue : Queue.t MCPMessage.t;
  running : bool;
  tasks_processed : nat;
  errors : nat
}.

Definition set_message_handlers (h : list (string * handler)) (a : t) : t :=
  mk (agent_id a) (agent_type a) (capabilities a) (status a) (last_heartbeat a)
     h (message_queue a) (running a) (tasks_processed a) (errors a).

Definition set_message_queue (q : Queue.t MCPMessage.t) (a : t) : t :=
  mk (agent_id a) (agent_type a) (capabilities a) (status a) (last_heartbeat a)
     (message_handlers a) q (running a) (tasks_processed a) (errors a).

Definition set_running (b : bool) (a : t) : t :=
  mk (agent_id a) (agent_type a) (capabilities a) (status a) (last_heartbeat a)
     (message_handlers a) (message_queue a) b (tasks_processed a) (errors a).

Definition incr_tasks_processed (a : t) : t :=
  mk (agent_id a) (agent_type a) (capabilities a) (status a) (last_heartbeat a)
     (message_handlers a) (message_queue a) (running a) (S (tasks_processed a)) (errors a).

Definition incr_errors (a : t) : t :=
  mk (agent_id a) (agent_type a) (capabilities a) (status a) (last_heartbeat a)
     (message_handlers a) (message_queue a) (running a) (tasks_processed a) (S (errors a)).

Definition register_handler (message_type : string) (h : handler) (self : t) : t :=
  set_message_handlers (dset String.eqb message_type h (message_handlers self)) self.

Section WithOracles.
Variable urandom : nat -> N.
Variable clock : nat -> datetime.

(** [BaseAgent.__init__] *)
Definition init (agent_id agent_type : string) (capabilities : list string)
    (w : World) : t * World :=
  let '(now, w1) := utcnow clock w in
  let self := mk agent_id agent_type capabilities "starting" now []
                 (Queue.mk 0 []) false 0 0 in
  (register_handler "status_request" handle_status_request
     (register_handler "heartbeat_request" handle_heartbeat_request
        (register_handler "ping" handle_ping self)), w1).

(** [send_message]: two [print]s; [json.dumps] stands between them. *)
Definition send_message (self : t) (message : MCPMessage.t) (w : World)
  : res unit * World :=
  let w1 := print (OutSending (agent_id self) (MCPMessage.message_type message)
                     (MCPMessage.target message)) w in
  match json_dumps (MCPMessage.payload message) with
  | Ok text => (Ok tt, print (OutPayload text) w1)
  | Raise e => (Raise e, w1)
  end.

(** [receive_message]: [await self.message_queue.put(message)]. *)
Definition receive_message (self : t) (message : MCPMessage.t) : option t :=
  match Queue.put message (message_queue self) with
  | Some q => Some (set_message_queue q self)
  | None => None
  end.

Definition py_strs (l : list string) : pyval := PyList (map PyStr l).
Definition py_nat (n : nat) : pyval := PyInt (Z.of_nat n).

Definition _handle_ping (self : t) (message : MCPMessage.t) (w : World)
  : MCPMessage.t * World :=
  let '(now, w1) := utcnow clock w in
  MCPMessage.init urandom clock "pong"
    (PyDict [("timestamp", PyStr (Datetime.isoformat now))])
    (agent_id self) (Some (MCPMessage.source message))
    (Some (MCPMessage.correlation_id message)) w1.

Definition _handle_heartbeat_request (self : t) (message : MCPMessage.t) (w : World)
  : MCPMessage.t * World :=
  MCPMessage.init urandom clock "heartbeat_response"
    (PyDict [("agent_id", PyStr (agent_id self));
             ("status", PyStr (status self));
             ("last_heartbeat", PyStr (Datetime.isoformat (last_heartbeat self)));
             ("capabilities", py_strs (capabilities self));
             ("tasks_processed", py_nat (tasks_processed self));
             ("errors", py_nat (errors self))])
    (agent_id self) (Some (MCPMessage.source message))
    (Some (MCPMessage.correlation_id message)) w.

Definition _handle_status_request (self : t) (message : MCPMessage.t) (w : World)
  : MCPMessage.t * World :=
  let '(now, w1) := utcnow clock w in
  MCPMessage.init urandom clock "status_response"
    (PyDict [("agent_id", PyStr (agent_id self));
             ("agent_type", PyStr (agent_type self));
             ("status", PyStr (status self));
             ("capabilities", py_strs (capabilities self));
             ("uptime", PyFloat (Datetime.to_us now - Datetime.to_us (last_heartbeat self))
                                1000000);
             ("performance",
              PyDict [("tasks_processed", py_nat (tasks_processed self));
                      ("errors", py_nat (errors self));
                      ("error_rate", PyFloat (Z.of_nat (errors self))
                                             (Z.of_nat (Nat.max (tasks_processed self) 1)))])])
    (agent_id self) (Some (MCPMessage.source message))
    (Some (MCPMessage.correlation_id message)) w1.

(** [await handler(message)] *)
Definition call_handler (self : t) (h : handler) (message : MCPMessage.t) (w : World)
  : handler_result * World :=
  match h with
  | handle_ping =>
      let '(r, w1) := _handle_ping self message w in (Returns (Some r), w1)
  | handle_heartbeat_request =>
      let '(r, w1) := _handle_heartbeat_request self message w in (Returns (Some r), w1)
  | handle_status_request =>
      let '(r, w1) := _handle_status_request self message w in (Returns (Some r), w1)
  | subclass_handler f => (f message, w)
  end.

(** The reply built in the [except] branch of [_process_message]. *)
Definition error_response (self : t) (message : MCPMessage.t) (e : exn) (w : World)
  : MCPMessage.t * World :=
  MCPMessage.init urandom clock "error"
    (PyDict [("error", PyStr (exc_text e));
             ("original_message", PyDict (MCPMessage.to_dict message))])
    (agent_id self) (Some (MCPMessage.source message))
    (Some (MCPMessage.correlation_id message)) w.

(** [_process_message].  The [try] block covers the handler call and the
    sending of its response; the [except] branch prints, builds the
    error reply and sends it outside any guard. *)
Definition _process_message (self : t) (message : MCPMessage.t) (w : World)
  : res unit * World :=
  match dget String.eqb (MCPMessage.message_type message) (message_handlers self) with
  | Some h =>
      let '(r, w1) := call_handler self h message w in
      let guarded :=
        match r with
        | Returns (Some response) => send_message self response w1
        | Returns None => (Ok tt, w1)
        | Raises e => (Raise e, w1)
        end in
      match guarded with
      | (Ok _, w2) => (Ok tt, w2)
      | (Raise e, w2) =>
          let w3 := print (OutHandlerError (MCPMessage.message_type message)
                             (exc_text e)) w2 in
          let '(reply, w4) := error_response self message e w3 in
          send_message self reply w4
      end
  | None => (Ok tt, print (OutNoHandler (MCPMessage.message_type message)) w)
  end.

(** One turn of the [while self.running] loop of [_message_loop]: a
    timeout on the empty mailbox, or one message taken and processed. *)
Definition loop_iteration (self : t) (w : World) : t * World :=
  match Queue.get (message_queue self) with
  | None => (self, w)
  | Some (message, q) =>
      let self1 := set_message_queue q self in
      match _process_message self1 message w with
      | (Ok _, w1) => (incr_tasks_processed self1, w1)
      | (Raise e, w1) =>
          (incr_errors self1, print (OutLoopError (agent_id self1) (exc_text e)) w1)
      end
  end.

(** [_message_loop], for at most [fuel] turns. *)
Fixpoint _message_loop (fuel : nat) (self : t) (w : World) : t * World :=
  match fuel with
  | O => (self, w)
  | S n =>
      if running self then
        let '(self1, w1) := loop_iteration self w in _message_loop n self1 w1
      else (self, w)
  end.
Definition set_last_heartbeat (d : datetime) (a : t) : t :=
  mk (agent_id a) (agent_type a) (capabilities a) (status a) d
     (message_handlers a) (message_queue a) (running a) (tasks_processed a) (errors a).

(** The [try] block of one turn of [_heartbeat_loop], up to the sleep: the
    heartbeat is stamped, built and sent. *)
Definition heartbeat_body (self : t) (w : World) : res unit * t * World :=
  let '(now, w1) := utcnow clock w in
  let self1 := set_last_heartbeat now self in
  let '(heartbeat, w2) :=
    MCPMessage.init urandom clock "heartbeat"
      (PyDict [("agent_id", PyStr (agent_id self1));
               ("status", PyStr (status self1));
               ("timestamp", PyStr (Datetime.isoformat (last_heartbeat self1)));
               ("tasks_processed", py_nat (tasks_processed self1));
               ("errors", py_nat (errors self1))])
      (agent_id self1) (Some "registry") None w1 in
  let '(r, w3) := send_message self1 heartbeat w2 in
  (r, self1, w3).

End WithOracles.

End BaseAgent.

(** ** [models/__init__.py]: message kinds and the bus message *)
Inductive MessageType : Type :=
| LOG_ANALYSIS
| INCIDENT_DETECTED
| ROOT_CAUSE_REQUEST
| REMEDIATION_REQUEST
| ANALYSIS_RESULT
| AGENT_STATUS
| HEARTBEAT
| ERROR.

Definition MessageType_index (k : MessageType) : nat :=
  match k with
  | LOG_ANALYSIS => 0 | INCIDENT_DETECTED => 1 | ROOT_CAUSE_REQUEST => 2
  | REMEDIATION_REQUEST => 3 | ANALYSIS_RESULT => 4 | AGENT_STATUS => 5
  | HEARTBEAT => 6 | ERROR => 7
  end.

Definition MessageType_eqb (a b : MessageType) : bool :=
  (MessageType_index a =? MessageType_index b)%nat.

Module AgentMessage.

Record t : Type := mk {
  id : string;
  sender_id : string;
  recipient_id : string;
  message_type : MessageType;
  data : list (string * pyval);
  timestamp : datetime;
  correlation_id : option string
}.

Section WithOracles.
Variable urandom : nat -> N.
Variable clock : nat -> datetime.

(** [AgentMessage.__init__] over its keyword arguments: a missing or falsy [id] is replaced
    by a fresh UUID, a missing [timestamp] by the current time (a
    [datetime] is always truthy); [correlation_id] keeps its declared
    default [None]. *)
Definition init (id : option string) (sender_id recipient_id : string)
    (message_type : MessageType) (data : list (string * pyval))
    (timestamp : option datetime) (correlation_id : option string) (w : World)
  : t * World :=
  let '(the_id, w1) :=
    match id with
    | Some s => if str_truthy s then (s, w) else uuid4 urandom w
    | None => uuid4 urandom w
    end in
  let '(the_ts, w2) :=
    match timestamp with
    | Some ts => (ts, w1)
    | None => utcnow clock w1
    end in
  (mk the_id sender_id recipient_id message_type data the_ts correlation_id, w2).
End WithOracles.

End AgentMessage.

(** ** [messaging/message_bus.py]: the bus *)

(** [deque(maxlen=n).append(x)]: the element is appended, then the left end
    is dropped if the bound is exceeded. *)
Definition deque_append {A : Type} (maxlen : nat) (q : list A) (x : A) : list A :=
  let q' := q ++ [x] in
  if (maxlen <? length q')%nat then tl q' else q'.

Module MessageBus.

(** The bus only stores the agent object; its identity stands for it. *)
Definition agent_ref : Type := nat.

(** A synchronous handler override: what awaiting it on a message does. *)
Definition handler : Type := AgentMessage.t -> res unit.

Record Stats : Type := mkStats {
  messages_sent : nat;
  messages_delivered : nat;
  messages_failed : nat;
  messages_dropped : nat
}.

Record t : Type := mk {
  max_queue_size : nat;
  agents : list (string * agent_ref);
  message_queues : list (string * list AgentMessage.t);
  subscribers : list (MessageType * list string);
  message_handlers : list (string * list (MessageType * handler));
  message_history : list AgentMessage.t;
  message_ttl : Z;
  running : bool;
  stats : Stats
}.

Definition set_agents (x : list (string * agent_ref)) (b : t) : t :=
  mk (max_queue_size b) x (message_queues b) (subscribers b) (message_handlers b)
     (message_history b) (message_ttl b) (running b) (stats b).

Definition set_message_queues (x : list (string * list AgentMessage.t)) (b : t) : t :=
  mk (max_queue_size b) (agents b) x (subscribers b) (message_handlers b)
     (message_history b) (message_ttl b) (running b) (stats b).

Definition set_subscribers (x : list (MessageType * list string)) (b : t) : t :=
  mk (max_queue_size b) (agents b) (message_queues b) x (message_handlers b)
     (message_history b) (message_ttl b) (running b) (stats b).

Definition set_message_handlers (x : list (string * list (MessageType * handler)))
    (b : t) : t :=
  mk (max_queue_size b) (agents b) (message_queues b) (subscribers b) x
     (message_history b) (message_ttl b) (running b) (stats b).

Definition set_message_history (x : list AgentMessage.t) (b : t) : t :=
  mk (max_queue_size b) (agents b) (message_queues b) (subscribers b) (message_handlers b)
     x (message_ttl b) (running b) (stats b).

Definition set_running (x : bool) (b : t) : t :=
  mk (max_queue_size b) (agents b) (message_queues b) (subscribers b) (message_handlers b)
     (message_history b) (message_ttl b) x (stats b).

Definition set_stats (x : Stats) (b : t) : t :=
  mk (max_queue_size b) (agents b) (message_queues b) (subscribers b) (message_handlers b)
     (message_history b) (message_ttl b) (running b) x.

Definition incr_sent (b : t) : t :=
  let s := stats b in
  set_stats (mkStats (S (messages_sent s)) (messages_delivered s) (messages_failed s)
               (messages_dropped s)) b.

Definition incr_delivered (b : t) : t :=
  let s := stats b in
  set_stats (mkStats (messages_sent s) (S (messages_delivered s)) (messages_failed s)
               (messages_dropped s)) b.

Definition incr_failed (b : t) : t :=
  let s := stats b in
  set_stats (mkStats (messages_sent s) (messages_delivered s) (S (messages_failed s))
               (messages_dropped s)) b.

(** [MessageBus.__init__]; the time-to-live is kept in microseconds. *)
Definition init (max_queue_size : nat) (message_ttl_minutes : Z) : t :=
  mk max_queue_size [] [] [] [] [] (message_ttl_minutes * 60 * 1000000)%Z false
     (mkStats 0 0 0 0).

Definition register_agent (agent_id : string) (agent : agent_ref) (self : t) : t :=
  set_agents (dset String.eqb agent_id agent (agents self)) self.

(** The loop over [self.subscribers.values()] of [unregister_agent]. *)
Definition purge_subscriber (agent_id : string) (subs : list (MessageType * list string))
  : list (MessageType * list string) :=
  map (fun kv => (fst kv,
                  if str_in agent_id (snd kv) then list_remove agent_id (snd kv)
                  else snd kv)) subs.

Definition unregister_agent (agent_id : string) (self : t) : t :=
  if dmem String.eqb agent_id (agents self) then
    let self1 := set_agents (ddel String.eqb agent_id (agents self)) self in
    let self2 :=
      if dmem String.eqb agent_id (message_queues self1)
      then set_message_queues (ddel String.eqb agent_id (message_queues self1)) self1
      else self1 in
    set_subscribers (purge_subscriber agent_id (subscribers self2)) self2
  else self.

(** [self.subscribers[message_type]] on the [defaultdict(list)]: a missing
    key is inserted with an empty list. *)
Definition subscribers_at (message_type : MessageType) (self : t)
  : list string * t :=
  match dget MessageType_eqb message_type (subscribers self) with
  | Some l => (l, self)
  | None => ([], set_subscribers (dset MessageType_eqb message_type [] (subscribers self)) self)
  end.

Definition subscribe (agent_id : string) (message_type : MessageType)
    (h : option handler) (self : t) : t :=
  let '(l, self1) := subscribers_at message_type self in
  let self2 :=
    if str_in agent_id l then self1
    else set_subscribers
           (dset MessageType_eqb message_type (l ++ [agent_id]) (subscribers self1)) self1 in
  match h with
  | Some f =>
      let own := match dget String.eqb agent_id (message_handlers self2) with
                 | Some d => d
                 | None => []
                 end in
      set_message_handlers
        (dset String.eqb agent_id (dset MessageType_eqb message_type f own)
           (message_handlers self2)) self2
  | None => self2
  end.

Definition unsubscribe (agent_id : string) (message_type : MessageType) (self : t) : t :=
  let '(l, self1) := subscribers_at message_type self in
  let self2 :=
    if str_in agent_id l
    then set_subscribers
           (dset MessageType_eqb message_type (list_remove agent_id l) (subscribers self1))
           self1
    else self1 in
  match dget String.eqb agent_id (message_handlers self2) with
  | Some own =>
      if dmem MessageType_eqb message_type own
      then set_message_handlers
             (dset String.eqb agent_id (ddel MessageType_eqb message_type own)
                (message_handlers self2)) self2
      else self2
  | None => self2
  end.

(** [_send_to_recipient] *)
Definition _send_to_recipient (message : AgentMessage.t) (self : t) : bool * t :=
  let recipient_id := AgentMessage.recipient_id message in
  if negb (dmem String.eqb recipient_id (agents self)) then
    (false, incr_failed self)
  else
    let q := match dget String.eqb recipient_id (message_queues self) with
             | Some q => q
             | None => []
             end in
    let self1 :=
      set_message_queues
        (dset String.eqb recipient_id (deque_append (max_queue_size self) q message)
           (message_queues self)) self in
    match dget String.eqb recipient_id (message_handlers self1) with
    | Some own =>
        match dget MessageType_eqb (AgentMessage.message_type message) own with
        | Some h =>
            match h message with
            | Ok _ => (true, incr_delivered self1)
            | Raise _ => (true, incr_delivered self1)
            end
        | None => (true, incr_delivered self1)
        end
    | None => (true, incr_delivered self1)
    end.

Section WithOracles.
Variable urandom : nat -> N.
Variable clock : nat -> datetime.

(** The per-recipient message built in the loop of
    [_broadcast_message]. *)
Definition recipient_copy (message : AgentMessage.t) (agent_id : string) (w : World)
  : AgentMessage.t * World :=
  AgentMessage.init urandom clock None
    (AgentMessage.sender_id message) agent_id (AgentMessage.message_type message)
    (match AgentMessage.data message with [] => [] | d => d end)
    (Some (AgentMessage.timestamp message)) None w.

Fixpoint broadcast_loop (message : AgentMessage.t) (targets : list string)
    (success_count : nat) (self : t) (w : World) : nat * t * World :=
  match targets with
  | [] => (success_count, self, w)
  | agent_id :: rest =>
      let '(agent_message, w1) := recipient_copy message agent_id w in
      let '(sent_ok, self1) := _send_to_recipient agent_message self in
      broadcast_loop message rest
        (if sent_ok then S success_count else success_count) self1 w1
  end.

Definition _broadcast_message (message : AgentMessage.t) (self : t) (w : World)
  : bool * t * World :=
  let targets :=
    match dget MessageType_eqb (AgentMessage.message_type message) (subscribers self) with
    | Some l => l
    | None => []
    end in
  match targets with
  | [] => (true, self, w)
  | _ =>
      let '(success_count, self1, w1) := broadcast_loop message targets 0 self w in
      ((success_count =? length targets)%nat, self1, w1)
  end.

(** [_cleanup_old_messages]: [utcnow() - self.message_ttl] leaves the
    range of [datetime] with [OverflowError]. *)
Definition _cleanup_old_messages (self : t) (w : World) : res unit * t * World :=
  let '(now, w1) := utcnow clock w in
  let cutoff := (Datetime.to_us now - message_ttl self)%Z in
  if ((cutoff <? Datetime.min_us) || (Datetime.max_us <? cutoff))%Z then
    (Raise (Exn "OverflowError" "date value out of range"), self, w1)
  else
    (Ok tt,
     set_message_history
       (filter (fun msg => (cutoff <? Datetime.to_us (AgentMessage.timestamp msg))%Z)
          (message_history self)) self,
     w1).

Definition is_broadcast (recipient_id : string) : bool :=
  (recipient_id =? "broadcast") || (recipient_id =? "*").

(** [send_message] *)
Definition send_message (message : AgentMessage.t) (self : t) (w : World)
  : bool * t * World :=
  let self1 := incr_sent self in
  let self2 := set_message_history (message_history self1 ++ [message]) self1 in
  match _cleanup_old_messages self2 w with
  | (Raise _, self3, w1) => (false, incr_failed self3, w1)
  | (Ok _, self3, w1) =>
      if is_broadcast (AgentMessage.recipient_id message)
      then _broadcast_message message self3 w1
      else let '(r, self4) := _send_to_recipient message self3 in (r, self4, w1)
  end.

(** [publish_event] *)
Definition publish_event (event_type : MessageType) (sender_id : string)
    (data : list (string * pyval)) (self : t) (w : World) : bool * t * World :=
  let '(now, w1) := utcnow clock w in
  let '(event_message, w2) :=
    AgentMessage.init urandom clock None sender_id "broadcast" event_type data
      (Some now) None w1 in
  send_message event_message self w2.
End WithOracles.

(** [get_messages]: up to [limit] messages are taken from the front. *)
Definition get_messages (agent_id : string) (limit : nat) (self : t)
  : list AgentMessage.t * t :=
  match dget String.eqb agent_id (message_queues self) with
  | None => ([], self)
  | Some q =>
      (firstn limit q,
       set_message_queues (dset String.eqb agent_id (skipn limit q) (message_queues self))
         self)
  end.

Definition peek_messages (agent_id : string) (limit : nat) (self : t)
  : list AgentMessage.t :=
  match dget String.eqb agent_id (message_queues self) with
  | None => []
  | Some q => firstn limit q
  end.

Definition get_queue_size (agent_id : string) (self : t) : nat :=
  match dget String.eqb agent_id (message_queues self) with
  | None => 0
  | Some q => length q
  end.

(** [start] and [stop] *)
Definition start (self : t) : t := set_running true self.

Definition stop (self : t) : t :=
  set_message_history [] (set_message_queues [] (set_running false self)).

(** [lst[start:]] for a list: a negative start counts from the end, and both
    ends are clamped. *)
Definition slice_from {A : Type} (start : Z) (l : list A) : list A :=
  let n := Z.of_nat (length l) in
  let s := if (start <? 0)%Z then Z.max (n + start) 0 else Z.min start n in
  skipn (Z.to_nat s) l.

(** [str(msg.message_type)] for the [str]-mixin enumeration. *)
Definition MessageType_str (k : MessageType) : string :=
  "MessageType." ++
  match k with
  | LOG_ANALYSIS => "LOG_ANALYSIS"
  | INCIDENT_DETECTED => "INCIDENT_DETECTED"
  | ROOT_CAUSE_REQUEST => "ROOT_CAUSE_REQUEST"
  | REMEDIATION_REQUEST => "REMEDIATION_REQUEST"
  | ANALYSIS_RESULT => "ANALYSIS_RESULT"
  | AGENT_STATUS => "AGENT_STATUS"
  | HEARTBEAT => "HEARTBEAT"
  | ERROR => "ERROR"
  end.

Definition history_entry (msg : AgentMessage.t) : list (string * pyval) :=
  [ ("sender_id", PyStr (AgentMessage.sender_id msg));
    ("recipient_id", PyStr (AgentMessage.recipient_id msg));
    ("message_type", PyStr (MessageType_str (AgentMessage.message_type msg)));
    ("timestamp", PyStr (Datetime.isoformat (AgentMessage.timestamp msg)));
    ("data_keys", PyList (map (fun kv => PyStr (fst kv)) (AgentMessage.data msg))) ].

(** [get_message_history]: the slice [message_history[-limit:]] is taken
    first, the kind filter (a member of the enumeration is always truthy)
    is applied to the slice. *)
Definition get_message_history (limit : Z) (message_type : option MessageType) (self : t)
  : list (list (string * pyval)) :=
  let messages := slice_from (- limit) (message_history self) in
  let messages :=
    match message_type with
    | Some k => filter (fun msg => MessageType_eqb (AgentMessage.message_type msg) k) messages
    | None => messages
    end in
  map history_entry messages.

End MessageBus.

(** ** [messaging/message_bus.py]: the registry *)
Module EnhancedAgentRegistry.

(** The per-agent dictionary built by [register_agent]. *)
Record agent_info : Type := mkInfo {
  agent_type : string;
  capabilities : list string;
  status : string;
  last_heartbeat : datetime;
  registered_at : datetime;
  message_count : nat;
  error_count : nat;
  instance : MessageBus.agent_ref
}.

Definition set_status (s : string) (i : agent_info) : agent_info :=
  mkInfo (agent_type i) (capabilities i) s (last_heartbeat i) (registered_at i)
         (message_count i) (error_count i) (instance i).

Definition set_last_heartbeat (d : datetime) (i : agent_info) : agent_info :=
  mkInfo (agent_type i) (capabilities i) (status i) d (registered_at i)
         (message_count i) (error_count i) (instance i).

(** The registry holds a reference to the bus; the bus is threaded next
    to it.  Both timeouts are in seconds. *)
Record t : Type := mk {
  agents : list (string * agent_info);
  heartbeat_interval : Z;
  heartbeat_timeout : Z
}.

Definition set_agents (x : list (string * agent_info)) (r : t) : t :=
  mk x (heartbeat_interval r) (heartbeat_timeout r).

Definition init : t := mk [] 30 60.

Section WithOracles.
Variable urandom : nat -> N.
Variable clock : nat -> datetime.

Definition register_agent (agent_id agent_type : string) (capabilities : list string)
    (agent_instance : MessageBus.agent_ref) (self : t) (bus : MessageBus.t) (w : World)
  : t * MessageBus.t * World :=
  let '(hb, w1) := utcnow clock w in
  let '(reg, w2) := utcnow clock w1 in
  (set_agents
     (dset String.eqb agent_id
        (mkInfo agent_type capabilities "active" hb reg 0 0 agent_instance)
        (agents self)) self,
   MessageBus.register_agent agent_id agent_instance bus,
   w2).

Definition unregister_agent (agent_id : string) (self : t) (bus : MessageBus.t)
  : t * MessageBus.t :=
  if dmem String.eqb agent_id (agents self)
  then (set_agents (ddel String.eqb agent_id (agents self)) self,
        MessageBus.unregister_agent agent_id bus)
  else (self, bus).

Definition update_heartbeat (agent_id : string) (self : t) (w : World) : t * World :=
  match dget String.eqb agent_id (agents self) with
  | Some info =>
      let '(now, w1) := utcnow clock w in
      (set_agents
         (dset String.eqb agent_id (set_status "active" (set_last_heartbeat now info))
            (agents self)) self, w1)
  | None => (self, w)
  end.

(** The test of the sweep:
    [current_time - last_heartbeat > timedelta(seconds=heartbeat_timeout)]. *)
Definition timed_out (current_time : datetime) (timeout : Z) (info : agent_info) : bool :=
  (timeout * 1000000 <? Datetime.to_us current_time - Datetime.to_us (last_heartbeat info))%Z.

Definition status_event (agent_id : string) (info : agent_info)
  : list (string * pyval) :=
  [ ("agent_id", PyStr agent_id);
    ("status", PyStr "inactive");
    ("last_heartbeat", PyStr (Datetime.isoformat (last_heartbeat info))) ].

(** The body of the loop of [check_agent_health] over
    [self.agents.items()].  Besides the states, the model returns the
    payloads handed to [publish_event], in order. *)
Fixpoint health_loop (current_time : datetime) (timeout : Z)
    (entries : list (string * agent_info)) (bus : MessageBus.t) (w : World)
  : list (string * agent_info) * MessageBus.t * World * list (list (string * pyval)) :=
  match entries with
  | [] => ([], bus, w, [])
  | (agent_id, info) :: rest =>
      if timed_out current_time timeout info && negb (status info =? "inactive") then
        let ev := status_event agent_id info in
        let '(_, bus1, w1) :=
          MessageBus.publish_event urandom clock AGENT_STATUS "registry" ev bus w in
        let '(rest', bus2, w2, evs) := health_loop current_time timeout rest bus1 w1 in
        ((agent_id, set_status "inactive" info) :: rest', bus2, w2, ev :: evs)
      else
        let '(rest', bus2, w2, evs) := health_loop current_time timeout rest bus w in
        ((agent_id, info) :: rest', bus2, w2, evs)
  end.

Definition check_agent_health (self : t) (bus : MessageBus.t) (w : World)
  : t * MessageBus.t * World * list (list (string * pyval)) :=
  let '(current_time, w1) := utcnow clock w in
  let '(entries, bus1, w2, evs) :=
    health_loop current_time (heartbeat_timeout self) (agents self) bus w1 in
  (set_agents entries self, bus1, w2, evs).
End WithOracles.

Definition contains (x : string) (l : list string) : bool := str_in x l.

Definition find_agents_by_capability (capability : string) (self : t) : list string :=
  map fst (filter (fun kv => contains capability (capabilities (snd kv))
                             && (status (snd kv) =? "active")) (agents self)).

Definition find_agents_by_type (the_type : string) (self : t) : list string :=
  map fst (filter (fun kv => (agent_type (snd kv) =? the_type)
                             && (status (snd kv) =? "active")) (agents self)).

Definition get_agent_info (agent_id : string) (self : t) : option agent_info :=
  dget String.eqb agent_id (agents self).

(** The entries of the registry after an operation, for the operations
    that can be invoked on it. *)
Inductive operation : Type :=
| OpRegister (agent_id agent_type : string) (capabilities : list string)
             (agent_instance : MessageBus.agent_ref)
| OpUnregister (agent_id : string)
| OpUpdateHeartbeat (agent_id : string)
| OpCheckHealth
| OpFindByCapability (capability : string)
| OpFindByType (agent_type : string)
| OpGetInfo (agent_id : string)
| OpGetAll.

Definition run (urandom : nat -> N) (clock : nat -> datetime) (op : operation)
    (self : t) (bus : MessageBus.t) (w : World) : t * MessageBus.t * World :=
  match op with
  | OpRegister a ty caps inst => register_agent clock a ty caps inst self bus w
  | OpUnregister a => let '(r, b) := unregister_agent a self bus in (r, b, w)
  | OpUpdateHeartbeat a => let '(r, w1) := update_heartbeat clock a self w in (r, bus, w1)
  | OpCheckHealth =>
      let '(r, b, w1, _) := check_agent_health urandom clock self bus w in (r, b, w1)
  | OpFindByCapability _ | OpFindByType _ | OpGetInfo _ | OpGetAll => (self, bus, w)
  end.

End EnhancedAgentRegistry.

(** ** [models/__init__.py]: incidents *)
Module Incident.

(** The fields of the model; [confidence_score] is a float, kept as the
    rational it rounds.  Timeline and evidence entries are dictionaries. *)
Record t : Type := mk {
  id : string;
  title : string;
  description : string;
  severity : string;
  status : string;
  created_at : datetime;
  updated_at : datetime;
  resolved_at : option datetime;
  affected_services : list string;
  root_cause : option string;
  confidence_score : option (Z * Z);
  evidence : list (list (string * pyval));
  remediation_steps : list string;
  timeline : list (list (string * pyval));
  assigned_to : option string;
  tags : list string
}.

Definition set_status (x : string) (i : t) : t :=
  mk (id i) (title i) (description i) (severity i) x (created_at i) (updated_at i) (resolved_at i) (affected_services i) (root_cause i) (confidence_score i) (evidence i) (remediation_steps i) (timeline i) (assigned_to i) (tags i).

Definition set_updated_at (x : datetime) (i : t) : t :=
  mk (id i) (title i) (description i) (severity i) (status i) (created_at i) x (resolved_at i) (affected_services i) (root_cause i) (confidence_score i) (evidence i) (remediation_steps i) (timeline i) (assigned_to i) (tags i).

Definition set_resolved_at (x : option datetime) (i : t) : t :=
  mk (id i) (title i) (description i) (severity i) (status i) (created_at i) (updated_at i) x (affected_services i) (root_cause i) (confidence_score i) (evidence i) (remediation_steps i) (timeline i) (assigned_to i) (tags i).

Definition set_evidence (x : list (list (string * pyval))) (i : t) : t :=
  mk (id i) (title i) (description i) (severity i) (status i) (created_at i) (updated_at i) (resolved_at i) (affected_services i) (root_cause i) (confidence_score i) x (remediation_steps i) (timeline i) (assigned_to i) (tags i).

Definition set_timeline (x : list (list (string * pyval))) (i : t) : t :=
  mk (id i) (title i) (description i) (severity i) (status i) (created_at i) (updated_at i) (resolved_at i) (affected_services i) (root_cause i) (confidence_score i) (evidence i) (remediation_steps i) x (assigned_to i) (tags i).

Section WithOracles.
Variable clock : nat -> datetime.

(** [add_timeline_entry]: the entry is stamped with one clock reading,
    [updated_at] with the next. *)
Definition add_timeline_entry (event details : string) (self : t) (w : World) : t * World :=
  let '(now, w1) := utcnow clock w in
  let self1 :=
    set_timeline (timeline self ++ [[("timestamp", PyStr (Datetime.isoformat now));
                                     ("event", PyStr event);
                                     ("details", PyStr details)]]) self in
  let '(now2, w2) := utcnow clock w1 in
  (set_updated_at now2 self1, w2).

(** [add_evidence] *)
Definition add_evidence (evidence_type : string) (data : pyval) (self : t) (w : World)
  : t * World :=
  let '(now, w1) := utcnow clock w in
  (set_evidence (evidence self ++ [[("type", PyStr evidence_type);
                                    ("timestamp", PyStr (Datetime.isoformat now));
                                    ("data", data)]]) self, w1).

(** [update_status] *)
Definition update_status (new_status reason : string) (self : t) (w : World) : t * World :=
  let old_status := status self in
  let self1 := set_status new_status self in
  let '(now, w1) := utcnow clock w in
  let self2 := set_updated_at now self1 in
  let '(self3, w2) :=
    if new_status =? "resolved"
    then let '(now2, w2) := utcnow clock w1 in (set_resolved_at (Some now2) self2, w2)
    else (self2, w1) in
  add_timeline_entry ("Status changed from " ++ old_status ++ " to " ++ new_status) reason
    self3 w2.
End WithOracles.

(** The methods that change an incident. *)
Inductive operation : Type :=
| OpTimeline (event details : string)
| OpEvidence (evidence_type : string) (data : pyval)
| OpStatus (new_status reason : string).

Definition step (clock : nat -> datetime) (op : operation) (s : t * World) : t * World :=
  match op with
  | OpTimeline event details => add_timeline_entry clock event details (fst s) (snd s)
  | OpEvidence ty data => add_evidence clock ty data (fst s) (snd s)
  | OpStatus st reason => update_status clock st reason (fst s) (snd s)
  end.

Definition run (clock : nat -> datetime) (ops : list operation) (s : t * World) : t * World :=
  fold_left (fun s op => step clock op s) ops s.

Definition adds_timeline (op : operation) : bool :=
  match op with OpEvidence _ _ => false | _ => true end.

Definition adds_evidence (op : operation) : bool :=
  match op with OpEvidence _ _ => true | _ => false end.

End Incident.

(** ** Drivers and sample data

    Sequences of calls against one object, and the concrete inputs on which
    the statements below are evaluated. *)

(** [receive_message] for each message in turn. *)
Fixpoint receive_all (msgs : list MCPMessage.t) (a : BaseAgent.t) : option BaseAgent.t :=
  match msgs with
  | [] => Some a
  | m :: rest =>
      match BaseAgent.receive_message a m with
      | Some a' => receive_all rest a'
      | None => None
      end
  end.

(** [_send_to_recipient] for each message in turn. *)
Definition deliver_all (msgs : list AgentMessage.t) (bus : MessageBus.t) : MessageBus.t :=
  fold_left (fun b m => snd (MessageBus._send_to_recipient m b)) msgs bus.

(** The mailbox the bus keeps for an agent ([[]] when there is none). *)
Definition mailbox (agent_id : string) (bus : MessageBus.t) : list AgentMessage.t :=
  match dget String.eqb agent_id (MessageBus.message_queues bus) with
  | Some q => q
  | None => []
  end.

(** The last [n] elements of a list. *)
Definition lastn {A : Type} (n : nat) (l : list A) : list A := skipn (length l - n) l.

(** The subscribers of a kind, and how many of them are registered. *)
Definition subscribers_of (kind : MessageType) (bus : MessageBus.t) : list string :=
  match dget MessageType_eqb kind (MessageBus.subscribers bus) with
  | Some l => l
  | None => []
  end.

Definition registered (bus : MessageBus.t) (agent_id : string) : bool :=
  dmem String.eqb agent_id (MessageBus.agents bus).

(** Whether the cutoff computed by the next [_cleanup_old_messages] stays in
    the range of [datetime]. *)
Definition cutoff_in_range (clock : nat -> datetime) (bus : MessageBus.t) (w : World) : bool :=
  let cutoff := (Datetime.to_us (clock (ticks w)) - MessageBus.message_ttl bus)%Z in
  negb ((cutoff <? Datetime.min_us) || (Datetime.max_us <? cutoff))%Z.

(** The test [msg.timestamp > cutoff_time] of the next cleanup. *)
Definition newer_than_cutoff (clock : nat -> datetime) (bus : MessageBus.t) (w : World)
    (msg : AgentMessage.t) : bool :=
  (Datetime.to_us (clock (ticks w)) - MessageBus.message_ttl bus
   <? Datetime.to_us (AgentMessage.timestamp msg))%Z.

(** The state in which [send_message] routes a message: counted as sent,
    appended to the history, the history cleaned. *)
Definition accepted (clock : nat -> datetime) (message : AgentMessage.t)
    (bus : MessageBus.t) (w : World) : MessageBus.t :=
  MessageBus.set_message_history
    (filter (newer_than_cutoff clock bus w) (MessageBus.message_history bus ++ [message]))
    (MessageBus.incr_sent bus).

Definition tick (w : World) : World := mkWorld (draws w) (S (ticks w)) (stdout w).

(** How many per-recipient deliveries one [send_message] attempts: one for
    each subscriber of the kind on a broadcast, one otherwise (a direct
    send, or the failure recorded when the cleanup raises). *)
Definition delivery_attempts (clock : nat -> datetime) (message : AgentMessage.t)
    (bus : MessageBus.t) (w : World) : nat :=
  if cutoff_in_range clock bus w && MessageBus.is_broadcast (AgentMessage.recipient_id message)
  then length (subscribers_of (AgentMessage.message_type message) bus)
  else 1.

(** The condition under which the sweep flips an entry and publishes. *)
Definition flips (now : datetime) (timeout : Z) (info : EnhancedAgentRegistry.agent_info)
  : bool :=
  EnhancedAgentRegistry.timed_out now timeout info
  && negb (EnhancedAgentRegistry.status info =? "inactive").

(** The status events of a sweep that concern one agent. *)
Definition event_about (agent_id : string) (ev : list (string * pyval)) : bool :=
  match dget String.eqb "agent_id" ev with
  | Some (PyStr s) => s =? agent_id
  | _ => false
  end.

Definition events_about (agent_id : string) (evs : list (list (string * pyval)))
  : list (list (string * pyval)) :=
  filter (event_about agent_id) evs.

Definition status_of (agent_id : string) (reg : EnhancedAgentRegistry.t) : option string :=
  match EnhancedAgentRegistry.get_agent_info agent_id reg with
  | Some info => Some (EnhancedAgentRegistry.status info)
  | None => None
  end.

Module Sample.

Definition urandom (n : nat) : N := N.of_nat n.

(** A clock that stands still, and one that advances a minute per
    reading. *)
Definition noon (_ : nat) : datetime := Datetime.mk 2024 1 1 12 0 0 0.
Definition minutes (n : nat) : datetime := Datetime.mk 2024 1 1 12 (Z.of_nat n) 0 0.

Definition world0 : World := mkWorld 0 0 [].

(** An agent with one subclass handler that always raises and one that
    answers nothing. *)
Definition boom : exn := Exn "RuntimeError" "boom".

Definition agent0 : BaseAgent.t :=
  BaseAgent.register_handler "quiet" (BaseAgent.subclass_handler (fun _ => BaseAgent.Returns None))
    (BaseAgent.register_handler "explode"
       (BaseAgent.subclass_handler (fun _ => BaseAgent.Raises boom))
       (BaseAgent.set_running true
          (fst (BaseAgent.init noon "analyzer-1" "reasoning" ["analysis"] world0)))).

Definition request (kind : string) (payload : pyval) : MCPMessage.t :=
  fst (MCPMessage.init urandom noon kind payload "client" (Some "analyzer-1") None
         (mkWorld 7 0 [])).

Definition bad_request : MCPMessage.t := request "explode" (PyDict [("entries", PyInt 3)]).
Definition quiet_request : MCPMessage.t := request "quiet" (PyDict []).
Definition opaque_request : MCPMessage.t :=
  request "explode" (PyDict [("since", PyObj "datetime")]).

Definition agent_with (msgs : list MCPMessage.t) : BaseAgent.t :=
  BaseAgent.set_message_queue (Queue.mk 0 msgs) agent0.

(** A bus with two registered agents subscribed to [LOG_ANALYSIS]. *)
Definition bus2 : MessageBus.t :=
  MessageBus.subscribe "B" LOG_ANALYSIS None
    (MessageBus.subscribe "A" LOG_ANALYSIS None
       (MessageBus.register_agent "B" 2
          (MessageBus.register_agent "A" 1 (MessageBus.init 1000 60)))).

Definition broadcast_msg : AgentMessage.t :=
  AgentMessage.mk "m-0" "ingester-1" "broadcast" LOG_ANALYSIS [("entries", PyInt 3)]
    (noon 0) (Some "req-1").

Definition direct_msg (n : nat) (recipient : string) : AgentMessage.t :=
  AgentMessage.mk (Uuid.uuid4 (N.of_nat n)) "ingester-1" recipient LOG_ANALYSIS
    [("entries", PyInt (Z.of_nat n))] (noon 0) None.

(** A bus with mailboxes of capacity 2 and one registered agent. *)
Definition small_bus : MessageBus.t :=
  MessageBus.register_agent "A" 1 (MessageBus.init 2 60).

Definition three_requests : list MCPMessage.t :=
  [bad_request; quiet_request; opaque_request].

Definition three_sends : list AgentMessage.t :=
  [direct_msg 1 "A"; direct_msg 2 "A"; direct_msg 3 "A"].

(** A bus whose only agent was subscribed with a synchronous handler and
    then unregistered. *)
Definition bus_after_unregister : MessageBus.t :=
  MessageBus.unregister_agent "A"
    (MessageBus.subscribe "A" HEARTBEAT (Some (fun _ => Ok tt))
       (MessageBus.register_agent "A" 1 (MessageBus.init 1000 60))).

(** A registry in which agent [A] was registered at 12:00 and swept at
    12:02 without a heartbeat in between. *)
Definition registered_A : EnhancedAgentRegistry.t * MessageBus.t * World :=
  EnhancedAgentRegistry.register_agent minutes "A" "reasoning" ["analysis"] 1
    EnhancedAgentRegistry.init (MessageBus.init 1000 60) world0.

Definition reg_A : EnhancedAgentRegistry.t := fst (fst registered_A).
Definition bus_A : MessageBus.t := snd (fst registered_A).
Definition world_A : World := snd registered_A.
Definition info_A : EnhancedAgentRegistry.agent_info :=
  EnhancedAgentRegistry.mkInfo "reasoning" ["analysis"] "active" (minutes 0) (minutes 1) 0 0 1.

Definition swept_A : EnhancedAgentRegistry.t * MessageBus.t * World :=
  let '(r, b, w) := registered_A in
  EnhancedAgentRegistry.run urandom minutes EnhancedAgentRegistry.OpCheckHealth r b w.

End Sample.

(** ** [agents/base_agent.py]: the in-process registry and bus

    The module also defines a plain registry of agent objects and a bus
    that hands messages to the mailboxes of the registered agents.  Their
    [print] lines are kept in a console of their own. *)
Inductive console : Type :=
| ConRegistered (agent_id agent_type : string)
| ConUnregistered (agent_id : string)
| ConNotConnected
| ConTargetNotFound (target : string).

Module AgentRegistry.

(** [agents] maps an identifier to the agent object registered under it. *)
Record t : Type := mk { agents : list (string * BaseAgent.t) }.

Definition init : t := mk [].

Definition register_agent (agent : BaseAgent.t) (self : t) (out : list console)
  : t * list console :=
  (mk (dset String.eqb (BaseAgent.agent_id agent) agent (agents self)),
   out ++ [ConRegistered (BaseAgent.agent_id agent) (BaseAgent.agent_type agent)]).

Definition unregister_agent (agent_id : string) (self : t) (out : list console)
  : t * list console :=
  if dmem String.eqb agent_id (agents self)
  then (mk (ddel String.eqb agent_id (agents self)), out ++ [ConUnregistered agent_id])
  else (self, out).

Definition get_agent (agent_id : string) (self : t) : option BaseAgent.t :=
  dget String.eqb agent_id (agents self).

Definition get_all_agents (self : t) : list BaseAgent.t := map snd (agents self).

Definition get_agents_by_type (agent_type : string) (self : t) : list BaseAgent.t :=
  filter (fun a => BaseAgent.agent_type a =? agent_type) (get_all_agents self).

Definition get_agents_by_capability (capability : string) (self : t) : list BaseAgent.t :=
  filter (fun a => str_in capability (BaseAgent.capabilities a)) (get_all_agents self).

End AgentRegistry.

Module LocalBus.

(** The loop [for agent in ...: if agent.agent_id != message.source: await
    agent.receive_message(message)] over the agent objects selected by
    [pick]; the objects are updated in place.  [None]: a full mailbox made
    the caller wait. *)
Fixpoint deliver_each (pick : BaseAgent.t -> bool) (message : MCPMessage.t)
    (entries : list (string * BaseAgent.t)) : option (list (string * BaseAgent.t)) :=
  match entries with
  | [] => Some []
  | (k, agent) :: rest =>
      if pick agent && negb (BaseAgent.agent_id agent =? MCPMessage.source message) then
        match BaseAgent.receive_message agent message with
        | Some agent' =>
            match deliver_each pick message rest with
            | Some rest' => Some ((k, agent') :: rest')
            | None => None
            end
        | None => None
        end
      else
        match deliver_each pick message rest with
        | Some rest' => Some ((k, agent) :: rest')
        | None => None
        end
  end.


(** [MessageBus.send_message] of [base_agent.py]; [registry] is what
    [self.registry] refers to. *)
Definition send_message (registry : option AgentRegistry.t) (message : MCPMessage.t)
    (out : list console) : option (option AgentRegistry.t * list console) :=
  match registry with
  | None => Some (None, out ++ [ConNotConnected])
  | Some reg =>
      match MCPMessage.target message with
      | Some target =>
          if str_truthy target then
            match AgentRegistry.get_agent target reg with
            | Some agent =>
                match BaseAgent.receive_message agent message with
                | Some agent' =>
                    Some (Some (AgentRegistry.mk
                                  (dset String.eqb target agent' (AgentRegistry.agents reg))),
                          out)
                | None => None
                end
            | None => Some (Some reg, out ++ [ConTargetNotFound target])
            end
          else
            match deliver_each (fun _ => true) message (AgentRegistry.agents reg) with
            | Some entries => Some (Some (AgentRegistry.mk entries), out)
            | None => None
            end
      | None =>
          match deliver_each (fun _ => true) message (AgentRegistry.agents reg) with
          | Some entries => Some (Some (AgentRegistry.mk entries), out)
          | None => None
          end
      end
  end.


End LocalBus.

(** An agent with one more message at the end of its mailbox. *)
Definition with_message (message : MCPMessage.t) (a : BaseAgent.t) : BaseAgent.t :=
  BaseAgent.set_message_queue
    (Queue.mk (Queue.maxsize (BaseAgent.message_queue a))
       (Queue.items (BaseAgent.message_queue a) ++ [message])) a.

(** The kind of the reply of each built-in handler. *)
Definition builtin_kind (h : BaseAgent.handler) : string :=
  match h with
  | BaseAgent.handle_ping => "pong"
  | BaseAgent.handle_heartbeat_request => "heartbeat_response"
  | _ => "status_response"
  end.

(** The synchronous handler the bus holds for an agent and a kind. *)
Definition sync_handler (agent_id : string) (kind : MessageType) (bus : MessageBus.t)
  : option MessageBus.handler :=
  match dget String.eqb agent_id (MessageBus.message_handlers bus) with
  | Some own => dget MessageType_eqb kind own
  | None => None
  end.

(** ** Sequences of operations on the bus and on the registry *)
Inductive bus_op : Type :=
| BusRegister (agent_id : string) (agent : MessageBus.agent_ref)
| BusUnregister (agent_id : string)
| BusSubscribe (agent_id : string) (kind : MessageType) (h : option MessageBus.handler)
| BusUnsubscribe (agent_id : string) (kind : MessageType)
| BusSend (message : AgentMessage.t)
| BusPublish (kind : MessageType) (sender_id : string) (data : list (string * pyval))
| BusGet (agent_id : string) (limit : nat)
| BusStart
| BusStop.

Definition bus_step (urandom : nat -> N) (clock : nat -> datetime) (op : bus_op)
    (s : MessageBus.t * World) : MessageBus.t * World :=
  let '(bus, w) := s in
  match op with
  | BusRegister a r => (MessageBus.register_agent a r bus, w)
  | BusUnregister a => (MessageBus.unregister_agent a bus, w)
  | BusSubscribe a k h => (MessageBus.subscribe a k h bus, w)
  | BusUnsubscribe a k => (MessageBus.unsubscribe a k bus, w)
  | BusSend m =>
      let '(_, bus1, w1) := MessageBus.send_message urandom clock m bus w in (bus1, w1)
  | BusPublish k sender data =>
      let '(_, bus1, w1) := MessageBus.publish_event urandom clock k sender data bus w in
      (bus1, w1)
  | BusGet a limit => (snd (MessageBus.get_messages a limit bus), w)
  | BusStart => (MessageBus.start bus, w)
  | BusStop => (MessageBus.stop bus, w)
  end.

Definition bus_run (urandom : nat -> N) (clock : nat -> datetime) (ops : list bus_op)
    (s : MessageBus.t * World) : MessageBus.t * World :=
  fold_left (fun s op => bus_step urandom clock op s) ops s.

(** Subscriber lists without repetition and mailboxes within the bound. *)
Definition bus_wf (bus : MessageBus.t) : Prop :=
  (forall kind l, dget MessageType_eqb kind (MessageBus.subscribers bus) = Some l -> NoDup l)
  /\ (forall a q, dget String.eqb a (MessageBus.message_queues bus) = Some q ->
                  (length q <= MessageBus.max_queue_size bus)%nat).

Definition registry_run (urandom : nat -> N) (clock : nat -> datetime)
    (ops : list EnhancedAgentRegistry.operation)
    (s : EnhancedAgentRegistry.t * MessageBus.t * World)
  : EnhancedAgentRegistry.t * MessageBus.t * World :=
  fold_left (fun s op => let '(r, b, w) := s in EnhancedAgentRegistry.run urandom clock op r b w)
    ops s.

(** The registry and the bus know the same agents. *)
Definition agree (reg : EnhancedAgentRegistry.t) (bus : MessageBus.t) : Prop :=
  forall agent_id,
    dmem String.eqb agent_id (EnhancedAgentRegistry.agents reg) = registered bus agent_id.

(* ================================================================== *)
(** * Part II: properties *)
(* ================================================================== *)

(** ** Sanity checks of the embedding on concrete inputs *)

Example uuid4_sample :
  Uuid.uuid4 0 = "00000000-0000-4000-8000-000000000000".
Proof. vm_compute. reflexivity. Qed.

Example isoformat_sample :
  Datetime.isoformat (Datetime.mk 2024 3 9 7 5 0 42) = "2024-03-09T07:05:00.000042"
  /\ Datetime.fromisoformat "2024-03-09T07:05:00.000042" = Ok (Datetime.mk 2024 3 9 7 5 0 42)
  /\ Datetime.fromisoformat "2024-02-30T07:05:00"
     = Raise (Exn "ValueError" "Invalid isoformat string: 2024-02-30T07:05:00").
Proof. vm_compute. repeat split. Qed.

Example swept_A_status :
  let '(r, _, _) := Sample.swept_A in status_of "A" r = Some "inactive".
Proof. vm_compute. reflexivity. Qed.

Example bad_request_iteration :
  let '(a, w) := BaseAgent.loop_iteration Sample.urandom Sample.noon
                   (Sample.agent_with [Sample.bad_request]) Sample.world0 in
  (BaseAgent.tasks_processed a, BaseAgent.errors a, length (stdout w)) = (1, 0, 3)%nat.
Proof. vm_compute. reflexivity. Qed.

(** ** Facts about the library models *)

Section DictFacts.
Context {K V : Type} (eqb : K -> K -> bool).
Hypothesis eqb_eq : forall a b, eqb a b = true <-> a = b.

Lemma eqb_refl_key (k : K) : eqb k k = true.
Proof. now apply eqb_eq. Qed.

Lemma eqb_neq_key (a b : K) : a <> b -> eqb a b = false.
Proof.
  intros H. destruct (eqb a b) eqn:E; [|reflexivity].
  apply eqb_eq in E. contradiction.
Qed.

Lemma dget_dset_same (k : K) (v : V) (d : list (K * V)) :
  dget eqb k (dset eqb k v d) = Some v.
Proof.
  induction d as [|[k' v'] r IH]; simpl.
  - now rewrite eqb_refl_key.
  - destruct (eqb k k') eqn:E; simpl; rewrite E; auto.
Qed.

Lemma dget_dset_other (k k0 : K) (v : V) (d : list (K * V)) :
  k0 <> k -> dget eqb k0 (dset eqb k v d) = dget eqb k0 d.
Proof.
  intros Hne. induction d as [|[k' v'] r IH]; simpl.
  - now rewrite (eqb_neq_key _ _ Hne).
  - destruct (eqb k k') eqn:E; simpl.
    + apply eqb_eq in E. subst k'. now rewrite (eqb_neq_key _ _ Hne).
    + now rewrite IH.
Qed.

Lemma dget_ddel_same (k : K) (d : list (K * V)) : dget eqb k (ddel eqb k d) = None.
Proof.
  induction d as [|[k' v'] r IH]; simpl; [reflexivity|].
  destruct (eqb k k') eqn:E; simpl; [|rewrite E]; auto.
Qed.

Lemma dget_ddel_other (k k0 : K) (d : list (K * V)) :
  k0 <> k -> dget eqb k0 (ddel eqb k d) = dget eqb k0 d.
Proof.
  intros Hne. induction d as [|[k' v'] r IH]; simpl; [reflexivity|].
  destruct (eqb k k') eqn:E; simpl.
  - apply eqb_eq in E. subst k'. now rewrite (eqb_neq_key _ _ Hne).
  - now rewrite IH.
Qed.

Lemma dset_keys_present (k : K) (v v0 : V) (d : list (K * V)) :
  dget eqb k d = Some v0 -> map fst (dset eqb k v d) = map fst d.
Proof.
  induction d as [|[k' v'] r IH]; simpl; [discriminate|].
  destruct (eqb k k') eqn:E; simpl; intros H; [reflexivity|].
  now rewrite IH.
Qed.

Lemma dget_in_keys (k : K) (v : V) (d : list (K * V)) :
  dget eqb k d = Some v -> In k (map fst d).
Proof.
  induction d as [|[k' v'] r IH]; simpl; [discriminate|].
  destruct (eqb k k') eqn:E; intros H.
  - left. symmetry. now apply eqb_eq.
  - right. auto.
Qed.

Lemma dget_not_in_keys (k : K) (d : list (K * V)) :
  ~ In k (map fst d) -> dget eqb k d = None.
Proof.
  induction d as [|[k' v'] r IH]; simpl; [reflexivity|].
  intros H. rewrite eqb_neq_key by (intros ->; apply H; now left).
  apply IH. intros Hin. apply H. now right.
Qed.
End DictFacts.

Lemma MessageType_eqb_eq (a b : MessageType) : MessageType_eqb a b = true <-> a = b.
Proof.
  split.
  - destruct a, b; simpl; intros H; try reflexivity; discriminate.
  - intros ->. destruct b; reflexivity.
Qed.

Lemma uuid_str_truthy (i : N) : str_truthy (Uuid.uuid_str i) = true.
Proof.
  unfold Uuid.uuid_str.
  destruct (firstn 8 (Uuid.hex_fixed 32 i)); reflexivity.
Qed.

Lemma uuid4_truthy (r : N) : str_truthy (Uuid.uuid4 r) = true.
Proof. apply uuid_str_truthy. Qed.

Lemma opt_str_or_truthy (x : option string) (y : string) :
  str_truthy y = true -> str_truthy (opt_str_or x y) = true.
Proof.
  intros Hy. destruct x as [s|]; simpl; [|exact Hy].
  destruct (str_truthy s) eqn:E; assumption.
Qed.

Lemma opt_str_or_keep (s y : string) :
  str_truthy s = true -> opt_str_or (Some s) y = s.
Proof. intros H. simpl. now rewrite H. Qed.

(** *** Decimal fields *)

Lemma digit_val_char (d : Z) : (0 <= d < 10)%Z -> Datetime.digit_val (Datetime.digit_char d) = Some d.
Proof.
  intros H.
  assert (d = 0 \/ d = 1 \/ d = 2 \/ d = 3 \/ d = 4 \/ d = 5 \/ d = 6 \/ d = 7
          \/ d = 8 \/ d = 9)%Z as C by lia.
  repeat (destruct C as [-> | C]; [reflexivity|]). subst d. reflexivity.
Qed.

Lemma parse_fixed (k : nat) : forall (n acc : Z) (r : list ascii),
  (0 <= n < 10 ^ Z.of_nat k)%Z ->
  Datetime.parse_digits k acc (Datetime.fixed k n ++ r) = Some (acc * 10 ^ Z.of_nat k + n, r)%Z.
Proof.
  induction k as [|k IH]; intros n acc r H.
  - simpl in *. f_equal. f_equal. lia.
  - rewrite Nat2Z.inj_succ, Z.pow_succ_r in * by lia.
    set (p := (10 ^ Z.of_nat k)%Z) in *.
    assert (0 < p)%Z as Hp by (subst p; apply Z.pow_pos_nonneg; lia).
    cbn [Datetime.fixed Datetime.parse_digits app]. fold p.
    assert (0 <= n / p < 10)%Z as Hq.
    { split; [apply Z.div_pos; lia|]. apply Z.div_lt_upper_bound; lia. }
    rewrite (digit_val_char _ Hq).
    rewrite IH by (fold p; apply Z.mod_pos_bound; lia).
    fold p. f_equal. f_equal.
    pose proof (Z.div_mod n p ltac:(lia)) as E.
    replace ((10 * acc + n / p) * p)%Z with (acc * (10 * p) + p * (n / p))%Z by ring.
    lia.
Qed.

Lemma days_in_month_le (y m : Z) : (Datetime.days_in_month y m <= 31)%Z.
Proof.
  unfold Datetime.days_in_month.
  repeat match goal with |- context [if ?c then _ else _] => destruct c end; lia.
Qed.

Lemma valid_ranges (t : datetime) :
  Datetime.valid t = true ->
  (0 <= Datetime.year t < 10 ^ 4 /\ 0 <= Datetime.month t < 10 ^ 2
   /\ 0 <= Datetime.day t < 10 ^ 2 /\ 0 <= Datetime.hour t < 10 ^ 2
   /\ 0 <= Datetime.minute t < 10 ^ 2 /\ 0 <= Datetime.second t < 10 ^ 2
   /\ 0 <= Datetime.microsecond t < 10 ^ 6)%Z.
Proof.
  unfold Datetime.valid. intros H.
  repeat (apply andb_true_iff in H; destruct H as [H ?]).
  repeat match goal with
         | X : (_ <=? _)%Z = true |- _ => apply Z.leb_le in X
         | X : (_ <? _)%Z = true |- _ => apply Z.ltb_lt in X
         end.
  pose proof (days_in_month_le (Datetime.year t) (Datetime.month t)).
  change (10 ^ 4)%Z with 10000%Z. change (10 ^ 2)%Z with 100%Z.
  change (10 ^ 6)%Z with 1000000%Z. lia.
Qed.

(** [fromisoformat] is a left inverse of [isoformat] on every [datetime]. *)
Lemma fromisoformat_isoformat (t : datetime) :
  Datetime.valid t = true -> Datetime.fromisoformat (Datetime.isoformat t) = Ok t.
Proof.
  intros Hv. pose proof (valid_ranges t Hv) as (Hy & Hm & Hd & Hh & Hmi & Hs & Hus).
  unfold Datetime.fromisoformat, Datetime.isoformat.
  rewrite list_ascii_of_string_of_list_ascii.
  assert (Datetime.fromisoformat_chars (Datetime.isoformat_chars t) = Some t) as ->;
    [|reflexivity].
  unfold Datetime.fromisoformat_chars, Datetime.isoformat_chars.
  rewrite (parse_fixed 4) by exact Hy. cbn [Datetime.bind Datetime.expect Ascii.eqb Bool.eqb].
  rewrite (parse_fixed 2) by exact Hm. cbn [Datetime.bind Datetime.expect Ascii.eqb Bool.eqb].
  rewrite (parse_fixed 2) by exact Hd. cbn [Datetime.bind Datetime.any_char].
  rewrite (parse_fixed 2) by exact Hh. cbn [Datetime.bind Datetime.expect Ascii.eqb Bool.eqb].
  rewrite (parse_fixed 2) by exact Hmi. cbn [Datetime.bind Datetime.expect Ascii.eqb Bool.eqb].
  rewrite (parse_fixed 2) by exact Hs. cbn [Datetime.bind].
  assert (Datetime.parse_fraction
            (if (Datetime.microsecond t =? 0)%Z then []
             else "."%char :: Datetime.fixed 6 (Datetime.microsecond t))
          = Some (Datetime.microsecond t)) as ->.
  { destruct (Datetime.microsecond t =? 0)%Z eqn:E.
    - apply Z.eqb_eq in E. now rewrite E.
    - unfold Datetime.parse_fraction.
      cbn [Datetime.expect Ascii.eqb Bool.eqb].
      rewrite <- (app_nil_r (Datetime.fixed 6 _)).
      rewrite (parse_fixed 6) by exact Hus. reflexivity. }
  cbn [Datetime.bind].
  replace (0 * 10 ^ Z.of_nat 4 + Datetime.year t)%Z with (Datetime.year t) by lia.
  repeat match goal with
         | |- context [(0 * 10 ^ Z.of_nat 2 + ?x)%Z] =>
             replace (0 * 10 ^ Z.of_nat 2 + x)%Z with x by lia
         end.
  destruct t; cbn [Datetime.year Datetime.month Datetime.day Datetime.hour
                   Datetime.minute Datetime.second Datetime.microsecond] in *.
  now rewrite Hv.
Qed.

(** ** The MCP envelope *)

Section Envelope.
Variable urandom : nat -> N.
Variable clock : nat -> datetime.

Lemma init_fields ty pl src tgt cid w :
  let m := fst (MCPMessage.init urandom clock ty pl src tgt cid w) in
  MCPMessage.id m = Uuid.uuid4 (urandom (draws w))
  /\ MCPMessage.timestamp m = clock (ticks w)
  /\ MCPMessage.message_type m = ty
  /\ MCPMessage.payload m = pl
  /\ MCPMessage.source m = src
  /\ MCPMessage.target m = tgt
  /\ MCPMessage.correlation_id m = opt_str_or cid (MCPMessage.id m).
Proof. cbn. repeat split. Qed.

Lemma init_correlation_truthy ty pl src tgt cid w :
  str_truthy (MCPMessage.correlation_id
                (fst (MCPMessage.init urandom clock ty pl src tgt cid w))) = true.
Proof. cbn. apply opt_str_or_truthy, uuid4_truthy. Qed.

(** Any envelope with a well-formed timestamp and a non-empty correlation
    id survives the trip through its record. *)
Lemma from_dict_to_dict (m : MCPMessage.t) (w : World) :
  Datetime.valid (MCPMessage.timestamp m) = true ->
  str_truthy (MCPMessage.correlation_id m) = true ->
  fst (MCPMessage.from_dict urandom clock (MCPMessage.to_dict m) w) = Ok m.
Proof.
  intros Hv Hc. destruct m as [i ts ty pl src tgt cid].
  cbn [MCPMessage.timestamp MCPMessage.correlation_id] in Hv, Hc.
  unfold MCPMessage.from_dict, MCPMessage.to_dict, MCPMessage.subscript.
  cbn [MCPMessage.id MCPMessage.timestamp MCPMessage.message_type MCPMessage.payload
       MCPMessage.source MCPMessage.target MCPMessage.correlation_id].
  destruct tgt as [tg|]; cbn -[Datetime.fromisoformat Datetime.isoformat];
    rewrite Hc, (fromisoformat_isoformat ts Hv); reflexivity.
Qed.
End Envelope.

(** C8.  For every message [m] built by the constructor, rebuilding it from
    its record [to_dict m] gives back [m] itself: same id, timestamp, kind,
    payload, source, target and correlation id.  The record is flat, has
    the keys id, timestamp, type, payload, source, target, correlation_id in
    this order, and its timestamp entry is the ISO-8601 text of the
    timestamp. *)
Theorem C8_from_dict_to_dict_roundtrip
    (urandom : nat -> N) (clock : nat -> datetime)
    (Hclock : forall n, Datetime.valid (clock n) = true)
    (ty : string) (pl : pyval) (src : string) (tgt cid : option string) (w w' : World) :
  let m := fst (MCPMessage.init urandom clock ty pl src tgt cid w) in
  fst (MCPMessage.from_dict urandom clock (MCPMessage.to_dict m) w') = Ok m
  /\ map fst (MCPMessage.to_dict m)
     = ["id"; "timestamp"; "type"; "payload"; "source"; "target"; "correlation_id"]
  /\ dget String.eqb "timestamp" (MCPMessage.to_dict m)
     = Some (PyStr (Datetime.isoformat (MCPMessage.timestamp m))).
Proof.
  intros m. split; [|split; reflexivity].
  apply from_dict_to_dict.
  - apply Hclock.
  - apply init_correlation_truthy.
Qed.

Lemma C8_from_dict_to_dict_roundtrip_witness :
  (forall n, Datetime.valid (Sample.noon n) = true)
  /\ fst (MCPMessage.from_dict Sample.urandom Sample.noon
            (MCPMessage.to_dict Sample.bad_request) Sample.world0)
     = Ok Sample.bad_request.
Proof.
  split; [intro; reflexivity|].
  exact (proj1 (C8_from_dict_to_dict_roundtrip Sample.urandom Sample.noon
                  (fun _ => eq_refl) "explode" (PyDict [("entries", PyInt 3)]) "client"
                  (Some "analyzer-1") None (mkWorld 7 0 []) Sample.world0)).
Defined.

(** C5, as stated, fails for the bus message: an [AgentMessage] built
    without a correlation id has none, not its own identifier. *)
Lemma C5_counterexample :
  let m := fst (AgentMessage.init Sample.urandom Sample.noon None "ingester-1" "A"
                  HEARTBEAT [] None None Sample.world0) in
  AgentMessage.correlation_id m <> Some (AgentMessage.id m).
Proof. cbn. discriminate. Qed.

(** C5, amended.  An [MCPMessage] built without a correlation id has its own
    identifier as correlation id; a reply built with the correlation id of
    such a message carries the identifier of that message; an
    [AgentMessage] built without a correlation id keeps it unset. *)
Theorem C5_correlation_id_default (urandom : nat -> N) (clock : nat -> datetime) :
  (forall ty pl src tgt w,
      let m := fst (MCPMessage.init urandom clock ty pl src tgt None w) in
      MCPMessage.correlation_id m = MCPMessage.id m)
  /\ (forall ty pl src tgt w ty' pl' src' tgt' w',
      let m := fst (MCPMessage.init urandom clock ty pl src tgt None w) in
      let reply := fst (MCPMessage.init urandom clock ty' pl' src' tgt'
                          (Some (MCPMessage.correlation_id m)) w') in
      MCPMessage.correlation_id reply = MCPMessage.id m)
  /\ (forall i sender recipient kind data ts w,
      AgentMessage.correlation_id
        (fst (AgentMessage.init urandom clock i sender recipient kind data ts None w))
      = None).
Proof.
  split; [|split].
  - reflexivity.
  - intros. cbn -[Uuid.uuid4 str_truthy]. now rewrite uuid4_truthy.
  - intros. unfold AgentMessage.init.
    destruct i as [s|]; [destruct (str_truthy s)|]; destruct ts; reflexivity.
Qed.

(** ** The dispatch loop of an agent *)

Section Dispatch.
Variable urandom : nat -> N.
Variable clock : nat -> datetime.

Lemma json_serializable_reject (v : pyval) :
  json_serializable v = true -> json_reject v = None.
Proof. unfold json_serializable. destruct (json_reject v); [discriminate|reflexivity]. Qed.

(** The error reply can be printed whenever the payload of the message it
    answers can. *)
Lemma error_response_sent (self : BaseAgent.t) (message : MCPMessage.t) (e : exn) (w : World) :
  json_serializable (MCPMessage.payload message) = true ->
  let '(reply, w1) := BaseAgent.error_response urandom clock self message e w in
  BaseAgent.send_message self reply w1
  = (Ok tt,
     print (OutPayload (MCPMessage.payload reply))
           (print (OutSending (BaseAgent.agent_id self) "error"
                     (Some (MCPMessage.source message))) w1))
  /\ MCPMessage.payload reply
     = PyDict [("error", PyStr (exc_text e));
               ("original_message", PyDict (MCPMessage.to_dict message))]
  /\ MCPMessage.correlation_id reply
     = opt_str_or (Some (MCPMessage.correlation_id message)) (MCPMessage.id reply)
  /\ stdout w1 = stdout w.
Proof.
  intros Hs. apply json_serializable_reject in Hs.
  unfold BaseAgent.error_response, MCPMessage.init, uuid4, utcnow.
  cbn [fst snd draws ticks stdout].
  unfold BaseAgent.send_message, json_dumps.
  cbn [MCPMessage.payload MCPMessage.message_type MCPMessage.target
       MCPMessage.correlation_id MCPMessage.id].
  assert (json_reject
            (PyDict [("error", PyStr (exc_text e));
                     ("original_message", PyDict (MCPMessage.to_dict message))]) = None) as ->.
  { unfold MCPMessage.to_dict. cbn. rewrite Hs.
    destruct (MCPMessage.target message); reflexivity. }
  repeat split.
Qed.


(** What one turn of the loop does with a message whose handler raises. *)
Lemma raising_handler_iteration (self : BaseAgent.t) (w : World)
    (message : MCPMessage.t) (q : Queue.t MCPMessage.t)
    (f : MCPMessage.t -> BaseAgent.handler_result) (e : exn) :
  Queue.get (BaseAgent.message_queue self) = Some (message, q) ->
  dget String.eqb (MCPMessage.message_type message) (BaseAgent.message_handlers self)
  = Some (BaseAgent.subclass_handler f) ->
  f message = BaseAgent.Raises e ->
  json_serializable (MCPMessage.payload message) = true ->
  let '(self', w') := BaseAgent.loop_iteration urandom clock self w in
  BaseAgent.errors self' = BaseAgent.errors self
  /\ BaseAgent.tasks_processed self' = S (BaseAgent.tasks_processed self)
  /\ BaseAgent.running self' = BaseAgent.running self
  /\ BaseAgent.message_queue self' = q
  /\ stdout w'
     = stdout w
       ++ [OutHandlerError (MCPMessage.message_type message) (exc_text e);
           OutSending (BaseAgent.agent_id self) "error" (Some (MCPMessage.source message));
           OutPayload (PyDict [("error", PyStr (exc_text e));
                               ("original_message", PyDict (MCPMessage.to_dict message))])].
Proof.
  intros Hget Hh Hf Hs. unfold BaseAgent.loop_iteration. rewrite Hget.
  unfold BaseAgent._process_message.
  cbn [BaseAgent.set_message_queue BaseAgent.message_handlers].
  rewrite Hh. cbn [BaseAgent.call_handler]. rewrite Hf.
  cbv zeta.
  match goal with
  | |- context [BaseAgent.error_response urandom clock ?s message e ?w0] =>
      pose proof (error_response_sent s message e w0 Hs) as H;
      destruct (BaseAgent.error_response urandom clock s message e w0) as [reply w4]
  end.
  destruct H as (H1 & H2 & _ & H4). rewrite H1.
  cbn [BaseAgent.incr_tasks_processed BaseAgent.errors BaseAgent.tasks_processed
       BaseAgent.running BaseAgent.message_queue BaseAgent.agent_id].
  repeat split.
  unfold print at 1 2. cbn [stdout]. rewrite H4, H2.
  unfold print. cbn [stdout]. now rewrite <- !app_assoc.
Qed.
End Dispatch.

(** One turn of the loop takes the first message, if any, and counts it
    either as processed or as an error; the loop then goes on. *)
Lemma loop_iteration_frame (urandom : nat -> N) (clock : nat -> datetime)
    (a : BaseAgent.t) (w : World) :
  let a' := fst (BaseAgent.loop_iteration urandom clock a w) in
  BaseAgent.running a' = BaseAgent.running a
  /\ BaseAgent.message_handlers a' = BaseAgent.message_handlers a
  /\ Queue.items (BaseAgent.message_queue a') = tl (Queue.items (BaseAgent.message_queue a))
  /\ (BaseAgent.tasks_processed a' + BaseAgent.errors a'
      = BaseAgent.tasks_processed a + BaseAgent.errors a
        + Nat.min 1 (length (Queue.items (BaseAgent.message_queue a))))%nat.
Proof.
  unfold BaseAgent.loop_iteration, Queue.get.
  destruct (Queue.items (BaseAgent.message_queue a)) as [|m r] eqn:E.
  - cbn. rewrite E. repeat split. lia.
  - destruct (BaseAgent._process_message _ _ _ _ _) as [[[]|e] w1]; cbn; repeat split; lia.
Qed.

(** While the agent is running the loop survives every message: given
    enough turns it empties the mailbox, and each message was counted
    once. *)
Lemma message_loop_drains (urandom : nat -> N) (clock : nat -> datetime) (fuel : nat) :
  forall (a : BaseAgent.t) (w : World),
  BaseAgent.running a = true ->
  (length (Queue.items (BaseAgent.message_queue a)) <= fuel)%nat ->
  let a' := fst (BaseAgent._message_loop urandom clock fuel a w) in
  BaseAgent.running a' = true
  /\ Queue.items (BaseAgent.message_queue a') = []
  /\ (BaseAgent.tasks_processed a' + BaseAgent.errors a'
      = BaseAgent.tasks_processed a + BaseAgent.errors a
        + length (Queue.items (BaseAgent.message_queue a)))%nat.
Proof.
  induction fuel as [|n IH]; intros a w Hrun Hlen.
  - cbn. destruct (Queue.items (BaseAgent.message_queue a)); [|cbn in Hlen; lia].
    repeat split; auto.
  - cbn [BaseAgent._message_loop]. rewrite Hrun.
    pose proof (loop_iteration_frame urandom clock a w) as Hf.
    destruct (BaseAgent.loop_iteration urandom clock a w) as [a1 w1].
    cbn [fst] in Hf. destruct Hf as (Hr & _ & Hi & Hc).
    assert (length (Queue.items (BaseAgent.message_queue a1)) <= n)%nat as Hlen1.
    { rewrite Hi. destruct (Queue.items (BaseAgent.message_queue a)); cbn in *; lia. }
    specialize (IH a1 w1 (eq_trans Hr Hrun) Hlen1). cbv zeta in IH.
    destruct IH as (I1 & I2 & I3). repeat split; try assumption.
    rewrite I3, Hc, Hi.
    destruct (Queue.items (BaseAgent.message_queue a)); cbn; lia.
Qed.

(** C1.  The code at a message whose handler raises: the error reply is
    printed, [tasks_processed] is incremented, the next message is
    processed, and [errors] stays at 0. *)
Theorem C1_handler_failure_leaves_error_counter :
  let a := Sample.agent_with [Sample.bad_request; Sample.quiet_request] in
  let '(a1, w1) := BaseAgent.loop_iteration Sample.urandom Sample.noon a Sample.world0 in
  let '(a2, w2) := BaseAgent.loop_iteration Sample.urandom Sample.noon a1 w1 in
  BaseAgent.errors a = 0%nat
  /\ BaseAgent.errors a1 = 0%nat
  /\ BaseAgent.tasks_processed a1 = 1%nat
  /\ stdout w1
     = [OutHandlerError "explode" "boom";
        OutSending "analyzer-1" "error" (Some "client");
        OutPayload (PyDict [("error", PyStr "boom");
                            ("original_message",
                             PyDict (MCPMessage.to_dict Sample.bad_request))])]
  /\ BaseAgent.tasks_processed a2 = 2%nat
  /\ BaseAgent.errors a2 = 0%nat
  /\ Queue.items (BaseAgent.message_queue a2) = [].
Proof. vm_compute. repeat split. Qed.




(** ** The bus: counters and routing *)

Abbreviation sent b := (MessageBus.messages_sent (MessageBus.stats b)).
Abbreviation delivered b := (MessageBus.messages_delivered (MessageBus.stats b)).
Abbreviation failed b := (MessageBus.messages_failed (MessageBus.stats b)).
Abbreviation dropped b := (MessageBus.messages_dropped (MessageBus.stats b)).

Section BusCounters.
Variable urandom : nat -> N.
Variable clock : nat -> datetime.


(** One per-recipient delivery: the mailbox of a registered recipient gets
    the message and [delivered] is incremented, whatever a synchronous
    handler does; an unknown recipient only increments [failed]. *)
Lemma send_to_recipient_spec (message : AgentMessage.t) (bus : MessageBus.t) :
  let '(ok, bus') := MessageBus._send_to_recipient message bus in
  let r := AgentMessage.recipient_id message in
  MessageBus.agents bus' = MessageBus.agents bus
  /\ MessageBus.subscribers bus' = MessageBus.subscribers bus
  /\ MessageBus.message_handlers bus' = MessageBus.message_handlers bus
  /\ MessageBus.max_queue_size bus' = MessageBus.max_queue_size bus
  /\ MessageBus.message_history bus' = MessageBus.message_history bus
  /\ sent bus' = sent bus /\ dropped bus' = dropped bus
  /\ ok = registered bus r
  /\ (if registered bus r
      then delivered bus' = S (delivered bus) /\ failed bus' = failed bus
           /\ MessageBus.message_queues bus'
              = dset String.eqb r
                  (deque_append (MessageBus.max_queue_size bus) (mailbox r bus) message)
                  (MessageBus.message_queues bus)
      else delivered bus' = delivered bus /\ failed bus' = S (failed bus)
           /\ MessageBus.message_queues bus' = MessageBus.message_queues bus).
Proof.
  unfold MessageBus._send_to_recipient, registered, mailbox.
  destruct (dmem String.eqb (AgentMessage.recipient_id message) (MessageBus.agents bus));
    cbn [negb].
  - cbn [MessageBus.set_message_queues MessageBus.message_handlers].
    destruct (dget String.eqb (AgentMessage.recipient_id message)
                (MessageBus.message_handlers bus)) as [own|];
      [destruct (dget MessageType_eqb (AgentMessage.message_type message) own) as [h|];
       [destruct (h message)|]|];
      cbn; repeat split.
  - cbn. repeat split.
Qed.

Lemma recipient_copy_fields (message : AgentMessage.t) (agent_id : string) (w : World) :
  let copy := fst (MessageBus.recipient_copy urandom clock message agent_id w) in
  AgentMessage.id copy = Uuid.uuid4 (urandom (draws w))
  /\ AgentMessage.sender_id copy = AgentMessage.sender_id message
  /\ AgentMessage.recipient_id copy = agent_id
  /\ AgentMessage.message_type copy = AgentMessage.message_type message
  /\ AgentMessage.data copy = AgentMessage.data message
  /\ AgentMessage.timestamp copy = AgentMessage.timestamp message
  /\ AgentMessage.correlation_id copy = None.
Proof.
  cbn. repeat split. now destruct (AgentMessage.data message).
Qed.

Lemma broadcast_loop_spec (message : AgentMessage.t) (targets : list string) :
  forall (n : nat) (bus : MessageBus.t) (w : World),
  let '(n', bus', w') := MessageBus.broadcast_loop urandom clock message targets n bus w in
  MessageBus.agents bus' = MessageBus.agents bus
  /\ MessageBus.subscribers bus' = MessageBus.subscribers bus
  /\ MessageBus.message_handlers bus' = MessageBus.message_handlers bus
  /\ MessageBus.message_history bus' = MessageBus.message_history bus
  /\ sent bus' = sent bus /\ dropped bus' = dropped bus
  /\ n' = (n + length (filter (registered bus) targets))%nat
  /\ delivered bus' = (delivered bus + length (filter (registered bus) targets))%nat
  /\ (delivered bus' + failed bus' = delivered bus + failed bus + length targets)%nat.
Proof.
  induction targets as [|a rest IH]; intros n bus w.
  - cbn. repeat split; lia.
  - cbn [MessageBus.broadcast_loop].
    destruct (MessageBus.recipient_copy urandom clock message a w) as [copy w1] eqn:Ec.
    pose proof (recipient_copy_fields message a w) as Hc.
    rewrite Ec in Hc. cbn [fst] in Hc. destruct Hc as (_ & _ & Hr & _).
    pose proof (send_to_recipient_spec copy bus) as Hs.
    destruct (MessageBus._send_to_recipient copy bus) as [ok bus1].
    rewrite Hr in Hs. cbv zeta in Hs.
    destruct Hs as (Ha & Hsub & Hh & Hm & Hhist & Hsent & Hdrop & Hok & Hcase).
    specialize (IH (if ok then S n else n) bus1 w1).
    destruct (MessageBus.broadcast_loop urandom clock message rest _ bus1 w1)
      as [[n' bus'] w'].
    destruct IH as (Ia & Isub & Ih & Ihist & Isent & Idrop & In' & Idel & Isum).
    assert (filter (registered bus1) rest = filter (registered bus) rest) as Ef.
    { apply filter_ext. intros x. unfold registered. now rewrite Ha. }
    rewrite Ef in *. cbn [filter length].
    destruct (registered bus a); destruct Hcase as (Hd & Hf & _); subst ok;
      cbn [length]; repeat split; try congruence; lia.
Qed.

Lemma cleanup_spec (bus : MessageBus.t) (w : World) :
  let '(r, bus', w') := MessageBus._cleanup_old_messages clock bus w in
  MessageBus.agents bus' = MessageBus.agents bus
  /\ MessageBus.subscribers bus' = MessageBus.subscribers bus
  /\ MessageBus.message_handlers bus' = MessageBus.message_handlers bus
  /\ MessageBus.message_queues bus' = MessageBus.message_queues bus
  /\ MessageBus.max_queue_size bus' = MessageBus.max_queue_size bus
  /\ MessageBus.stats bus' = MessageBus.stats bus
  /\ (if cutoff_in_range clock bus w then r = Ok tt else exists e, r = Raise e).
Proof.
  unfold MessageBus._cleanup_old_messages, cutoff_in_range, utcnow.
  cbn [fst snd ticks].
  destruct ((_ <? _)%Z || (_ <? _)%Z); cbn; repeat split. eauto.
Qed.
End BusCounters.

(** What [send_message] does to the counters, on every path. *)
Lemma send_message_counters (urandom : nat -> N) (clock : nat -> datetime)
    (message : AgentMessage.t) (bus : MessageBus.t) (w : World) :
  let '(ok, bus', w') := MessageBus.send_message urandom clock message bus w in
  sent bus' = S (sent bus)
  /\ dropped bus' = dropped bus
  /\ (delivered bus <= delivered bus')%nat
  /\ (failed bus <= failed bus')%nat
  /\ (delivered bus' + failed bus'
      = delivered bus + failed bus + delivery_attempts clock message bus w)%nat
  /\ MessageBus.agents bus' = MessageBus.agents bus
  /\ MessageBus.subscribers bus' = MessageBus.subscribers bus
  /\ MessageBus.message_handlers bus' = MessageBus.message_handlers bus.
Proof.
  unfold MessageBus.send_message, delivery_attempts.
  set (bus2 := MessageBus.set_message_history _ (MessageBus.incr_sent bus)).
  pose proof (cleanup_spec clock bus2 w) as Hc.
  assert (cutoff_in_range clock bus2 w = cutoff_in_range clock bus w) as Er by reflexivity.
  rewrite Er in Hc. clear Er.
  destruct (MessageBus._cleanup_old_messages clock bus2 w) as [[r bus3] w1].
  destruct Hc as (Ha & Hsub & Hh & Hq & Hm & Hst & Hr).
  assert (sent bus3 = S (sent bus) /\ delivered bus3 = delivered bus
          /\ failed bus3 = failed bus /\ dropped bus3 = dropped bus) as (S1 & S2 & S3 & S4).
  { rewrite Hst. subst bus2. cbn. repeat split. }
  assert (MessageBus.agents bus3 = MessageBus.agents bus) as Ha' by (rewrite Ha; reflexivity).
  assert (MessageBus.subscribers bus3 = MessageBus.subscribers bus) as Hsub'
      by (rewrite Hsub; reflexivity).
  assert (MessageBus.message_handlers bus3 = MessageBus.message_handlers bus) as Hh'
      by (rewrite Hh; reflexivity).
  clearbody bus2. clear Ha Hsub Hh Hq Hm Hst.
  destruct (cutoff_in_range clock bus w).
  - subst r. cbn [andb].
    destruct (MessageBus.is_broadcast (AgentMessage.recipient_id message)).
    + unfold MessageBus._broadcast_message, subscribers_of. rewrite Hsub'.
      destruct (dget MessageType_eqb (AgentMessage.message_type message)
                  (MessageBus.subscribers bus)) as [[|a rest]|].
      * cbn. repeat split; try assumption; lia.
      * pose proof (broadcast_loop_spec urandom clock message (a :: rest) 0 bus3 w1) as Hb.
        destruct (MessageBus.broadcast_loop urandom clock message (a :: rest) 0 bus3 w1)
          as [[n' bus'] w'].
        destruct Hb as (Ba & Bsub & Bh & _ & Bsent & Bdrop & _ & Bdel & Bsum).
        pose proof (filter_length_le (registered bus3) (a :: rest)) as Hle.
        repeat split; try congruence; lia.
      * cbn. repeat split; try assumption; lia.
    + pose proof (send_to_recipient_spec message bus3) as Hs.
      destruct (MessageBus._send_to_recipient message bus3) as [ok bus'].
      cbv zeta in Hs.
      destruct Hs as (Sa & Ssub & Sh & _ & _ & Ssent & Sdrop & _ & Hcase).
      destruct (registered bus3 _); destruct Hcase as (Hd & Hf & _);
        repeat split; try congruence; lia.
  - destruct Hr as [e ->]. cbn. repeat split; try assumption; lia.
Qed.

(** C9.  A send to an identifier that is neither a broadcast sentinel nor a
    registered agent returns [False]; [messages_sent] and [messages_failed]
    grow by 1, [messages_delivered] and [messages_dropped] keep their
    values, and no mailbox is touched. *)
Theorem C9_send_to_unknown_recipient
    (urandom : nat -> N) (clock : nat -> datetime)
    (message : AgentMessage.t) (bus : MessageBus.t) (w : World) :
  MessageBus.is_broadcast (AgentMessage.recipient_id message) = false ->
  registered bus (AgentMessage.recipient_id message) = false ->
  let '(ok, bus', w') := MessageBus.send_message urandom clock message bus w in
  ok = false
  /\ sent bus' = S (sent bus)
  /\ failed bus' = S (failed bus)
  /\ delivered bus' = delivered bus
  /\ dropped bus' = dropped bus
  /\ MessageBus.message_queues bus' = MessageBus.message_queues bus.
Proof.
  intros Hb Hr. unfold MessageBus.send_message.
  set (bus2 := MessageBus.set_message_history _ (MessageBus.incr_sent bus)).
  pose proof (cleanup_spec clock bus2 w) as Hc.
  destruct (MessageBus._cleanup_old_messages clock bus2 w) as [[r bus3] w1].
  destruct Hc as (Ha & _ & _ & Hq & _ & Hst & _).
  assert (MessageBus.stats bus3 = MessageBus.stats (MessageBus.incr_sent bus)) as Hst'
      by (rewrite Hst; reflexivity).
  assert (MessageBus.message_queues bus3 = MessageBus.message_queues bus) as Hq'
      by (rewrite Hq; reflexivity).
  assert (registered bus3 (AgentMessage.recipient_id message) = false) as Hr'.
  { unfold registered in *. rewrite Ha. exact Hr. }
  clearbody bus2. clear Ha Hq Hst.
  destruct r as [[]|e].
  - rewrite Hb.
    pose proof (send_to_recipient_spec message bus3) as Hs.
    destruct (MessageBus._send_to_recipient message bus3) as [ok bus'].
    cbv zeta in Hs. rewrite Hr' in Hs.
    destruct Hs as (_ & _ & _ & _ & _ & Ssent & Sdrop & Hok & Hd & Hf & Hqq).
    rewrite Hst' in *. cbn in *. repeat split; congruence.
  - cbn. rewrite Hst'. cbn. repeat split. exact Hq'.
Qed.

Lemma C9_send_to_unknown_recipient_witness :
  let '(ok, bus', _) :=
    MessageBus.send_message Sample.urandom Sample.noon (Sample.direct_msg 1 "ghost")
      Sample.bus2 Sample.world0 in
  ok = false
  /\ sent bus' = S (sent Sample.bus2)
  /\ failed bus' = S (failed Sample.bus2)
  /\ delivered bus' = delivered Sample.bus2
  /\ dropped bus' = dropped Sample.bus2
  /\ MessageBus.message_queues bus' = MessageBus.message_queues Sample.bus2.
Proof.
  exact (C9_send_to_unknown_recipient Sample.urandom Sample.noon
           (Sample.direct_msg 1 "ghost") Sample.bus2 Sample.world0 eq_refl eq_refl).
Defined.



(** C2.  The code at a broadcast whose original carries the correlation id
    [req-1]: each of the two subscribers gets one copy with a fresh
    identifier and the kind, sender, payload and timestamp of the original,
    addressed to that subscriber, but the correlation id of the copy is
    unset. *)
Theorem C2_broadcast_copy_drops_correlation_id :
  let '(ok, bus', _) :=
    MessageBus.send_message Sample.urandom Sample.noon Sample.broadcast_msg
      Sample.bus2 Sample.world0 in
  AgentMessage.correlation_id Sample.broadcast_msg = Some "req-1"
  /\ ok = true
  /\ map (fun m => (AgentMessage.id m, AgentMessage.recipient_id m,
                    AgentMessage.correlation_id m)) (mailbox "A" bus')
     = [("00000000-0000-4000-8000-000000000000", "A", None)]
  /\ map (fun m => (AgentMessage.id m, AgentMessage.recipient_id m,
                    AgentMessage.correlation_id m)) (mailbox "B" bus')
     = [("00000000-0000-4000-8000-000000000001", "B", None)]
  /\ Forall (fun m => AgentMessage.sender_id m = AgentMessage.sender_id Sample.broadcast_msg
                      /\ AgentMessage.message_type m
                         = AgentMessage.message_type Sample.broadcast_msg
                      /\ AgentMessage.data m = AgentMessage.data Sample.broadcast_msg
                      /\ AgentMessage.timestamp m
                         = AgentMessage.timestamp Sample.broadcast_msg)
       (mailbox "A" bus' ++ mailbox "B" bus').
Proof. vm_compute. repeat split; repeat constructor. Qed.

Lemma str_in_In (x : string) (l : list string) : str_in x l = true <-> In x l.
Proof.
  induction l as [|y r IH]; cbn; [split; [discriminate|tauto]|].
  destruct (String.eqb_spec x y) as [->|Hne].
  - split; auto.
  - rewrite IH. split; [auto|]. intros [H|H]; [congruence|exact H].
Qed.

Lemma list_remove_NoDup (x : string) (l : list string) :
  NoDup l -> ~ In x (list_remove x l).
Proof.
  induction l as [|y r IH]; cbn; [tauto|].
  intros Hnd. inversion Hnd as [|? ? Hnotin Hnd']; subst.
  destruct (String.eqb_spec x y) as [->|Hne]; [exact Hnotin|].
  cbn. intros [H|H]; [congruence|]. now apply IH.
Qed.

Lemma purge_subscriber_get (agent_id : string) (kind : MessageType)
    (subs : list (MessageType * list string)) :
  dget MessageType_eqb kind (MessageBus.purge_subscriber agent_id subs)
  = match dget MessageType_eqb kind subs with
    | Some l => Some (if str_in agent_id l then list_remove agent_id l else l)
    | None => None
    end.
Proof.
  induction subs as [|[k l] r IH]; cbn; [reflexivity|].
  destruct (MessageType_eqb kind k); [reflexivity|exact IH].
Qed.

(** What [unregister_agent] does for a registered agent: the agent map, the
    mailbox map and every duplicate-free subscriber list lose the
    identifier; the table of synchronous handlers is returned as it was. *)
Lemma unregister_agent_spec (agent_id : string) (bus : MessageBus.t) :
  registered bus agent_id = true ->
  let bus' := MessageBus.unregister_agent agent_id bus in
  registered bus' agent_id = false
  /\ dmem String.eqb agent_id (MessageBus.message_queues bus') = false
  /\ (forall kind, NoDup (subscribers_of kind bus) -> ~ In agent_id (subscribers_of kind bus'))
  /\ MessageBus.message_handlers bus' = MessageBus.message_handlers bus.
Proof.
  unfold registered, MessageBus.unregister_agent. intros Hreg. rewrite Hreg.
  assert (forall kind l,
             dget MessageType_eqb kind (MessageBus.subscribers bus) = l ->
             NoDup (match l with Some x => x | None => [] end) ->
             ~ In agent_id
                 (match dget MessageType_eqb kind
                          (MessageBus.purge_subscriber agent_id (MessageBus.subscribers bus))
                  with Some x => x | None => [] end)) as Hsubs.
  { intros kind l Hl Hnd. rewrite purge_subscriber_get, Hl.
    destruct l as [l|]; [|auto].
    destruct (str_in agent_id l) eqn:E; [now apply list_remove_NoDup|].
    intros Hin. apply str_in_In in Hin. congruence. }
  destruct (dmem String.eqb agent_id
              (MessageBus.message_queues
                 (MessageBus.set_agents (ddel String.eqb agent_id (MessageBus.agents bus)) bus)))
    eqn:Eq; cbv zeta; unfold subscribers_of, dmem in *;
    cbn [MessageBus.agents MessageBus.message_queues MessageBus.subscribers
         MessageBus.message_handlers MessageBus.set_agents MessageBus.set_message_queues
         MessageBus.set_subscribers] in *;
    rewrite ?(dget_ddel_same String.eqb); repeat split;
    try (intros kind Hnd; eapply Hsubs; [reflexivity|exact Hnd]).
  exact Eq.
Qed.

(** C6.  The code after [unregister_agent]: the agent map, the mailbox map
    and the subscriber lists no longer mention the agent, but the
    synchronous handler registered for it through [subscribe] is still
    there. *)
Theorem C6_unregister_keeps_handler_override :
  let before :=
    MessageBus.subscribe "A" HEARTBEAT (Some (fun _ => Ok tt))
      (MessageBus.register_agent "A" 1 (MessageBus.init 1000 60)) in
  let after := MessageBus.unregister_agent "A" before in
  registered before "A" = true
  /\ registered after "A" = false
  /\ dmem String.eqb "A" (MessageBus.message_queues after) = false
  /\ subscribers_of HEARTBEAT after = []
  /\ dmem String.eqb "A" (MessageBus.message_handlers after) = true
  /\ match dget String.eqb "A" (MessageBus.message_handlers after) with
     | Some own => dmem MessageType_eqb HEARTBEAT own = true
     | None => False
     end.
Proof. vm_compute. repeat split. Qed.

(** ** Mailboxes *)

Lemma init_queue_unbounded (clock : nat -> datetime) (agent_id agent_type : string)
    (capabilities : list string) (w : World) :
  let a := fst (BaseAgent.init clock agent_id agent_type capabilities w) in
  Queue.maxsize (BaseAgent.message_queue a) = 0%Z
  /\ Queue.items (BaseAgent.message_queue a) = [].
Proof. cbn. split; reflexivity. Qed.

Lemma loop_iteration_maxsize (urandom : nat -> N) (clock : nat -> datetime)
    (a : BaseAgent.t) (w : World) :
  Queue.maxsize (BaseAgent.message_queue (fst (BaseAgent.loop_iteration urandom clock a w)))
  = Queue.maxsize (BaseAgent.message_queue a).
Proof.
  unfold BaseAgent.loop_iteration, Queue.get.
  destruct (Queue.items (BaseAgent.message_queue a)) as [|m r]; [reflexivity|].
  destruct (BaseAgent._process_message _ _ _ _ _) as [[[]|e] w1]; reflexivity.
Qed.

(** [put] on the queue of an agent never makes the caller wait, and nothing
    is dropped. *)
Lemma receive_all_unbounded (msgs : list MCPMessage.t) :
  forall a : BaseAgent.t,
  Queue.maxsize (BaseAgent.message_queue a) = 0%Z ->
  exists a', receive_all msgs a = Some a'
             /\ Queue.maxsize (BaseAgent.message_queue a') = 0%Z
             /\ Queue.items (BaseAgent.message_queue a')
                = Queue.items (BaseAgent.message_queue a) ++ msgs.
Proof.
  induction msgs as [|m rest IH]; intros a Hmax.
  - exists a. cbn. now rewrite app_nil_r.
  - cbn [receive_all]. unfold BaseAgent.receive_message, Queue.put, Queue.full.
    rewrite Hmax. cbn [Z.leb Z.compare].
    destruct (IH (BaseAgent.set_message_queue
                    (Queue.mk 0 (Queue.items (BaseAgent.message_queue a) ++ [m])) a)
                eq_refl) as (a' & Hr & Hm & Hi).
    exists a'. rewrite Hr. cbn in Hi. rewrite Hi, <- app_assoc. auto.
Qed.

Lemma lastn_all {A : Type} (n : nat) (l : list A) : (length l <= n)%nat -> lastn n l = l.
Proof.
  intros H. unfold lastn. replace (length l - n)%nat with 0%nat by lia. reflexivity.
Qed.

Lemma lastn_length {A : Type} (n : nat) (l : list A) :
  length (lastn n l) = Nat.min n (length l).
Proof. unfold lastn. rewrite length_skipn. lia. Qed.

Lemma lastn_app_lastn {A : Type} (n : nat) (l r : list A) :
  lastn n (lastn n l ++ r) = lastn n (l ++ r).
Proof.
  unfold lastn. rewrite !length_app, length_skipn.
  destruct (Nat.le_gt_cases (length l) n) as [H|H].
  - replace (length l - n)%nat with 0%nat by lia. cbn [skipn].
    f_equal. lia.
  - remember (length l - n)%nat as k eqn:Ek.
    replace (length l - k + length r - n)%nat with (length r) by lia.
    replace (length l + length r - n)%nat with (length r + k)%nat by lia.
    rewrite <- skipn_skipn, (skipn_app k l r).
    replace (k - length l)%nat with 0%nat by lia.
    reflexivity.
Qed.

Lemma deque_append_lastn {A : Type} (cap : nat) (q : list A) (x : A) :
  (length q <= cap)%nat -> deque_append cap q x = lastn cap (q ++ [x]).
Proof.
  intros H. unfold deque_append, lastn. rewrite length_app. cbn [length].
  destruct (cap <? length q + 1)%nat eqn:E.
  - apply Nat.ltb_lt in E. replace (length q + 1 - cap)%nat with 1%nat by lia.
    destruct (q ++ [x]); reflexivity.
  - apply Nat.ltb_ge in E. replace (length q + 1 - cap)%nat with 0%nat by lia.
    reflexivity.
Qed.

(** Direct deliveries to one registered agent keep the most recent
    [max_queue_size] messages of its mailbox, in order. *)
Lemma deliver_all_mailbox (r : string) (sends : list AgentMessage.t) :
  forall bus : MessageBus.t,
  registered bus r = true ->
  Forall (fun m => AgentMessage.recipient_id m = r) sends ->
  (length (mailbox r bus) <= MessageBus.max_queue_size bus)%nat ->
  mailbox r (deliver_all sends bus)
  = lastn (MessageBus.max_queue_size bus) (mailbox r bus ++ sends).
Proof.
  induction sends as [|m rest IH]; intros bus Hreg Hall Hlen.
  - cbn. rewrite app_nil_r. symmetry. now apply lastn_all.
  - inversion Hall as [|? ? Hm Hrest]; subst.
    unfold deliver_all. cbn [fold_left]. fold (deliver_all rest).
    pose proof (send_to_recipient_spec m bus) as Hs.
    destruct (MessageBus._send_to_recipient m bus) as [ok bus1]. cbn [snd].
    cbv zeta in Hs. rewrite Hreg in Hs.
    destruct Hs as (Ha & _ & _ & Hcap & _ & _ & _ & _ & _ & _ & Hq).
    assert (mailbox (AgentMessage.recipient_id m) bus1
            = deque_append (MessageBus.max_queue_size bus)
                (mailbox (AgentMessage.recipient_id m) bus) m) as Hbox.
    { unfold mailbox at 1. rewrite Hq.
      now rewrite (dget_dset_same String.eqb String.eqb_eq). }
    rewrite deque_append_lastn in Hbox by exact Hlen.
    rewrite IH; try assumption.
    + rewrite Hcap, Hbox, lastn_app_lastn, <- app_assoc. reflexivity.
    + unfold registered in *. now rewrite Ha.
    + rewrite Hcap, Hbox, lastn_length. lia.
Qed.

(** C4, as stated, fails for the mailbox that [receive_message] fills: with
    a configured capacity of 2, three messages received without a pop are
    all retained. *)
Lemma C4_counterexample :
  let capacity := MessageBus.max_queue_size Sample.small_bus in
  (length Sample.three_requests > capacity)%nat
  /\ match receive_all Sample.three_requests (Sample.agent_with []) with
     | Some a' =>
         Queue.items (BaseAgent.message_queue a') = Sample.three_requests
         /\ Queue.items (BaseAgent.message_queue a') <> lastn capacity Sample.three_requests
     | None => False
     end.
Proof.
  split; [cbn; lia|].
  destruct (receive_all_unbounded Sample.three_requests (Sample.agent_with []) eq_refl)
    as (a' & -> & _ & Hi).
  cbn [Sample.agent_with BaseAgent.set_message_queue BaseAgent.message_queue Queue.items app]
    in Hi.
  rewrite Hi. split; [reflexivity|].
  intros H. apply (f_equal (@length _)) in H. cbn in H. discriminate H.
Qed.

(** C4, amended.  [receive_message] enqueues into the agent's own queue,
    which is created unbounded: the call never waits and every message is
    retained, in order.  The bounded mailbox is the one the bus keeps per
    agent: after direct deliveries to a registered agent without pops it
    holds exactly the most recent [max_queue_size] messages, the oldest
    having been dropped first. *)
Theorem C4_mailbox_retention
    (a : BaseAgent.t) (msgs : list MCPMessage.t)
    (bus : MessageBus.t) (r : string) (sends : list AgentMessage.t) :
  Queue.maxsize (BaseAgent.message_queue a) = 0%Z ->
  registered bus r = true ->
  Forall (fun m => AgentMessage.recipient_id m = r) sends ->
  (length (mailbox r bus) <= MessageBus.max_queue_size bus)%nat ->
  (exists a', receive_all msgs a = Some a'
              /\ Queue.items (BaseAgent.message_queue a')
                 = Queue.items (BaseAgent.message_queue a) ++ msgs)
  /\ mailbox r (deliver_all sends bus)
     = lastn (MessageBus.max_queue_size bus) (mailbox r bus ++ sends).
Proof.
  intros Hmax Hreg Hall Hlen. split.
  - destruct (receive_all_unbounded msgs a Hmax) as (a' & Hr & _ & Hi). eauto.
  - now apply deliver_all_mailbox.
Qed.

Lemma C4_mailbox_retention_witness :
  Queue.maxsize (BaseAgent.message_queue (Sample.agent_with [])) = 0%Z
  /\ registered Sample.small_bus "A" = true
  /\ mailbox "A" (deliver_all Sample.three_sends Sample.small_bus)
     = [Sample.direct_msg 2 "A"; Sample.direct_msg 3 "A"].
Proof.
  split; [reflexivity|]. split; [reflexivity|].
  assert (Forall (fun m => AgentMessage.recipient_id m = "A") Sample.three_sends) as Hall
      by (repeat constructor).
  exact (proj2 (C4_mailbox_retention (Sample.agent_with []) Sample.three_requests
                  Sample.small_bus "A" Sample.three_sends eq_refl eq_refl Hall (le_0_n _))).
Defined.

(** ** The registry: health sweep *)

Section Health.
Variable urandom : nat -> N.
Variable clock : nat -> datetime.

Abbreviation Info := EnhancedAgentRegistry.agent_info.

Lemma event_about_status_event (agent_id a : string) (info : Info) :
  event_about agent_id (EnhancedAgentRegistry.status_event a info) = (a =? agent_id).
Proof. reflexivity. Qed.

Lemma publish_event_sent kind sender data (bus : MessageBus.t) (w : World) :
  let '(_, bus', _) := MessageBus.publish_event urandom clock kind sender data bus w in
  sent bus' = S (sent bus).
Proof.
  unfold MessageBus.publish_event.
  destruct (utcnow clock w) as [now w1].
  destruct (AgentMessage.init urandom clock None sender "broadcast" kind data (Some now)
              None w1) as [ev w2].
  pose proof (send_message_counters urandom clock ev bus w2) as H.
  destruct (MessageBus.send_message urandom clock ev bus w2) as [[ok bus'] w'].
  apply H.
Qed.

(** The sweep keeps the keys, treats the entry of an agent by [flips], and
    sends exactly the events it reports. *)
Lemma health_loop_spec (now : datetime) (timeout : Z) (entries : list (string * Info)) :
  forall (bus : MessageBus.t) (w : World),
  let '(entries', bus', w', evs) :=
    EnhancedAgentRegistry.health_loop urandom clock now timeout entries bus w in
  map fst entries' = map fst entries
  /\ sent bus' = (sent bus + length evs)%nat
  /\ (forall agent_id info,
         dget String.eqb agent_id entries = Some info ->
         dget String.eqb agent_id entries'
         = Some (if flips now timeout info
                 then EnhancedAgentRegistry.set_status "inactive" info else info))
  /\ (forall agent_id, ~ In agent_id (map fst entries) -> events_about agent_id evs = [])
  /\ (forall agent_id info,
         NoDup (map fst entries) ->
         dget String.eqb agent_id entries = Some info ->
         events_about agent_id evs
         = if flips now timeout info
           then [EnhancedAgentRegistry.status_event agent_id info] else []).
Proof.
  induction entries as [|[a i] rest IH]; intros bus w.
  - cbn. repeat split; try discriminate; auto.
  - cbn [EnhancedAgentRegistry.health_loop]. fold (flips now timeout i).
    destruct (flips now timeout i) eqn:Ef.
    + pose proof (publish_event_sent AGENT_STATUS "registry"
                    (EnhancedAgentRegistry.status_event a i) bus w) as Hp.
      destruct (MessageBus.publish_event urandom clock AGENT_STATUS "registry"
                  (EnhancedAgentRegistry.status_event a i) bus w) as [[ok bus1] w1].
      specialize (IH bus1 w1).
      destruct (EnhancedAgentRegistry.health_loop urandom clock now timeout rest bus1 w1)
        as [[[rest' bus2] w2] evs].
      destruct IH as (Ik & Is & Ig & Inone & Iev).
      split; [cbn; now rewrite Ik|]. split; [cbn; lia|]. split; [|split].
      * intros x info. cbn [dget]. destruct (x =? a) eqn:E.
        -- intros [= <-]. now rewrite Ef.
        -- apply Ig.
      * intros x Hx. cbn [map fst] in Hx. unfold events_about. cbn [filter].
        rewrite event_about_status_event.
        destruct (a =? x) eqn:E.
        -- apply String.eqb_eq in E. subst. exfalso. apply Hx. now left.
        -- apply Inone. intros Hin. apply Hx. now right.
      * intros x info Hnd. cbn [map fst] in Hnd. inversion Hnd as [|? ? Hnotin Hnd']; subst.
        cbn [dget]. unfold events_about. cbn [filter]. rewrite event_about_status_event.
        destruct (x =? a) eqn:E.
        -- apply String.eqb_eq in E. subst x. rewrite String.eqb_refl.
           intros [= <-]. rewrite Ef. f_equal. now apply Inone.
        -- rewrite String.eqb_sym, E. intros Hg. now apply Iev.
    + specialize (IH bus w).
      destruct (EnhancedAgentRegistry.health_loop urandom clock now timeout rest bus w)
        as [[[rest' bus2] w2] evs].
      destruct IH as (Ik & Is & Ig & Inone & Iev).
      split; [cbn; now rewrite Ik|]. split; [assumption|]. split; [|split].
      * intros x info. cbn [dget]. destruct (x =? a) eqn:E.
        -- intros [= <-]. now rewrite Ef.
        -- apply Ig.
      * intros x Hx. apply Inone. intros Hin. apply Hx. now right.
      * intros x info Hnd. cbn [map fst] in Hnd. inversion Hnd as [|? ? Hnotin Hnd']; subst.
        cbn [dget]. destruct (x =? a) eqn:E.
        -- apply String.eqb_eq in E. subst x.
           intros [= <-]. rewrite Ef. now apply Inone.
        -- intros Hg. now apply Iev.
Qed.

Lemma check_agent_health_spec (reg : EnhancedAgentRegistry.t) (bus : MessageBus.t) (w : World) :
  let '(reg', bus', w', evs) :=
    EnhancedAgentRegistry.check_agent_health urandom clock reg bus w in
  let now := clock (ticks w) in
  let timeout := EnhancedAgentRegistry.heartbeat_timeout reg in
  map fst (EnhancedAgentRegistry.agents reg') = map fst (EnhancedAgentRegistry.agents reg)
  /\ EnhancedAgentRegistry.heartbeat_timeout reg' = timeout
  /\ sent bus' = (sent bus + length evs)%nat
  /\ (forall agent_id info,
         EnhancedAgentRegistry.get_agent_info agent_id reg = Some info ->
         EnhancedAgentRegistry.get_agent_info agent_id reg'
         = Some (if flips now timeout info
                 then EnhancedAgentRegistry.set_status "inactive" info else info))
  /\ (forall agent_id info,
         NoDup (map fst (EnhancedAgentRegistry.agents reg)) ->
         EnhancedAgentRegistry.get_agent_info agent_id reg = Some info ->
         events_about agent_id evs
         = if flips now timeout info
           then [EnhancedAgentRegistry.status_event agent_id info] else []).
Proof.
  unfold EnhancedAgentRegistry.check_agent_health, EnhancedAgentRegistry.get_agent_info, utcnow.
  pose proof (health_loop_spec (clock (ticks w)) (EnhancedAgentRegistry.heartbeat_timeout reg)
                (EnhancedAgentRegistry.agents reg) bus
                (mkWorld (draws w) (S (ticks w)) (stdout w))) as H.
  destruct (EnhancedAgentRegistry.health_loop _ _ _ _ _ _ _) as [[[entries bus1] w2] evs].
  destruct H as (Hk & Hs & Hg & _ & He).
  cbn. repeat split; assumption.
Qed.
End Health.

Lemma update_heartbeat_activates (clock : nat -> datetime) (agent_id : string)
    (reg : EnhancedAgentRegistry.t) (w : World) (info : EnhancedAgentRegistry.agent_info) :
  EnhancedAgentRegistry.get_agent_info agent_id reg = Some info ->
  let reg' := fst (EnhancedAgentRegistry.update_heartbeat clock agent_id reg w) in
  EnhancedAgentRegistry.get_agent_info agent_id reg'
  = Some (EnhancedAgentRegistry.set_status "active"
            (EnhancedAgentRegistry.set_last_heartbeat (clock (ticks w)) info)).
Proof.
  unfold EnhancedAgentRegistry.get_agent_info, EnhancedAgentRegistry.update_heartbeat.
  intros ->. cbn. apply (dget_dset_same String.eqb String.eqb_eq).
Qed.

(** No operation other than a heartbeat update or a registration under the
    same identifier turns an inactive entry active. *)
Lemma run_keeps_inactive (urandom : nat -> N) (clock : nat -> datetime)
    (op : EnhancedAgentRegistry.operation) (reg : EnhancedAgentRegistry.t)
    (bus : MessageBus.t) (w : World) (agent_id : string) :
  status_of agent_id reg = Some "inactive" ->
  op <> EnhancedAgentRegistry.OpUpdateHeartbeat agent_id ->
  (forall ty caps inst, op <> EnhancedAgentRegistry.OpRegister agent_id ty caps inst) ->
  let '(reg', _, _) := EnhancedAgentRegistry.run urandom clock op reg bus w in
  status_of agent_id reg' = Some "inactive" \/ status_of agent_id reg' = None.
Proof.
  intros Hst Hu Hr. unfold status_of in *.
  destruct (EnhancedAgentRegistry.get_agent_info agent_id reg) as [info|] eqn:Hg;
    [|discriminate].
  injection Hst as Hst.
  destruct op as [a ty caps inst|a|a| | | | | ]; cbn [EnhancedAgentRegistry.run].
  - assert (agent_id <> a) as Hne by (intros ->; now apply (Hr ty caps inst)).
    unfold EnhancedAgentRegistry.register_agent, utcnow. cbn.
    unfold EnhancedAgentRegistry.get_agent_info in *. cbn.
    rewrite (dget_dset_other String.eqb String.eqb_eq) by exact Hne.
    rewrite Hg, Hst. now left.
  - unfold EnhancedAgentRegistry.unregister_agent.
    destruct (dmem String.eqb a (EnhancedAgentRegistry.agents reg)).
    + unfold EnhancedAgentRegistry.get_agent_info in *. cbn.
      destruct (String.eqb_spec agent_id a) as [->|Hne].
      * rewrite (dget_ddel_same String.eqb). now right.
      * rewrite (dget_ddel_other String.eqb String.eqb_eq) by exact Hne.
        rewrite Hg, Hst. now left.
    + rewrite Hg, Hst. now left.
  - assert (agent_id <> a) as Hne by (intros ->; now apply Hu).
    unfold EnhancedAgentRegistry.update_heartbeat.
    destruct (dget String.eqb a (EnhancedAgentRegistry.agents reg)) as [i|].
    + unfold EnhancedAgentRegistry.get_agent_info in *. cbn.
      rewrite (dget_dset_other String.eqb String.eqb_eq) by exact Hne.
      rewrite Hg, Hst. now left.
    + rewrite Hg, Hst. now left.
  - pose proof (check_agent_health_spec urandom clock reg bus w) as H.
    destruct (EnhancedAgentRegistry.check_agent_health urandom clock reg bus w)
      as [[[reg' bus'] w'] evs].
    destruct H as (_ & _ & _ & H & _). rewrite (H agent_id info Hg).
    left. destruct (flips _ _ info); [reflexivity|now rewrite Hst].
  - rewrite Hg, Hst. now left.
  - rewrite Hg, Hst. now left.
  - rewrite Hg, Hst. now left.
  - rewrite Hg, Hst. now left.
Qed.

(** C7, as stated, fails in its last part: registering again under the
    identifier of an inactive entry makes its status active without any
    heartbeat update. *)
Lemma C7_counterexample :
  let '(r, b, w) := Sample.swept_A in
  let op := EnhancedAgentRegistry.OpRegister "A" "reasoning" ["analysis"] 1 in
  let '(r', _, _) := EnhancedAgentRegistry.run Sample.urandom Sample.minutes op r b w in
  status_of "A" r = Some "inactive"
  /\ status_of "A" r' = Some "active"
  /\ (forall a, op <> EnhancedAgentRegistry.OpUpdateHeartbeat a).
Proof. vm_compute. repeat split. discriminate. Qed.

(** C7, amended.  For an entry that is not yet inactive and whose last
    heartbeat is older than the timeout, one run of [check_agent_health]
    makes its status inactive and publishes exactly one status event for it
    (each event being one broadcast send of the bus); a second run changes
    nothing in the entry and publishes no event for it; a heartbeat update
    makes the status active again, and no other operation on the registry
    does, except registering an agent again under the same identifier, which
    replaces the entry. *)
Theorem C7_health_sweep_idempotent
    (urandom : nat -> N) (clock : nat -> datetime)
    (reg : EnhancedAgentRegistry.t) (bus : MessageBus.t) (w : World)
    (agent_id : string) (info : EnhancedAgentRegistry.agent_info) :
  NoDup (map fst (EnhancedAgentRegistry.agents reg)) ->
  EnhancedAgentRegistry.get_agent_info agent_id reg = Some info ->
  (EnhancedAgentRegistry.status info =? "inactive") = false ->
  EnhancedAgentRegistry.timed_out (clock (ticks w))
    (EnhancedAgentRegistry.heartbeat_timeout reg) info = true ->
  let '(reg1, bus1, w1, evs1) :=
    EnhancedAgentRegistry.check_agent_health urandom clock reg bus w in
  let '(reg2, bus2, w2, evs2) :=
    EnhancedAgentRegistry.check_agent_health urandom clock reg1 bus1 w1 in
  EnhancedAgentRegistry.get_agent_info agent_id reg1
  = Some (EnhancedAgentRegistry.set_status "inactive" info)
  /\ events_about agent_id evs1 = [EnhancedAgentRegistry.status_event agent_id info]
  /\ sent bus1 = (sent bus + length evs1)%nat
  /\ EnhancedAgentRegistry.get_agent_info agent_id reg2
     = EnhancedAgentRegistry.get_agent_info agent_id reg1
  /\ events_about agent_id evs2 = []
  /\ sent bus2 = (sent bus1 + length evs2)%nat
  /\ status_of agent_id (fst (EnhancedAgentRegistry.update_heartbeat clock agent_id reg2 w2))
     = Some "active"
  /\ (forall op b w0,
         op <> EnhancedAgentRegistry.OpUpdateHeartbeat agent_id ->
         (forall ty caps inst, op <> EnhancedAgentRegistry.OpRegister agent_id ty caps inst) ->
         let '(reg3, _, _) := EnhancedAgentRegistry.run urandom clock op reg2 b w0 in
         status_of agent_id reg3 = Some "inactive" \/ status_of agent_id reg3 = None).
Proof.
  intros Hnd Hg Hst Hto.
  pose proof (check_agent_health_spec urandom clock reg bus w) as H1.
  destruct (EnhancedAgentRegistry.check_agent_health urandom clock reg bus w)
    as [[[reg1 bus1] w1] evs1].
  cbv zeta in H1. destruct H1 as (Hk1 & _ & Hs1 & Hg1 & He1).
  specialize (Hg1 agent_id info Hg). specialize (He1 agent_id info Hnd Hg).
  assert (flips (clock (ticks w)) (EnhancedAgentRegistry.heartbeat_timeout reg) info = true)
    as Hf by (unfold flips; now rewrite Hto, Hst).
  rewrite Hf in Hg1, He1.
  pose proof (check_agent_health_spec urandom clock reg1 bus1 w1) as H2.
  destruct (EnhancedAgentRegistry.check_agent_health urandom clock reg1 bus1 w1)
    as [[[reg2 bus2] w2] evs2].
  cbv zeta in H2. destruct H2 as (_ & _ & Hs2 & Hg2 & He2).
  assert (NoDup (map fst (EnhancedAgentRegistry.agents reg1))) as Hnd1 by now rewrite Hk1.
  specialize (Hg2 agent_id _ Hg1). specialize (He2 agent_id _ Hnd1 Hg1).
  assert (forall now t,
             flips now t (EnhancedAgentRegistry.set_status "inactive" info) = false) as Hf2.
  { intros now t. unfold flips. cbn. apply andb_false_r. }
  rewrite Hf2 in Hg2, He2.
  repeat split; try assumption.
  - congruence.
  - unfold status_of. now rewrite (update_heartbeat_activates clock agent_id reg2 w2 _ Hg2).
  - intros op b w0 Hu Hr.
    apply (run_keeps_inactive urandom clock op reg2 b w0 agent_id); try assumption.
    unfold status_of. now rewrite Hg2.
Qed.

Lemma C7_health_sweep_idempotent_witness :
  EnhancedAgentRegistry.get_agent_info "A" Sample.reg_A = Some Sample.info_A
  /\ EnhancedAgentRegistry.timed_out (Sample.minutes (ticks Sample.world_A))
       (EnhancedAgentRegistry.heartbeat_timeout Sample.reg_A) Sample.info_A = true
  /\ (let '(reg1, bus1, w1, evs1) :=
        EnhancedAgentRegistry.check_agent_health Sample.urandom Sample.minutes
          Sample.reg_A Sample.bus_A Sample.world_A in
      let '(reg2, _, _, evs2) :=
        EnhancedAgentRegistry.check_agent_health Sample.urandom Sample.minutes reg1 bus1 w1 in
      EnhancedAgentRegistry.get_agent_info "A" reg1
      = Some (EnhancedAgentRegistry.set_status "inactive" Sample.info_A)
      /\ events_about "A" evs1 = [EnhancedAgentRegistry.status_event "A" Sample.info_A]
      /\ EnhancedAgentRegistry.get_agent_info "A" reg2
         = EnhancedAgentRegistry.get_agent_info "A" reg1
      /\ events_about "A" evs2 = []).
Proof.
  split; [reflexivity|]. split; [reflexivity|].
  assert (NoDup (map fst (EnhancedAgentRegistry.agents Sample.reg_A))) as Hnd.
  { apply (NoDup_cons "A" (@in_nil _ "A") (NoDup_nil _)). }
  pose proof (C7_health_sweep_idempotent Sample.urandom Sample.minutes
                Sample.reg_A Sample.bus_A Sample.world_A "A" Sample.info_A
                Hnd eq_refl eq_refl eq_refl) as H.
  destruct (EnhancedAgentRegistry.check_agent_health Sample.urandom Sample.minutes
              Sample.reg_A Sample.bus_A Sample.world_A) as [[[reg1 bus1] w1] evs1].
  destruct (EnhancedAgentRegistry.check_agent_health Sample.urandom Sample.minutes
              reg1 bus1 w1) as [[[reg2 bus2] w2] evs2].
  destruct H as (H1 & H2 & _ & H4 & H5 & _).
  repeat split; assumption.
Defined.

(* ================================================================== *)
(** * Part III: further properties of the code *)
(* ================================================================== *)

(** ** The bus: states reached by its operations *)

Lemma dget_ddel_some {V : Type} (k k0 : string) (d : list (string * V)) (v : V) :
  dget String.eqb k0 (ddel String.eqb k d) = Some v -> dget String.eqb k0 d = Some v.
Proof.
  destruct (String.eqb_spec k0 k) as [->|Hne].
  - now rewrite (dget_ddel_same String.eqb).
  - now rewrite (dget_ddel_other String.eqb String.eqb_eq) by exact Hne.
Qed.

Lemma dget_dset_cases {K V : Type} (eqb : K -> K -> bool)
    (eqb_eq : forall a b, eqb a b = true <-> a = b)
    (k k0 : K) (v v0 : V) (d : list (K * V)) :
  dget eqb k0 (dset eqb k v d) = Some v0 ->
  (k0 = k /\ v0 = v) \/ dget eqb k0 d = Some v0.
Proof.
  destruct (eqb k0 k) eqn:E.
  - apply eqb_eq in E. subst k0. rewrite (dget_dset_same eqb eqb_eq). intros [= <-]. now left.
  - assert (k0 <> k) as Hne by (intros ->; rewrite (eqb_refl_key eqb eqb_eq) in E; discriminate).
    rewrite (dget_dset_other eqb eqb_eq) by exact Hne. now right.
Qed.

Lemma list_remove_incl (x y : string) (l : list string) :
  In y (list_remove x l) -> In y l.
Proof.
  induction l as [|z r IH]; cbn; [tauto|].
  destruct (x =? z); [now right|]. cbn. intros [H|H]; [now left|right; auto].
Qed.

Lemma list_remove_keeps_NoDup (x : string) (l : list string) :
  NoDup l -> NoDup (list_remove x l).
Proof.
  induction l as [|z r IH]; cbn; [auto|].
  intros Hnd. inversion Hnd as [|? ? Hnotin Hnd']; subst.
  destruct (x =? z); [exact Hnd'|].
  constructor; [|now apply IH].
  intros Hin. apply Hnotin. eapply list_remove_incl, Hin.
Qed.

Lemma NoDup_snoc (x : string) (l : list string) :
  NoDup l -> str_in x l = false -> NoDup (l ++ [x]).
Proof.
  intros Hnd Hx. apply NoDup_app; [exact Hnd|repeat constructor; cbn; tauto|].
  intros a Ha [<-|[]]. apply str_in_In in Ha. congruence.
Qed.

Lemma deque_append_bound {A : Type} (cap : nat) (q : list A) (x : A) :
  (length q <= cap)%nat -> (length (deque_append cap q x) <= cap)%nat.
Proof.
  intros H. rewrite deque_append_lastn by exact H. rewrite lastn_length. lia.
Qed.

Section BusInvariant.
Variable urandom : nat -> N.
Variable clock : nat -> datetime.

Lemma wf_init (cap : nat) (ttl : Z) : bus_wf (MessageBus.init cap ttl).
Proof. split; cbn; intros; discriminate. Qed.

Lemma wf_same_parts (bus bus' : MessageBus.t) :
  MessageBus.subscribers bus' = MessageBus.subscribers bus ->
  MessageBus.message_queues bus' = MessageBus.message_queues bus ->
  MessageBus.max_queue_size bus' = MessageBus.max_queue_size bus ->
  bus_wf bus -> bus_wf bus'.
Proof. unfold bus_wf. intros -> -> ->. auto. Qed.

Lemma wf_send_to_recipient (message : AgentMessage.t) (bus : MessageBus.t) :
  bus_wf bus -> bus_wf (snd (MessageBus._send_to_recipient message bus)).
Proof.
  intros [Hs Hq].
  pose proof (send_to_recipient_spec message bus) as H.
  destruct (MessageBus._send_to_recipient message bus) as [ok bus']. cbn [snd].
  cbv zeta in H. destruct H as (_ & Hsub & _ & Hcap & _ & _ & _ & _ & Hcase).
  split; [now rewrite Hsub|]. rewrite Hcap.
  destruct (registered bus _); destruct Hcase as (_ & _ & Hqs); rewrite Hqs; [|exact Hq].
  intros a q Hg.
  apply (dget_dset_cases String.eqb String.eqb_eq) in Hg. destruct Hg as [[-> ->]|Hg].
  - apply deque_append_bound. unfold mailbox.
    destruct (dget String.eqb _ (MessageBus.message_queues bus)) as [q0|] eqn:E;
      [now apply (Hq _ _ E)|cbn; lia].
  - now apply (Hq _ _ Hg).
Qed.

Lemma wf_broadcast_loop (message : AgentMessage.t) (targets : list string) :
  forall (n : nat) (bus : MessageBus.t) (w : World),
  bus_wf bus ->
  bus_wf (snd (fst (MessageBus.broadcast_loop urandom clock message targets n bus w))).
Proof.
  induction targets as [|a rest IH]; intros n bus w Hwf; [exact Hwf|].
  cbn [MessageBus.broadcast_loop].
  destruct (MessageBus.recipient_copy urandom clock message a w) as [copy w1].
  pose proof (wf_send_to_recipient copy bus Hwf) as H1.
  destruct (MessageBus._send_to_recipient copy bus) as [ok bus1]. cbn [snd] in H1.
  apply IH, H1.
Qed.

Lemma wf_send_message (message : AgentMessage.t) (bus : MessageBus.t) (w : World) :
  bus_wf bus ->
  bus_wf (snd (fst (MessageBus.send_message urandom clock message bus w))).
Proof.
  intros Hwf. unfold MessageBus.send_message.
  set (bus2 := MessageBus.set_message_history _ (MessageBus.incr_sent bus)).
  assert (bus_wf bus2) as Hwf2 by (apply (wf_same_parts bus); auto).
  pose proof (cleanup_spec clock bus2 w) as Hc.
  destruct (MessageBus._cleanup_old_messages clock bus2 w) as [[r bus3] w1].
  destruct Hc as (_ & Hsub & _ & Hq & Hcap & _ & _).
  assert (bus_wf bus3) as Hwf3 by (apply (wf_same_parts bus2); auto).
  clearbody bus2.
  destruct r as [[]|e].
  - destruct (MessageBus.is_broadcast _).
    + unfold MessageBus._broadcast_message.
      destruct (dget MessageType_eqb _ (MessageBus.subscribers bus3)) as [[|a rest]|];
        try exact Hwf3.
      pose proof (wf_broadcast_loop message (a :: rest) 0 bus3 w1 Hwf3) as Hb.
      destruct (MessageBus.broadcast_loop urandom clock message (a :: rest) 0 bus3 w1)
        as [[n' bus'] w']. exact Hb.
    + pose proof (wf_send_to_recipient message bus3 Hwf3) as Hs.
      destruct (MessageBus._send_to_recipient message bus3) as [ok bus']. exact Hs.
  - cbn. apply (wf_same_parts bus3); auto.
Qed.

Lemma wf_unregister (agent_id : string) (bus : MessageBus.t) :
  bus_wf bus -> bus_wf (MessageBus.unregister_agent agent_id bus).
Proof.
  intros [Hs Hq]. unfold MessageBus.unregister_agent.
  destruct (dmem String.eqb agent_id (MessageBus.agents bus)); [|now split].
  assert (forall kind l,
             dget MessageType_eqb kind
               (MessageBus.purge_subscriber agent_id (MessageBus.subscribers bus)) = Some l ->
             NoDup l) as Hs'.
  { intros kind l. rewrite purge_subscriber_get.
    destruct (dget MessageType_eqb kind (MessageBus.subscribers bus)) as [l0|] eqn:E;
      [|discriminate].
    intros [= <-]. destruct (str_in agent_id l0);
      [apply list_remove_keeps_NoDup|]; now apply (Hs kind). }
  destruct (dmem String.eqb agent_id (MessageBus.message_queues _)); split; cbn;
    try exact Hs'; try exact Hq.
  intros a q Hg. apply dget_ddel_some in Hg. now apply (Hq a).
Qed.

Lemma wf_subscribe (agent_id : string) (kind : MessageType)
    (h : option MessageBus.handler) (bus : MessageBus.t) :
  bus_wf bus -> bus_wf (MessageBus.subscribe agent_id kind h bus).
Proof.
  intros [Hs Hq]. unfold MessageBus.subscribe, MessageBus.subscribers_at.
  assert (forall (l0 : list string) (subs : list (MessageType * list string)),
             (forall k l, dget MessageType_eqb k subs = Some l -> NoDup l) ->
             NoDup l0 ->
             forall k l, dget MessageType_eqb k (dset MessageType_eqb kind l0 subs) = Some l ->
                         NoDup l) as Hset.
  { intros l0 subs Hall Hl0 k l Hg.
    apply (dget_dset_cases MessageType_eqb MessageType_eqb_eq) in Hg.
    destruct Hg as [[_ ->]|Hg]; [exact Hl0|now apply (Hall k)]. }
  destruct (dget MessageType_eqb kind (MessageBus.subscribers bus)) as [l|] eqn:E.
  - destruct (str_in agent_id l) eqn:Ein; destruct h as [f|]; split; cbn;
      try exact Hs; try exact Hq;
      apply Hset; try exact Hs; apply NoDup_snoc; try exact Ein; now apply (Hs kind).
  - destruct h as [f|]; split; cbn; try exact Hq;
      apply Hset; try (repeat constructor; cbn; tauto);
      apply Hset; try exact Hs; constructor.
Qed.

Lemma wf_unsubscribe (agent_id : string) (kind : MessageType) (bus : MessageBus.t) :
  bus_wf bus -> bus_wf (MessageBus.unsubscribe agent_id kind bus).
Proof.
  intros [Hs Hq]. unfold MessageBus.unsubscribe, MessageBus.subscribers_at.
  assert (forall (l0 : list string) (subs : list (MessageType * list string)),
             (forall k l, dget MessageType_eqb k subs = Some l -> NoDup l) ->
             NoDup l0 ->
             forall k l, dget MessageType_eqb k (dset MessageType_eqb kind l0 subs) = Some l ->
                         NoDup l) as Hset.
  { intros l0 subs Hall Hl0 k l Hg.
    apply (dget_dset_cases MessageType_eqb MessageType_eqb_eq) in Hg.
    destruct Hg as [[_ ->]|Hg]; [exact Hl0|now apply (Hall k)]. }
  assert (forall b : MessageBus.t,
             bus_wf b ->
             bus_wf (match dget String.eqb agent_id (MessageBus.message_handlers b) with
                     | Some own =>
                         if dmem MessageType_eqb kind own
                         then MessageBus.set_message_handlers
                                (dset String.eqb agent_id (ddel MessageType_eqb kind own)
                                   (MessageBus.message_handlers b)) b
                         else b
                     | None => b
                     end)) as Hh.
  { intros b Hb. destruct (dget String.eqb agent_id (MessageBus.message_handlers b)) as [own|];
      [destruct (dmem MessageType_eqb kind own)|]; exact Hb. }
  destruct (dget MessageType_eqb kind (MessageBus.subscribers bus)) as [l|] eqn:E.
  - destruct (str_in agent_id l); apply Hh; split; cbn; try exact Hs; try exact Hq.
    apply Hset; [exact Hs|]. apply list_remove_keeps_NoDup. now apply (Hs kind).
  - cbn [str_in]. apply Hh. split; cbn; [|exact Hq]. apply Hset; [exact Hs|constructor].
Qed.

Lemma wf_get_messages (agent_id : string) (limit : nat) (bus : MessageBus.t) :
  bus_wf bus -> bus_wf (snd (MessageBus.get_messages agent_id limit bus)).
Proof.
  intros [Hs Hq]. unfold MessageBus.get_messages.
  destruct (dget String.eqb agent_id (MessageBus.message_queues bus)) as [q|] eqn:E;
    [|now split].
  split; cbn; [exact Hs|]. intros a q' Hg.
  apply (dget_dset_cases String.eqb String.eqb_eq) in Hg. destruct Hg as [[-> ->]|Hg].
  - rewrite length_skipn. specialize (Hq _ _ E). lia.
  - now apply (Hq a).
Qed.

Lemma broadcast_loop_cap (message : AgentMessage.t) (targets : list string) :
  forall (n : nat) (bus : MessageBus.t) (w : World),
  MessageBus.max_queue_size
    (snd (fst (MessageBus.broadcast_loop urandom clock message targets n bus w)))
  = MessageBus.max_queue_size bus.
Proof.
  induction targets as [|a rest IH]; intros n bus w; [reflexivity|].
  cbn [MessageBus.broadcast_loop].
  destruct (MessageBus.recipient_copy urandom clock message a w) as [copy w1].
  pose proof (send_to_recipient_spec copy bus) as H.
  destruct (MessageBus._send_to_recipient copy bus) as [ok bus1].
  cbv zeta in H. destruct H as (_ & _ & _ & Hcap & _).
  rewrite IH. exact Hcap.
Qed.

Lemma send_message_wf_cap (message : AgentMessage.t) (bus : MessageBus.t) (w : World) :
  MessageBus.max_queue_size (snd (fst (MessageBus.send_message urandom clock message bus w)))
  = MessageBus.max_queue_size bus.
Proof.
  unfold MessageBus.send_message.
  set (bus2 := MessageBus.set_message_history _ (MessageBus.incr_sent bus)).
  pose proof (cleanup_spec clock bus2 w) as Hc.
  destruct (MessageBus._cleanup_old_messages clock bus2 w) as [[r bus3] w1].
  destruct Hc as (_ & _ & _ & _ & Hcap & _ & _).
  assert (MessageBus.max_queue_size bus3 = MessageBus.max_queue_size bus) as Hcap'
      by (rewrite Hcap; reflexivity).
  clearbody bus2.
  destruct r as [[]|e]; [|exact Hcap'].
  destruct (MessageBus.is_broadcast _).
  - unfold MessageBus._broadcast_message.
    destruct (dget MessageType_eqb _ (MessageBus.subscribers bus3)) as [[|a rest]|];
      try exact Hcap'.
    pose proof (broadcast_loop_cap message (a :: rest) 0 bus3 w1) as Hb.
    destruct (MessageBus.broadcast_loop urandom clock message (a :: rest) 0 bus3 w1)
      as [[n' bus'] w']. cbn [fst snd] in *. congruence.
  - pose proof (send_to_recipient_spec message bus3) as Hs.
    destruct (MessageBus._send_to_recipient message bus3) as [ok bus'].
    cbv zeta in Hs. destruct Hs as (_ & _ & _ & Hc2 & _). cbn [fst snd]. congruence.
Qed.

Lemma wf_step (op : bus_op) (s : MessageBus.t * World) :
  bus_wf (fst s) -> bus_wf (fst (bus_step urandom clock op s)).
Proof.
  destruct s as [bus w]. cbn [fst]. intros Hwf.
  destruct op; cbn [bus_step].
  - cbn [fst]. apply (wf_same_parts bus); auto.
  - cbn [fst]. now apply wf_unregister.
  - cbn [fst]. now apply wf_subscribe.
  - cbn [fst]. now apply wf_unsubscribe.
  - pose proof (wf_send_message message bus w Hwf) as H.
    destruct (MessageBus.send_message urandom clock message bus w) as [[ok b] w1]. exact H.
  - unfold MessageBus.publish_event.
    destruct (utcnow clock w) as [now w1].
    destruct (AgentMessage.init urandom clock None sender_id "broadcast" kind data
                (Some now) None w1) as [ev w2].
    pose proof (wf_send_message ev bus w2 Hwf) as H.
    destruct (MessageBus.send_message urandom clock ev bus w2) as [[ok b] w3]. exact H.
  - cbn [fst]. now apply wf_get_messages.
  - cbn [fst]. apply (wf_same_parts bus); auto.
  - cbn [fst]. destruct Hwf as [Hs Hq]. split; cbn; [exact Hs|intros; discriminate].
Qed.

Lemma wf_run (ops : list bus_op) :
  forall s : MessageBus.t * World,
  bus_wf (fst s) -> bus_wf (fst (bus_run urandom clock ops s)).
Proof.
  induction ops as [|op rest IH]; intros s Hwf; [exact Hwf|].
  cbn [bus_run fold_left]. apply IH. now apply wf_step.
Qed.
End BusInvariant.

Lemma bus_step_cap (urandom : nat -> N) (clock : nat -> datetime) (op : bus_op)
    (s : MessageBus.t * World) :
  MessageBus.max_queue_size (fst (bus_step urandom clock op s))
  = MessageBus.max_queue_size (fst s).
Proof.
  destruct s as [bus w]. cbn [fst].
  destruct op; cbn [bus_step fst]; try reflexivity.
  - unfold MessageBus.unregister_agent.
    destruct (dmem _ _ _); [destruct (dmem _ _ _)|]; reflexivity.
  - unfold MessageBus.subscribe, MessageBus.subscribers_at.
    destruct (dget _ _ _); [destruct (str_in _ _)|]; destruct h; reflexivity.
  - unfold MessageBus.unsubscribe, MessageBus.subscribers_at.
    destruct (dget MessageType_eqb _ _); cbn [str_in]; [destruct (str_in _ _)|];
      match goal with
      | |- context [dget String.eqb ?a ?d] =>
          destruct (dget String.eqb a d) as [own|];
          [destruct (dmem MessageType_eqb kind own)|]
      end; reflexivity.
  - pose proof (send_message_wf_cap urandom clock message bus w) as H.
    destruct (MessageBus.send_message urandom clock message bus w) as [[ok b] w1]. exact H.
  - unfold MessageBus.publish_event.
    destruct (utcnow clock w) as [now w1].
    destruct (AgentMessage.init _ _ _ _ _ _ _ _ _ _) as [ev w2].
    pose proof (send_message_wf_cap urandom clock ev bus w2) as H.
    destruct (MessageBus.send_message urandom clock ev bus w2) as [[ok b] w3]. exact H.
  - unfold MessageBus.get_messages. destruct (dget _ _ _); reflexivity.
Qed.

Lemma bus_run_cap (urandom : nat -> N) (clock : nat -> datetime) (ops : list bus_op) :
  forall s : MessageBus.t * World,
  MessageBus.max_queue_size (fst (bus_run urandom clock ops s))
  = MessageBus.max_queue_size (fst s).
Proof.
  unfold bus_run. induction ops as [|op rest IH]; intros s; cbn [fold_left]; [reflexivity|].
  rewrite IH. apply bus_step_cap.
Qed.

(** X1.  Whatever sequence of operations is applied to a fresh bus, no
    subscriber list ever holds an agent twice and no mailbox ever holds more
    than [max_queue_size] messages. *)
Theorem X1_bus_invariant (urandom : nat -> N) (clock : nat -> datetime)
    (cap : nat) (ttl : Z) (ops : list bus_op) (w : World) :
  let bus := fst (bus_run urandom clock ops (MessageBus.init cap ttl, w)) in
  (forall kind, NoDup (subscribers_of kind bus))
  /\ (forall agent_id, (length (mailbox agent_id bus) <= cap)%nat)
  /\ MessageBus.max_queue_size bus = cap.
Proof.
  pose proof (wf_run urandom clock ops (MessageBus.init cap ttl, w) (wf_init cap ttl))
    as [Hs Hq].
  pose proof (bus_run_cap urandom clock ops (MessageBus.init cap ttl, w)) as Hcap.
  cbv zeta. rewrite Hcap in *. cbn [fst MessageBus.init MessageBus.max_queue_size] in *.
  split; [|split; [|reflexivity]].
  - intros kind. unfold subscribers_of.
    destruct (dget MessageType_eqb kind _) as [l|] eqn:E; [now apply (Hs kind)|constructor].
  - intros a. unfold mailbox.
    destruct (dget String.eqb a _) as [q|] eqn:E; [now apply (Hq a)|cbn; lia].
Qed.

Lemma bus_step_stats_frame (urandom : nat -> N) (clock : nat -> datetime) (op : bus_op)
    (s : MessageBus.t * World) :
  dropped (fst (bus_step urandom clock op s)) = dropped (fst s)
  /\ (sent (fst s) <= sent (fst (bus_step urandom clock op s)))%nat
  /\ (delivered (fst s) <= delivered (fst (bus_step urandom clock op s)))%nat
  /\ (failed (fst s) <= failed (fst (bus_step urandom clock op s)))%nat.
Proof.
  destruct s as [bus w]. cbn [fst].
  destruct op; cbn [bus_step fst]; try (repeat split; cbn; lia).
  - unfold MessageBus.unregister_agent.
    destruct (dmem _ _ _); [destruct (dmem _ _ _)|]; repeat split; cbn; lia.
  - unfold MessageBus.subscribe, MessageBus.subscribers_at.
    destruct (dget _ _ _); [destruct (str_in _ _)|]; destruct h; repeat split; cbn; lia.
  - unfold MessageBus.unsubscribe, MessageBus.subscribers_at.
    destruct (dget MessageType_eqb _ _); cbn [str_in]; [destruct (str_in _ _)|];
      match goal with
      | |- context [dget String.eqb ?a ?d] =>
          destruct (dget String.eqb a d) as [own|];
          [destruct (dmem MessageType_eqb kind own)|]
      end; repeat split; cbn; lia.
  - pose proof (send_message_counters urandom clock message bus w) as H.
    destruct (MessageBus.send_message urandom clock message bus w) as [[ok b] w1].
    cbn [fst]. destruct H as (H1 & H2 & H3 & H4 & _). repeat split; lia.
  - unfold MessageBus.publish_event.
    destruct (utcnow clock w) as [now w1].
    destruct (AgentMessage.init _ _ _ _ _ _ _ _ _ _) as [ev w2].
    pose proof (send_message_counters urandom clock ev bus w2) as H.
    destruct (MessageBus.send_message urandom clock ev bus w2) as [[ok b] w3].
    cbn [fst]. destruct H as (H1 & H2 & H3 & H4 & _). repeat split; lia.
  - unfold MessageBus.get_messages. destruct (dget _ _ _); repeat split; cbn; lia.
Qed.

(** X2.  No operation of the bus ever changes [messages_dropped], from
    whatever state it starts, and the other three counters never decrease:
    the messages a full mailbox evicts are not counted anywhere. *)
Theorem X2_dropped_counter_never_moves (urandom : nat -> N) (clock : nat -> datetime)
    (ops : list bus_op) (s : MessageBus.t * World) :
  let bus' := fst (bus_run urandom clock ops s) in
  dropped bus' = dropped (fst s)
  /\ (sent (fst s) <= sent bus')%nat
  /\ (delivered (fst s) <= delivered bus')%nat
  /\ (failed (fst s) <= failed bus')%nat.
Proof.
  cbv zeta. unfold bus_run. revert s.
  induction ops as [|op rest IH]; intros s; cbn [fold_left]; [repeat split; lia|].
  specialize (IH (bus_step urandom clock op s)).
  pose proof (bus_step_stats_frame urandom clock op s) as H.
  destruct IH as (I1 & I2 & I3 & I4). destruct H as (H1 & H2 & H3 & H4).
  repeat split; lia.
Qed.

(** ** The bus: reading a mailbox *)

(** X3.  [get_messages] takes messages from the front of the mailbox: what
    it returns is what [peek_messages] shows, followed by what stays in the
    mailbox it gives the old mailbox back; at most [limit] messages are
    taken; other mailboxes and the counters are untouched, and an unknown
    agent yields the empty list. *)
Theorem X3_get_messages_fifo (agent_id : string) (limit : nat) (bus : MessageBus.t) :
  let '(msgs, bus') := MessageBus.get_messages agent_id limit bus in
  msgs = MessageBus.peek_messages agent_id limit bus
  /\ msgs = firstn limit (mailbox agent_id bus)
  /\ msgs ++ mailbox agent_id bus' = mailbox agent_id bus
  /\ length msgs = Nat.min limit (MessageBus.get_queue_size agent_id bus)
  /\ (forall other, other <> agent_id -> mailbox other bus' = mailbox other bus)
  /\ MessageBus.stats bus' = MessageBus.stats bus
  /\ MessageBus.agents bus' = MessageBus.agents bus.
Proof.
  unfold MessageBus.get_messages, MessageBus.peek_messages, MessageBus.get_queue_size, mailbox.
  destruct (dget String.eqb agent_id (MessageBus.message_queues bus)) as [q|] eqn:E.
  - cbn [MessageBus.set_message_queues MessageBus.message_queues MessageBus.stats
         MessageBus.agents].
    rewrite (dget_dset_same String.eqb String.eqb_eq).
    repeat split.
    + apply firstn_skipn.
    + apply length_firstn.
    + intros other Hne.
      now rewrite (dget_dset_other String.eqb String.eqb_eq) by exact Hne.
  - rewrite E. cbn. rewrite firstn_nil. repeat split. lia.
Qed.

Lemma get_messages_mailbox (agent_id : string) (limit : nat) (bus : MessageBus.t) :
  fst (MessageBus.get_messages agent_id limit bus) = firstn limit (mailbox agent_id bus)
  /\ mailbox agent_id (snd (MessageBus.get_messages agent_id limit bus))
     = skipn limit (mailbox agent_id bus).
Proof.
  unfold MessageBus.get_messages, mailbox.
  destruct (dget String.eqb agent_id (MessageBus.message_queues bus)) as [q|] eqn:E.
  - cbn. now rewrite (dget_dset_same String.eqb String.eqb_eq).
  - cbn. rewrite E. now rewrite firstn_nil, skipn_nil.
Qed.

(** ** The bus: routing *)

Section Routing.
Variable urandom : nat -> N.
Variable clock : nat -> datetime.



Lemma accepted_frame (message : AgentMessage.t) (bus : MessageBus.t) (w : World) :
  let b := accepted clock message bus w in
  MessageBus.agents b = MessageBus.agents bus
  /\ MessageBus.message_queues b = MessageBus.message_queues bus
  /\ MessageBus.subscribers b = MessageBus.subscribers bus
  /\ MessageBus.message_handlers b = MessageBus.message_handlers bus
  /\ MessageBus.max_queue_size b = MessageBus.max_queue_size bus
  /\ sent b = S (sent bus) /\ delivered b = delivered bus /\ failed b = failed bus.
Proof. cbn. repeat split. Qed.


End Routing.







(** X6.  Messages sent one after the other to a registered agent whose
    mailbox was empty, not more of them than the mailbox holds, come out of
    [get_messages] in the order in which they were sent, and the mailbox is
    empty afterwards. *)
Theorem X6_mailbox_is_fifo (r : string) (sends : list AgentMessage.t) (bus : MessageBus.t) :
  registered bus r = true ->
  Forall (fun m => AgentMessage.recipient_id m = r) sends ->
  mailbox r bus = [] ->
  (length sends <= MessageBus.max_queue_size bus)%nat ->
  let '(msgs, bus') := MessageBus.get_messages r (length sends) (deliver_all sends bus) in
  msgs = sends /\ mailbox r bus' = [].
Proof.
  intros Hr Hall He Hlen.
  pose proof (deliver_all_mailbox r sends bus Hr Hall) as Hm.
  rewrite He in Hm. cbn [length app] in Hm. specialize (Hm (le_0_n _)).
  rewrite lastn_all in Hm by exact Hlen.
  pose proof (get_messages_mailbox r (length sends) (deliver_all sends bus)) as [G1 G2].
  destruct (MessageBus.get_messages r (length sends) (deliver_all sends bus)) as [msgs bus'].
  cbn [fst snd] in *. rewrite Hm in *. split.
  - rewrite G1. apply firstn_all.
  - rewrite G2. apply skipn_all.
Qed.

Lemma X6_mailbox_is_fifo_witness :
  let sends := [Sample.direct_msg 1 "A"; Sample.direct_msg 2 "A"] in
  let '(msgs, bus') := MessageBus.get_messages "A" 2 (deliver_all sends Sample.small_bus) in
  msgs = sends /\ mailbox "A" bus' = [].
Proof.
  assert (Forall (fun m => AgentMessage.recipient_id m = "A")
            [Sample.direct_msg 1 "A"; Sample.direct_msg 2 "A"]) as Hall
      by (repeat constructor).
  exact (X6_mailbox_is_fifo "A" [Sample.direct_msg 1 "A"; Sample.direct_msg 2 "A"]
           Sample.small_bus eq_refl Hall eq_refl (le_n 2)).
Defined.




(** ** The bus: history *)


(** X9.  [get_message_history limit] without a kind returns the entries of
    the last [limit] messages of the history when [limit] is positive, and of
    the whole history when [limit] is 0. *)
Theorem X9_history_limit (limit : Z) (bus : MessageBus.t) :
  (0 <= limit)%Z ->
  MessageBus.get_message_history limit None bus
  = map MessageBus.history_entry
      (if (limit =? 0)%Z then MessageBus.message_history bus
       else lastn (Z.to_nat limit) (MessageBus.message_history bus)).
Proof.
  intros H. unfold MessageBus.get_message_history, MessageBus.slice_from, lastn.
  f_equal. destruct (limit =? 0)%Z eqn:E.
  - apply Z.eqb_eq in E. subst limit. cbn [Z.opp Z.ltb Z.compare].
    replace (Z.to_nat (Z.min 0 (Z.of_nat (length (MessageBus.message_history bus)))))
      with 0%nat by lia.
    reflexivity.
  - apply Z.eqb_neq in E.
    destruct (- limit <? 0)%Z eqn:L; [|apply Z.ltb_ge in L; lia].
    f_equal. lia.
Qed.

Lemma X9_history_limit_witness :
  let bus :=
    MessageBus.set_message_history
      [Sample.direct_msg 1 "A"; Sample.direct_msg 2 "A"; Sample.direct_msg 3 "A"]
      Sample.bus2 in
  length (MessageBus.get_message_history 2 None bus) = 2%nat
  /\ length (MessageBus.get_message_history 0 None bus) = 3%nat.
Proof.
  split.
  - rewrite (X9_history_limit 2 _ (Pos2Z.is_nonneg 2)). reflexivity.
  - rewrite (X9_history_limit 0 _ (Z.le_refl 0)). reflexivity.
Defined.

(** ** The registry and the bus together *)

Lemma dmem_dset {V : Type} (k k0 : string) (v : V) (d : list (string * V)) :
  dmem String.eqb k0 (dset String.eqb k v d) = (k0 =? k) || dmem String.eqb k0 d.
Proof.
  unfold dmem. destruct (String.eqb_spec k0 k) as [->|Hne].
  - now rewrite (dget_dset_same String.eqb String.eqb_eq).
  - now rewrite (dget_dset_other String.eqb String.eqb_eq) by exact Hne.
Qed.

Lemma dmem_ddel {V : Type} (k k0 : string) (d : list (string * V)) :
  dmem String.eqb k0 (ddel String.eqb k d) = negb (k0 =? k) && dmem String.eqb k0 d.
Proof.
  unfold dmem. destruct (String.eqb_spec k0 k) as [->|Hne].
  - now rewrite (dget_ddel_same String.eqb).
  - now rewrite (dget_ddel_other String.eqb String.eqb_eq) by exact Hne.
Qed.

Lemma dmem_keys {V W : Type} (k : string) (d : list (string * V)) (d' : list (string * W)) :
  map fst d = map fst d' -> dmem String.eqb k d = dmem String.eqb k d'.
Proof.
  unfold dmem. revert d'. induction d as [|[a v] r IH]; intros [|[a' v'] r'] H;
    try discriminate; [reflexivity|].
  cbn in H. injection H as -> Hr. cbn. destruct (k =? a'); [reflexivity|].
  now apply IH.
Qed.

Section RegistryBus.
Variable urandom : nat -> N.
Variable clock : nat -> datetime.

Lemma publish_event_agents kind sender data (bus : MessageBus.t) (w : World) :
  MessageBus.agents (snd (fst (MessageBus.publish_event urandom clock kind sender data bus w)))
  = MessageBus.agents bus.
Proof.
  unfold MessageBus.publish_event.
  destruct (utcnow clock w) as [now w1].
  destruct (AgentMessage.init urandom clock None sender "broadcast" kind data (Some now)
              None w1) as [ev w2].
  pose proof (send_message_counters urandom clock ev bus w2) as H.
  destruct (MessageBus.send_message urandom clock ev bus w2) as [[ok bus'] w'].
  apply H.
Qed.

Lemma health_loop_agents (now : datetime) (timeout : Z)
    (entries : list (string * EnhancedAgentRegistry.agent_info)) :
  forall (bus : MessageBus.t) (w : World),
  MessageBus.agents
    (snd (fst (fst (EnhancedAgentRegistry.health_loop urandom clock now timeout entries bus w))))
  = MessageBus.agents bus.
Proof.
  induction entries as [|[a i] rest IH]; intros bus w; [reflexivity|].
  cbn [EnhancedAgentRegistry.health_loop].
  destruct (_ && _).
  - pose proof (publish_event_agents AGENT_STATUS "registry"
                  (EnhancedAgentRegistry.status_event a i) bus w) as Hp.
    destruct (MessageBus.publish_event _ _ _ _ _ _ _) as [[ok bus1] w1].
    specialize (IH bus1 w1).
    destruct (EnhancedAgentRegistry.health_loop _ _ _ _ _ _ _) as [[[rest' bus2] w2] evs].
    cbn [fst snd] in *. congruence.
  - specialize (IH bus w).
    destruct (EnhancedAgentRegistry.health_loop _ _ _ _ _ _ _) as [[[rest' bus2] w2] evs].
    exact IH.
Qed.

Lemma agree_step (op : EnhancedAgentRegistry.operation) (reg : EnhancedAgentRegistry.t)
    (bus : MessageBus.t) (w : World) :
  agree reg bus ->
  let '(reg', bus', _) := EnhancedAgentRegistry.run urandom clock op reg bus w in
  agree reg' bus'.
Proof.
  intros Hag. unfold agree, registered in *.
  destruct op as [a ty caps inst|a|a| | | | | ]; cbn [EnhancedAgentRegistry.run];
    try exact Hag.
  - unfold EnhancedAgentRegistry.register_agent, utcnow. cbn.
    intros x. rewrite !dmem_dset. now rewrite Hag.
  - unfold EnhancedAgentRegistry.unregister_agent.
    destruct (dmem String.eqb a (EnhancedAgentRegistry.agents reg)) eqn:E; [|exact Hag].
    unfold MessageBus.unregister_agent. rewrite <- Hag, E.
    intros x. cbn [EnhancedAgentRegistry.set_agents EnhancedAgentRegistry.agents].
    rewrite dmem_ddel.
    destruct (dmem String.eqb a (MessageBus.message_queues _));
      cbn [MessageBus.set_subscribers MessageBus.set_message_queues MessageBus.set_agents
           MessageBus.agents]; rewrite dmem_ddel; now rewrite Hag.
  - unfold EnhancedAgentRegistry.update_heartbeat.
    destruct (dget String.eqb a (EnhancedAgentRegistry.agents reg)) as [i|] eqn:E;
      [|exact Hag].
    cbn. intros x. rewrite dmem_dset, <- Hag.
    destruct (String.eqb_spec x a) as [->|Hne]; [|reflexivity].
    unfold dmem. now rewrite E.
  - pose proof (check_agent_health_spec urandom clock reg bus w) as H.
    unfold EnhancedAgentRegistry.check_agent_health in *.
    destruct (utcnow clock w) as [now w1].
    pose proof (health_loop_agents now (EnhancedAgentRegistry.heartbeat_timeout reg)
                  (EnhancedAgentRegistry.agents reg) bus w1) as Ha.
    destruct (EnhancedAgentRegistry.health_loop _ _ _ _ _ _ _) as [[[entries bus1] w2] evs].
    cbn [fst snd] in Ha. destruct H as (Hk & _).
    intros x. rewrite Ha, <- Hag. apply dmem_keys. exact Hk.
Qed.

Lemma agree_run (ops : list EnhancedAgentRegistry.operation) :
  forall (reg : EnhancedAgentRegistry.t) (bus : MessageBus.t) (w : World),
  agree reg bus ->
  let '(reg', bus', _) := registry_run urandom clock ops (reg, bus, w) in
  agree reg' bus'.
Proof.
  unfold registry_run.
  induction ops as [|op rest IH]; intros reg bus w Hag; cbn [fold_left]; [exact Hag|].
  pose proof (agree_step op reg bus w Hag) as Hs.
  destruct (EnhancedAgentRegistry.run urandom clock op reg bus w) as [[reg1 bus1] w1].
  now apply IH.
Qed.
End RegistryBus.

(** X10.  However the operations of the registry are sequenced on a fresh
    registry and bus, the two know the same agents: an identifier has an
    entry in the registry exactly when it is registered with the bus. *)
Theorem X10_registry_and_bus_agree (urandom : nat -> N) (clock : nat -> datetime)
    (ops : list EnhancedAgentRegistry.operation) (cap : nat) (ttl : Z) (w : World) :
  let '(reg, bus, _) :=
    registry_run urandom clock ops (EnhancedAgentRegistry.init, MessageBus.init cap ttl, w) in
  forall agent_id,
    EnhancedAgentRegistry.get_agent_info agent_id reg <> None
    <-> registered bus agent_id = true.
Proof.
  pose proof (agree_run urandom clock ops EnhancedAgentRegistry.init (MessageBus.init cap ttl) w)
    as H.
  destruct (registry_run urandom clock ops
              (EnhancedAgentRegistry.init, MessageBus.init cap ttl, w)) as [[reg bus] w'].
  assert (agree reg bus) as Hag by (apply H; intros x; reflexivity).
  intros x. rewrite <- (Hag x). unfold dmem, EnhancedAgentRegistry.get_agent_info.
  destruct (dget String.eqb x (EnhancedAgentRegistry.agents reg)); split;
    intros; congruence.
Qed.

(** X11.  The health sweep neither adds nor removes entries and changes
    nothing in an entry but its status, and that only to [inactive]; an
    agent whose last heartbeat is at most the timeout old (the test is
    strict) is left exactly as it was. *)
Theorem X11_sweep_touches_status_only (urandom : nat -> N) (clock : nat -> datetime)
    (reg : EnhancedAgentRegistry.t) (bus : MessageBus.t) (w : World)
    (agent_id : string) (info : EnhancedAgentRegistry.agent_info) :
  EnhancedAgentRegistry.get_agent_info agent_id reg = Some info ->
  let '(reg', _, _, _) := EnhancedAgentRegistry.check_agent_health urandom clock reg bus w in
  map fst (EnhancedAgentRegistry.agents reg') = map fst (EnhancedAgentRegistry.agents reg)
  /\ exists info',
       EnhancedAgentRegistry.get_agent_info agent_id reg' = Some info'
       /\ info' = EnhancedAgentRegistry.set_status (EnhancedAgentRegistry.status info') info
       /\ (EnhancedAgentRegistry.status info' = EnhancedAgentRegistry.status info
           \/ EnhancedAgentRegistry.status info' = "inactive")
       /\ ((Datetime.to_us (clock (ticks w))
            - Datetime.to_us (EnhancedAgentRegistry.last_heartbeat info)
            <= EnhancedAgentRegistry.heartbeat_timeout reg * 1000000)%Z -> info' = info).
Proof.
  intros Hg.
  pose proof (check_agent_health_spec urandom clock reg bus w) as H.
  destruct (EnhancedAgentRegistry.check_agent_health urandom clock reg bus w)
    as [[[reg' bus'] w'] evs].
  cbv zeta in H. destruct H as (Hk & _ & _ & Hi & _).
  split; [exact Hk|]. specialize (Hi agent_id info Hg).
  eexists. split; [exact Hi|].
  unfold flips, EnhancedAgentRegistry.timed_out.
  destruct info as [ty caps st hb ra mc ec inst]. cbn.
  destruct (_ <? _)%Z eqn:E; cbn [andb].
  - destruct (negb (st =? "inactive")); cbn; repeat split; auto.
    all: intros Hle; apply Z.ltb_lt in E; lia.
  - repeat split; auto.
Qed.

Lemma X11_sweep_touches_status_only_witness :
  let '(reg', _, _, _) :=
    EnhancedAgentRegistry.check_agent_health Sample.urandom Sample.minutes
      Sample.reg_A Sample.bus_A Sample.world_A in
  map fst (EnhancedAgentRegistry.agents reg') = ["A"].
Proof.
  pose proof (X11_sweep_touches_status_only Sample.urandom Sample.minutes
                Sample.reg_A Sample.bus_A Sample.world_A "A" Sample.info_A eq_refl) as H.
  destruct (EnhancedAgentRegistry.check_agent_health Sample.urandom Sample.minutes
              Sample.reg_A Sample.bus_A Sample.world_A) as [[[reg' bus'] w'] evs].
  exact (proj1 H).
Defined.

Lemma filter_keys_In {V : Type} (p : string * V -> bool) (k : string)
    (d : list (string * V)) :
  NoDup (map fst d) ->
  (In k (map fst (filter p d))
   <-> exists v, dget String.eqb k d = Some v /\ p (k, v) = true).
Proof.
  induction d as [|[a v] r IH]; cbn [map fst filter dget].
  - intros _. split; [intros []|intros (v & H & _); discriminate].
  - intros Hnd. apply NoDup_cons_iff in Hnd as [Hnotin Hnd]. specialize (IH Hnd).
    destruct (String.eqb_spec k a) as [->|Hne].
    + split.
      * intros Hin. exists v. split; [reflexivity|].
        destruct (p (a, v)) eqn:E; [reflexivity|].
        exfalso. apply Hnotin. apply in_map_iff in Hin. destruct Hin as ([a' v'] & <- & Hf).
        apply filter_In in Hf. apply in_map_iff. exists (a', v'). tauto.
      * intros (v0 & [= <-] & Hp). rewrite Hp. now left.
    + rewrite <- IH. destruct (p (a, v)); cbn [map fst In]; [|tauto].
      split; [intros [H|H]; [congruence|exact H]|now right].
Qed.

(** X12.  After the sweep an agent that missed its heartbeat is found
    neither by capability nor by type, although its entry is kept; after a
    heartbeat update it is found again under each of its capabilities and
    under its type. *)
Theorem X12_discovery_skips_inactive (urandom : nat -> N) (clock : nat -> datetime)
    (reg : EnhancedAgentRegistry.t) (bus : MessageBus.t) (w : World)
    (agent_id : string) (info : EnhancedAgentRegistry.agent_info) :
  NoDup (map fst (EnhancedAgentRegistry.agents reg)) ->
  EnhancedAgentRegistry.get_agent_info agent_id reg = Some info ->
  EnhancedAgentRegistry.timed_out (clock (ticks w))
    (EnhancedAgentRegistry.heartbeat_timeout reg) info = true ->
  let '(reg1, _, w1, _) := EnhancedAgentRegistry.check_agent_health urandom clock reg bus w in
  let reg2 := fst (EnhancedAgentRegistry.update_heartbeat clock agent_id reg1 w1) in
  EnhancedAgentRegistry.get_agent_info agent_id reg1 <> None
  /\ (forall c, ~ In agent_id (EnhancedAgentRegistry.find_agents_by_capability c reg1))
  /\ (forall ty, ~ In agent_id (EnhancedAgentRegistry.find_agents_by_type ty reg1))
  /\ (forall c, In c (EnhancedAgentRegistry.capabilities info) ->
                In agent_id (EnhancedAgentRegistry.find_agents_by_capability c reg2))
  /\ In agent_id (EnhancedAgentRegistry.find_agents_by_type
                    (EnhancedAgentRegistry.agent_type info) reg2).
Proof.
  intros Hnd Hg Hto.
  pose proof (check_agent_health_spec urandom clock reg bus w) as H.
  destruct (EnhancedAgentRegistry.check_agent_health urandom clock reg bus w)
    as [[[reg1 bus1] w1] evs].
  cbv zeta in H. destruct H as (Hk & _ & _ & Hi & _).
  specialize (Hi agent_id info Hg).
  set (info1 := if flips (clock (ticks w)) (EnhancedAgentRegistry.heartbeat_timeout reg) info
                then EnhancedAgentRegistry.set_status "inactive" info else info) in *.
  assert (EnhancedAgentRegistry.status info1 = "inactive") as Hst.
  { subst info1. unfold flips. rewrite Hto. cbn [andb].
    destruct (EnhancedAgentRegistry.status info =? "inactive") eqn:E; cbn [negb];
      [now apply String.eqb_eq in E|reflexivity]. }
  assert (EnhancedAgentRegistry.capabilities info1 = EnhancedAgentRegistry.capabilities info
          /\ EnhancedAgentRegistry.agent_type info1 = EnhancedAgentRegistry.agent_type info)
    as [Hcaps Hty] by (subst info1; destruct (flips _ _ _); split; reflexivity).
  clearbody info1.
  assert (NoDup (map fst (EnhancedAgentRegistry.agents reg1))) as Hnd1 by now rewrite Hk.
  pose proof (update_heartbeat_activates clock agent_id reg1 w1 info1 Hi) as Hu.
  cbv zeta in Hu |- *.
  set (reg2 := fst (EnhancedAgentRegistry.update_heartbeat clock agent_id reg1 w1)) in *.
  assert (NoDup (map fst (EnhancedAgentRegistry.agents reg2))) as Hnd2.
  { subst reg2. unfold EnhancedAgentRegistry.update_heartbeat.
    unfold EnhancedAgentRegistry.get_agent_info in Hi. rewrite Hi. cbn.
    now rewrite (dset_keys_present String.eqb agent_id _ info1) by exact Hi. }
  unfold EnhancedAgentRegistry.get_agent_info in *.
  unfold EnhancedAgentRegistry.find_agents_by_capability,
    EnhancedAgentRegistry.find_agents_by_type.
  split; [congruence|]. split; [|split; [|split]].
  - intros c Hin. apply (filter_keys_In _ _ _ Hnd1) in Hin. destruct Hin as (v & Hv & Hp).
    rewrite Hi in Hv. injection Hv as <-. cbn [snd] in Hp. rewrite Hst in Hp.
    rewrite andb_false_r in Hp. discriminate.
  - intros ty Hin. apply (filter_keys_In _ _ _ Hnd1) in Hin. destruct Hin as (v & Hv & Hp).
    rewrite Hi in Hv. injection Hv as <-. cbn [snd] in Hp. rewrite Hst in Hp.
    rewrite andb_false_r in Hp. discriminate.
  - intros c Hc. apply (filter_keys_In _ _ _ Hnd2). eexists. split; [exact Hu|].
    cbn. rewrite andb_true_r. unfold EnhancedAgentRegistry.contains.
    apply str_in_In. now rewrite Hcaps.
  - apply (filter_keys_In _ _ _ Hnd2). eexists. split; [exact Hu|].
    cbn. rewrite Hty, String.eqb_refl. reflexivity.
Qed.

Lemma X12_discovery_skips_inactive_witness :
  let '(reg1, _, w1, _) :=
    EnhancedAgentRegistry.check_agent_health Sample.urandom Sample.minutes
      Sample.reg_A Sample.bus_A Sample.world_A in
  ~ In "A" (EnhancedAgentRegistry.find_agents_by_capability "analysis" reg1)
  /\ In "A" (EnhancedAgentRegistry.find_agents_by_capability "analysis"
               (fst (EnhancedAgentRegistry.update_heartbeat Sample.minutes "A" reg1 w1))).
Proof.
  assert (NoDup (map fst (EnhancedAgentRegistry.agents Sample.reg_A))) as Hnd.
  { apply (NoDup_cons "A" (@in_nil _ "A") (NoDup_nil _)). }
  pose proof (X12_discovery_skips_inactive Sample.urandom Sample.minutes
                Sample.reg_A Sample.bus_A Sample.world_A "A" Sample.info_A
                Hnd eq_refl eq_refl) as H.
  destruct (EnhancedAgentRegistry.check_agent_health Sample.urandom Sample.minutes
              Sample.reg_A Sample.bus_A Sample.world_A) as [[[reg1 bus1] w1] evs].
  cbv zeta in H. destruct H as (_ & H2 & _ & H4 & _).
  split; [apply H2|apply H4; now left].
Defined.

(** ** The agent: built-in handlers, heartbeat and loop *)

Lemma json_reject_strs (l : list string) : json_reject (BaseAgent.py_strs l) = None.
Proof.
  unfold BaseAgent.py_strs. cbn.
  induction l as [|x r IH]; cbn; [reflexivity|exact IH].
Qed.

Section BuiltIn.
Variable urandom : nat -> N.
Variable clock : nat -> datetime.

Lemma builtin_reply (self : BaseAgent.t) (h : BaseAgent.handler) (message : MCPMessage.t)
    (w : World) :
  In h [BaseAgent.handle_ping; BaseAgent.handle_heartbeat_request;
        BaseAgent.handle_status_request] ->
  str_truthy (MCPMessage.correlation_id message) = true ->
  exists reply w1,
    BaseAgent.call_handler urandom clock self h message w = (BaseAgent.Returns (Some reply), w1)
    /\ stdout w1 = stdout w
    /\ MCPMessage.message_type reply = builtin_kind h
    /\ MCPMessage.source reply = BaseAgent.agent_id self
    /\ MCPMessage.target reply = Some (MCPMessage.source message)
    /\ MCPMessage.correlation_id reply = MCPMessage.correlation_id message
    /\ json_serializable (MCPMessage.payload reply) = true.
Proof.
  intros Hin Hc.
  destruct Hin as [<-|[<-|[<-|[]]]]; cbn [BaseAgent.call_handler].
  - unfold BaseAgent._handle_ping, MCPMessage.init, uuid4, utcnow. cbn [fst snd draws ticks].
    do 2 eexists. split; [reflexivity|].
    cbn -[Datetime.isoformat Uuid.uuid4 str_truthy]. rewrite Hc. repeat split.
  - unfold BaseAgent._handle_heartbeat_request, MCPMessage.init, uuid4, utcnow.
    do 2 eexists. split; [reflexivity|].
    cbn -[Datetime.isoformat Uuid.uuid4 str_truthy json_serializable]. rewrite Hc.
    repeat split. unfold json_serializable.
    cbn -[Datetime.isoformat BaseAgent.py_strs]. now rewrite json_reject_strs.
  - unfold BaseAgent._handle_status_request, MCPMessage.init, uuid4, utcnow.
    do 2 eexists. split; [reflexivity|].
    cbn -[Datetime.isoformat Uuid.uuid4 str_truthy json_serializable Datetime.to_us Nat.max].
    rewrite Hc. repeat split. unfold json_serializable.
    cbn -[Datetime.isoformat BaseAgent.py_strs Datetime.to_us Nat.max].
    now rewrite json_reject_strs.
Qed.
End BuiltIn.

(** X13.  Each of the three handlers every agent starts with (ping,
    heartbeat request, status request) returns a reply and never raises; the
    reply comes from the agent, goes to the sender of the request, carries
    the correlation id of the request and a payload that [json.dumps]
    accepts, so that processing the request prints the reply and ends
    normally. *)
Theorem X13_builtin_handlers_answer (urandom : nat -> N) (clock : nat -> datetime)
    (self : BaseAgent.t) (h : BaseAgent.handler) (message : MCPMessage.t) (w : World) :
  In h [BaseAgent.handle_ping; BaseAgent.handle_heartbeat_request;
        BaseAgent.handle_status_request] ->
  str_truthy (MCPMessage.correlation_id message) = true ->
  dget String.eqb (MCPMessage.message_type message) (BaseAgent.message_handlers self)
  = Some h ->
  exists reply w1,
    BaseAgent.call_handler urandom clock self h message w = (BaseAgent.Returns (Some reply), w1)
    /\ MCPMessage.message_type reply = builtin_kind h
    /\ MCPMessage.source reply = BaseAgent.agent_id self
    /\ MCPMessage.target reply = Some (MCPMessage.source message)
    /\ MCPMessage.correlation_id reply = MCPMessage.correlation_id message
    /\ BaseAgent._process_message urandom clock self message w
       = (Ok tt,
          print (OutPayload (MCPMessage.payload reply))
            (print (OutSending (BaseAgent.agent_id self) (builtin_kind h)
                      (Some (MCPMessage.source message))) w1)).
Proof.
  intros Hin Hc Hh.
  destruct (builtin_reply urandom clock self h message w Hin Hc)
    as (reply & w1 & Hcall & _ & Hk & Hs & Ht & Hcid & Hj).
  exists reply, w1. repeat split; try assumption.
  unfold BaseAgent._process_message. rewrite Hh, Hcall.
  unfold BaseAgent.send_message, json_dumps.
  rewrite (json_serializable_reject _ Hj), Hk, Ht. reflexivity.
Qed.

Lemma X13_builtin_handlers_answer_witness :
  exists reply w1,
    BaseAgent._process_message Sample.urandom Sample.noon Sample.agent0
      (Sample.request "ping" (PyDict [])) Sample.world0
    = (Ok tt,
       print (OutPayload (MCPMessage.payload reply))
         (print (OutSending "analyzer-1" "pong" (Some "client")) w1)).
Proof.
  destruct (X13_builtin_handlers_answer Sample.urandom Sample.noon Sample.agent0
              BaseAgent.handle_ping (Sample.request "ping" (PyDict [])) Sample.world0
              (or_introl eq_refl) eq_refl eq_refl)
    as (reply & w1 & _ & _ & _ & _ & _ & H).
  exists reply, w1. exact H.
Defined.

(** X14.  The body of a heartbeat turn never raises: it stamps
    [last_heartbeat] with the clock reading, prints one heartbeat addressed
    to [registry] whose payload reports the status, that timestamp and the
    two counters, and changes nothing else in the agent. *)
Theorem X14_heartbeat_body_never_raises (urandom : nat -> N) (clock : nat -> datetime)
    (self : BaseAgent.t) (w : World) :
  let '(r, self', w') := BaseAgent.heartbeat_body urandom clock self w in
  r = Ok tt
  /\ self' = BaseAgent.set_last_heartbeat (clock (ticks w)) self
  /\ stdout w'
     = stdout w
       ++ [OutSending (BaseAgent.agent_id self) "heartbeat" (Some "registry");
           OutPayload
             (PyDict [("agent_id", PyStr (BaseAgent.agent_id self));
                      ("status", PyStr (BaseAgent.status self));
                      ("timestamp", PyStr (Datetime.isoformat (clock (ticks w))));
                      ("tasks_processed", PyInt (Z.of_nat (BaseAgent.tasks_processed self)));
                      ("errors", PyInt (Z.of_nat (BaseAgent.errors self)))])]
  /\ draws w' = S (draws w) /\ ticks w' = S (S (ticks w)).
Proof.
  unfold BaseAgent.heartbeat_body, MCPMessage.init, uuid4, utcnow, BaseAgent.send_message,
    json_dumps, print.
  cbn -[Datetime.isoformat Uuid.uuid4]. rewrite <- app_assoc. repeat split.
Qed.

(** X15.  An agent that is not running takes nothing from its mailbox.  A
    running agent, given at least as many turns as there are messages
    waiting, empties the mailbox and counts every message exactly once,
    either in [tasks_processed] or in [errors]; it is still running
    afterwards, whatever the handlers did. *)
Theorem X15_message_loop_counts_every_message (urandom : nat -> N) (clock : nat -> datetime)
    (fuel : nat) (a : BaseAgent.t) (w : World) :
  (length (Queue.items (BaseAgent.message_queue a)) <= fuel)%nat ->
  let a' := fst (BaseAgent._message_loop urandom clock fuel a w) in
  if BaseAgent.running a
  then BaseAgent.running a' = true
       /\ Queue.items (BaseAgent.message_queue a') = []
       /\ (BaseAgent.tasks_processed a' + BaseAgent.errors a'
           = BaseAgent.tasks_processed a + BaseAgent.errors a
             + length (Queue.items (BaseAgent.message_queue a)))%nat
  else BaseAgent._message_loop urandom clock fuel a w = (a, w).
Proof.
  intros Hlen. cbv zeta. destruct (BaseAgent.running a) eqn:Hrun.
  - now apply message_loop_drains.
  - destruct fuel; cbn; [reflexivity|now rewrite Hrun].
Qed.

Lemma X15_message_loop_counts_every_message_witness :
  let a := Sample.agent_with Sample.three_requests in
  let a' := fst (BaseAgent._message_loop Sample.urandom Sample.noon 5 a Sample.world0) in
  Queue.items (BaseAgent.message_queue a') = []
  /\ (BaseAgent.tasks_processed a' + BaseAgent.errors a' = 3)%nat.
Proof.
  pose proof (X15_message_loop_counts_every_message Sample.urandom Sample.noon 5
                (Sample.agent_with Sample.three_requests) Sample.world0
                (le_S _ _ (le_S _ _ (le_n 3)))) as H.
  cbv zeta in H.
  change (BaseAgent.running (Sample.agent_with Sample.three_requests)) with true in H.
  destruct H as (_ & H2 & H3). split; [exact H2|exact H3].
Defined.

(** X16.  [from_dict] restores the identifier and timestamp of the record
    but not the default correlation id: for a record without [target] and
    [correlation_id] the target is [None] and the correlation id is the
    UUID drawn for the intermediate object, not the identifier found in the
    record. *)
Theorem X16_from_dict_fresh_correlation (urandom : nat -> N) (clock : nat -> datetime)
    (data : list (string * pyval)) (w : World)
    (i iso ty src : string) (ts : datetime) (pl : pyval) :
  dget String.eqb "id" data = Some (PyStr i) ->
  dget String.eqb "timestamp" data = Some (PyStr iso) ->
  Datetime.fromisoformat iso = Ok ts ->
  dget String.eqb "type" data = Some (PyStr ty) ->
  dget String.eqb "payload" data = Some pl ->
  dget String.eqb "source" data = Some (PyStr src) ->
  dget String.eqb "target" data = None ->
  dget String.eqb "correlation_id" data = None ->
  MCPMessage.from_dict urandom clock data w
  = (Ok (MCPMessage.mk i ts ty pl src None (Uuid.uuid4 (urandom (draws w)))),
     mkWorld (S (draws w)) (S (ticks w)) (stdout w)).
Proof.
  intros Hi Hts Hiso Hty Hpl Hsrc Htgt Hcid.
  unfold MCPMessage.from_dict, MCPMessage.subscript.
  rewrite Hi, Hts, Hty, Hpl, Hsrc, Htgt, Hcid.
  cbn -[Datetime.fromisoformat Uuid.uuid4]. rewrite Hiso. reflexivity.
Qed.

Lemma X16_from_dict_fresh_correlation_witness :
  let data := [("id", PyStr "m-1"); ("timestamp", PyStr "2024-01-01T12:00:00");
               ("type", PyStr "ping"); ("payload", PyDict []); ("source", PyStr "client")] in
  match fst (MCPMessage.from_dict Sample.urandom Sample.noon data Sample.world0) with
  | Ok m => MCPMessage.id m = "m-1"
            /\ MCPMessage.correlation_id m = "00000000-0000-4000-8000-000000000000"
  | Raise _ => False
  end.
Proof.
  cbv zeta.
  rewrite (X16_from_dict_fresh_correlation Sample.urandom Sample.noon
             [("id", PyStr "m-1"); ("timestamp", PyStr "2024-01-01T12:00:00");
              ("type", PyStr "ping"); ("payload", PyDict []); ("source", PyStr "client")]
             Sample.world0
             "m-1" "2024-01-01T12:00:00" "ping" "client" (Sample.noon 0) (PyDict [])
             eq_refl eq_refl eq_refl eq_refl eq_refl eq_refl eq_refl eq_refl).
  cbn -[Uuid.uuid4]. split; reflexivity.
Defined.

(** ** The in-process registry and bus of [base_agent.py] *)

Lemma receive_message_not_full (a : BaseAgent.t) (message : MCPMessage.t) :
  BaseAgent.receive_message a message
  = if Queue.full (BaseAgent.message_queue a) then None else Some (with_message message a).
Proof.
  unfold BaseAgent.receive_message, Queue.put, with_message.
  destruct (Queue.full (BaseAgent.message_queue a)); reflexivity.
Qed.


(** X17.  A message with a target goes to the agent registered under that
    identifier and to nobody else: the message is appended to its mailbox,
    every other agent object is as before and nothing is printed.  If that
    mailbox is full the caller waits; if no agent is registered under the
    target the registry is unchanged and one line reports it. *)
Theorem X17_local_bus_targeted_send (reg : AgentRegistry.t) (message : MCPMessage.t)
    (target : string) (out : list console) :
  MCPMessage.target message = Some target ->
  str_truthy target = true ->
  match AgentRegistry.get_agent target reg with
  | Some agent =>
      if Queue.full (BaseAgent.message_queue agent)
      then LocalBus.send_message (Some reg) message out = None
      else exists reg',
          LocalBus.send_message (Some reg) message out = Some (Some reg', out)
          /\ AgentRegistry.get_agent target reg' = Some (with_message message agent)
          /\ (forall other, other <> target ->
                AgentRegistry.get_agent other reg' = AgentRegistry.get_agent other reg)
          /\ map fst (AgentRegistry.agents reg') = map fst (AgentRegistry.agents reg)
  | None =>
      LocalBus.send_message (Some reg) message out
      = Some (Some reg, out ++ [ConTargetNotFound target])
  end.
Proof.
  intros Ht Htr. unfold LocalBus.send_message. rewrite Ht, Htr.
  destruct (AgentRegistry.get_agent target reg) as [agent|] eqn:E; [|reflexivity].
  rewrite receive_message_not_full.
  destruct (Queue.full (BaseAgent.message_queue agent)); [reflexivity|].
  eexists. split; [reflexivity|]. unfold AgentRegistry.get_agent in *.
  cbn [AgentRegistry.agents]. split; [|split].
  - apply (dget_dset_same String.eqb String.eqb_eq).
  - intros other Hne. now apply (dget_dset_other String.eqb String.eqb_eq).
  - now apply (dset_keys_present String.eqb target _ agent).
Qed.

Lemma X17_local_bus_targeted_send_witness :
  let reg := AgentRegistry.mk [("analyzer-1", Sample.agent0)] in
  exists reg',
    LocalBus.send_message (Some reg) Sample.bad_request [] = Some (Some reg', [])
    /\ AgentRegistry.get_agent "analyzer-1" reg'
       = Some (with_message Sample.bad_request Sample.agent0).
Proof.
  pose proof (X17_local_bus_targeted_send (AgentRegistry.mk [("analyzer-1", Sample.agent0)])
                Sample.bad_request "analyzer-1" [] eq_refl eq_refl) as H.
  cbn [AgentRegistry.get_agent AgentRegistry.agents dget String.eqb Ascii.eqb Bool.eqb] in H.
  change (Queue.full (BaseAgent.message_queue Sample.agent0)) with false in H.
  destruct H as (reg' & H1 & H2 & _). exists reg'. split; assumption.
Defined.



(** ** The bus: subscriptions and registrations *)

Lemma subscribe_subscribers (a : string) (k : MessageType) (h : option MessageBus.handler)
    (bus : MessageBus.t) :
  subscribers_of k (MessageBus.subscribe a k h bus)
  = if str_in a (subscribers_of k bus) then subscribers_of k bus
    else subscribers_of k bus ++ [a].
Proof.
  unfold subscribers_of, MessageBus.subscribe, MessageBus.subscribers_at.
  destruct (dget MessageType_eqb k (MessageBus.subscribers bus)) as [l|] eqn:E.
  - destruct (str_in a l) eqn:Ein; destruct h as [f|]; cbn; rewrite ?E;
      rewrite ?(dget_dset_same MessageType_eqb MessageType_eqb_eq); reflexivity.
  - destruct h as [f|]; cbn;
      rewrite !(dget_dset_same MessageType_eqb MessageType_eqb_eq); reflexivity.
Qed.

Lemma subscribe_handler (a : string) (k : MessageType) (h : option MessageBus.handler)
    (bus : MessageBus.t) :
  sync_handler a k (MessageBus.subscribe a k h bus)
  = match h with Some f => Some f | None => sync_handler a k bus end.
Proof.
  unfold sync_handler, MessageBus.subscribe, MessageBus.subscribers_at.
  destruct (dget MessageType_eqb k (MessageBus.subscribers bus)) as [l|];
    [destruct (str_in a l)|]; destruct h as [f|]; cbn;
    rewrite ?(dget_dset_same String.eqb String.eqb_eq),
            ?(dget_dset_same MessageType_eqb MessageType_eqb_eq); reflexivity.
Qed.

Lemma unsubscribe_subscribers (a : string) (k : MessageType) (bus : MessageBus.t) :
  subscribers_of k (MessageBus.unsubscribe a k bus)
  = if str_in a (subscribers_of k bus) then list_remove a (subscribers_of k bus)
    else subscribers_of k bus.
Proof.
  unfold subscribers_of, MessageBus.unsubscribe, MessageBus.subscribers_at.
  destruct (dget MessageType_eqb k (MessageBus.subscribers bus)) as [l|] eqn:E.
  - destruct (str_in a l) eqn:Ein;
      cbn [MessageBus.set_subscribers MessageBus.message_handlers MessageBus.subscribers];
      destruct (dget String.eqb a (MessageBus.message_handlers bus)) as [own|];
      try destruct (dmem MessageType_eqb k own); cbn;
      rewrite ?E, ?(dget_dset_same MessageType_eqb MessageType_eqb_eq); reflexivity.
  - cbn [str_in MessageBus.set_subscribers MessageBus.message_handlers MessageBus.subscribers].
    destruct (dget String.eqb a (MessageBus.message_handlers bus)) as [own|];
      try destruct (dmem MessageType_eqb k own); cbn;
      rewrite ?(dget_dset_same MessageType_eqb MessageType_eqb_eq); reflexivity.
Qed.

Lemma unsubscribe_handler (a : string) (k : MessageType) (bus : MessageBus.t) :
  sync_handler a k (MessageBus.unsubscribe a k bus) = None.
Proof.
  unfold sync_handler, MessageBus.unsubscribe, MessageBus.subscribers_at.
  destruct (dget MessageType_eqb k (MessageBus.subscribers bus)) as [l|];
    cbn [str_in]; [destruct (str_in a l)|];
    cbn [MessageBus.set_subscribers MessageBus.message_handlers];
    destruct (dget String.eqb a (MessageBus.message_handlers bus)) as [own|] eqn:E;
    try (unfold dmem; destruct (dget MessageType_eqb k own) eqn:Ek); cbn;
    rewrite ?(dget_dset_same String.eqb String.eqb_eq), ?E, ?Ek;
    rewrite ?(dget_ddel_same MessageType_eqb); reflexivity.
Qed.

(** X19.  [subscribe] puts the agent on the list of the kind once, however
    often it is called, and installs the handler if one is given;
    [unsubscribe] afterwards takes the agent off the list again and removes
    the handler for that kind. *)
Theorem X19_subscribe_then_unsubscribe (a : string) (k : MessageType)
    (h : option MessageBus.handler) (bus : MessageBus.t) :
  NoDup (subscribers_of k bus) ->
  let b1 := MessageBus.subscribe a k h bus in
  let b2 := MessageBus.unsubscribe a k b1 in
  In a (subscribers_of k b1)
  /\ NoDup (subscribers_of k b1)
  /\ subscribers_of k (MessageBus.subscribe a k h b1) = subscribers_of k b1
  /\ sync_handler a k b1 = match h with Some f => Some f | None => sync_handler a k bus end
  /\ ~ In a (subscribers_of k b2)
  /\ sync_handler a k b2 = None.
Proof.
  intros Hnd. cbv zeta.
  assert (In a (subscribers_of k (MessageBus.subscribe a k h bus))
          /\ NoDup (subscribers_of k (MessageBus.subscribe a k h bus))) as [Hin Hnd1].
  { rewrite subscribe_subscribers. destruct (str_in a (subscribers_of k bus)) eqn:E.
    - split; [now apply str_in_In|exact Hnd].
    - split; [apply in_or_app; right; now left|now apply NoDup_snoc]. }
  split; [exact Hin|]. split; [exact Hnd1|]. split; [|split; [|split]].
  - rewrite (subscribe_subscribers a k h (MessageBus.subscribe a k h bus)).
    apply str_in_In in Hin. now rewrite Hin.
  - apply subscribe_handler.
  - rewrite unsubscribe_subscribers. apply str_in_In in Hin. rewrite Hin.
    now apply list_remove_NoDup.
  - apply unsubscribe_handler.
Qed.

Lemma X19_subscribe_then_unsubscribe_witness :
  In "A" (subscribers_of LOG_ANALYSIS
            (MessageBus.subscribe "A" LOG_ANALYSIS None Sample.bus2))
  /\ ~ In "A" (subscribers_of LOG_ANALYSIS
                 (MessageBus.unsubscribe "A" LOG_ANALYSIS
                    (MessageBus.subscribe "A" LOG_ANALYSIS None Sample.bus2))).
Proof.
  assert (NoDup (subscribers_of LOG_ANALYSIS Sample.bus2)) as Hnd.
  { repeat constructor; cbn; intuition discriminate. }
  pose proof (X19_subscribe_then_unsubscribe "A" LOG_ANALYSIS None Sample.bus2 Hnd) as H.
  cbv zeta in H. destruct H as (H1 & _ & _ & _ & H5 & _). split; assumption.
Defined.

Lemma list_remove_other (x y : string) (l : list string) :
  y <> x -> (In y (list_remove x l) <-> In y l).
Proof.
  intros Hne. split; [apply list_remove_incl|].
  induction l as [|z r IH]; cbn; [tauto|].
  destruct (String.eqb_spec x z) as [->|Hxz].
  - intros [H|H]; [congruence|exact H].
  - cbn. intros [H|H]; [now left|right; auto].
Qed.

(** X20.  Unregistering a registered agent removes it from the agent map,
    discards its mailbox and takes it off every subscriber list, while the
    registration, the mailbox and the subscriptions of every other agent
    stay as they are; unregistering an identifier that is not registered
    changes nothing at all. *)
Theorem X20_unregister_removes_one_agent (a : string) (bus : MessageBus.t) :
  (forall kind, NoDup (subscribers_of kind bus)) ->
  let bus' := MessageBus.unregister_agent a bus in
  if registered bus a then
    registered bus' a = false
    /\ mailbox a bus' = []
    /\ (forall kind, ~ In a (subscribers_of kind bus'))
    /\ (forall other, other <> a ->
          registered bus' other = registered bus other
          /\ mailbox other bus' = mailbox other bus
          /\ (forall kind, In other (subscribers_of kind bus')
                           <-> In other (subscribers_of kind bus)))
  else bus' = bus.
Proof.
  intros Hnd. cbv zeta. destruct (registered bus a) eqn:Hr.
  - pose proof (unregister_agent_spec a bus Hr) as H. cbv zeta in H.
    destruct H as (H1 & H2 & H3 & _).
    split; [exact H1|]. split; [|split].
    + unfold mailbox, dmem in *.
      destruct (dget String.eqb a (MessageBus.message_queues _)); [discriminate|reflexivity].
    + intros kind. apply H3, Hnd.
    + intros other Hne. unfold registered, MessageBus.unregister_agent in *. rewrite Hr.
      destruct (dmem String.eqb a
                  (MessageBus.message_queues
                     (MessageBus.set_agents (ddel String.eqb a (MessageBus.agents bus)) bus)));
        unfold mailbox, subscribers_of;
        cbn [MessageBus.agents MessageBus.message_queues MessageBus.subscribers
             MessageBus.set_agents MessageBus.set_message_queues MessageBus.set_subscribers];
        rewrite dmem_ddel, ?(dget_ddel_other String.eqb String.eqb_eq) by exact Hne;
        (destruct (String.eqb_spec other a) as [->|_]; [contradiction|]);
        (split; [reflexivity|]); (split; [reflexivity|]);
        intros kind; rewrite purge_subscriber_get;
        (destruct (dget MessageType_eqb kind (MessageBus.subscribers bus)) as [l|];
         [|reflexivity]);
        (destruct (str_in a l); [now apply list_remove_other|reflexivity]).
  - unfold registered, MessageBus.unregister_agent in *. now rewrite Hr.
Qed.

Lemma X20_unregister_removes_one_agent_witness :
  let bus' := MessageBus.unregister_agent "A" Sample.bus2 in
  registered bus' "A" = false
  /\ ~ In "A" (subscribers_of LOG_ANALYSIS bus')
  /\ registered bus' "B" = true.
Proof.
  assert (forall kind, NoDup (subscribers_of kind Sample.bus2)) as Hnd.
  { intros kind. destruct kind; repeat constructor; cbn; intuition discriminate. }
  pose proof (X20_unregister_removes_one_agent "A" Sample.bus2 Hnd) as H.
  cbv zeta in H. change (registered Sample.bus2 "A") with true in H.
  destruct H as (H1 & _ & H3 & H4).
  split; [exact H1|]. split; [apply H3|].
  destruct (H4 "B" ltac:(discriminate)) as (H5 & _). rewrite H5. reflexivity.
Defined.




(** ** Incidents *)

Lemma incident_step_frame (clock : nat -> datetime) (op : Incident.operation)
    (s : Incident.t * World) :
  let s' := Incident.step clock op s in
  Incident.id (fst s') = Incident.id (fst s)
  /\ Incident.created_at (fst s') = Incident.created_at (fst s)
  /\ (exists more, Incident.timeline (fst s') = Incident.timeline (fst s) ++ more
                   /\ length more = if Incident.adds_timeline op then 1%nat else 0%nat)
  /\ (exists more, Incident.evidence (fst s') = Incident.evidence (fst s) ++ more
                   /\ length more = if Incident.adds_evidence op then 1%nat else 0%nat)
  /\ (Incident.resolved_at (fst s) <> None -> Incident.resolved_at (fst s') <> None)
  /\ (forall reason, op = Incident.OpStatus "resolved" reason ->
                     Incident.resolved_at (fst s') <> None).
Proof.
  destruct s as [inc w]. destruct op as [ev det|ty data|st reason];
    cbn [Incident.step fst snd Incident.adds_timeline Incident.adds_evidence].
  - unfold Incident.add_timeline_entry, utcnow. cbn.
    repeat split; try (eexists; split; [reflexivity|reflexivity]); auto.
    + exists []. now rewrite app_nil_r.
    + intros r Hr. discriminate Hr.
  - unfold Incident.add_evidence, utcnow. cbn.
    repeat split; try (eexists; split; [reflexivity|reflexivity]); auto.
    + exists []. now rewrite app_nil_r.
    + intros r Hr. discriminate Hr.
  - unfold Incident.update_status, Incident.add_timeline_entry, utcnow.
    destruct (st =? "resolved") eqn:E; cbn;
      repeat split; try (eexists; split; [reflexivity|reflexivity]); auto;
      try (exists []; now rewrite app_nil_r); try discriminate.
    intros r [= -> _]. discriminate E.
Qed.

(** X22.  Whatever sequence of timeline entries, evidence and status updates
    is applied to an incident, its identifier and creation time never
    change, the timeline and the evidence list only grow at the end (by one
    entry per timeline or status call, respectively per evidence call), and
    a resolution time, once set, is never cleared: reopening a resolved
    incident keeps it. *)
Theorem X22_incident_log_is_append_only (clock : nat -> datetime)
    (ops : list Incident.operation) (inc : Incident.t) (w : World) :
  let inc' := fst (Incident.run clock ops (inc, w)) in
  Incident.id inc' = Incident.id inc
  /\ Incident.created_at inc' = Incident.created_at inc
  /\ (exists more, Incident.timeline inc' = Incident.timeline inc ++ more
                   /\ length more = length (filter Incident.adds_timeline ops))
  /\ (exists more, Incident.evidence inc' = Incident.evidence inc ++ more
                   /\ length more = length (filter Incident.adds_evidence ops))
  /\ (Incident.resolved_at inc <> None -> Incident.resolved_at inc' <> None)
  /\ (forall reason, In (Incident.OpStatus "resolved" reason) ops ->
                     Incident.resolved_at inc' <> None).
Proof.
  cbv zeta. unfold Incident.run.
  change inc with (fst (inc, w)) at 2 4 6 8 9. generalize (inc, w). clear inc w.
  induction ops as [|op rest IH]; intros s.
  - cbn. repeat split; auto; try (exists []; now rewrite app_nil_r); try (intros r []).
  - cbn [fold_left]. specialize (IH (Incident.step clock op s)).
    pose proof (incident_step_frame clock op s) as H. cbv zeta in H.
    destruct IH as (I1 & I2 & (mt & It & Lt) & (me & Ie & Le) & I5 & I6).
    destruct H as (H1 & H2 & (mt0 & Ht & Lt0) & (me0 & He & Le0) & H5 & H6).
    split; [congruence|]. split; [congruence|]. split; [|split; [|split]].
    + exists (mt0 ++ mt). rewrite It, Ht, <- app_assoc. split; [reflexivity|].
      rewrite length_app, Lt, Lt0. cbn [filter].
      destruct (Incident.adds_timeline op); cbn [length]; lia.
    + exists (me0 ++ me). rewrite Ie, He, <- app_assoc. split; [reflexivity|].
      rewrite length_app, Le, Le0. cbn [filter].
      destruct (Incident.adds_evidence op); cbn [length]; lia.
    + auto.
    + intros r [->|Hin]; [apply I5, (H6 r eq_refl)|now apply (I6 r)].
Qed.

(** X23.  The plain registry is keyed by the identifier of the agent
    object: after [register_agent] the agent is found under its own
    identifier (replacing an agent registered there before) and every other
    identifier resolves as before; after [unregister_agent] the identifier
    resolves to nothing, and unregistering an unknown identifier changes
    neither the registry nor the console. *)
Theorem X23_local_registry_lookup (agent : BaseAgent.t) (reg : AgentRegistry.t)
    (out : list console) (other : string) :
  other <> BaseAgent.agent_id agent ->
  let a := BaseAgent.agent_id agent in
  let '(reg1, out1) := AgentRegistry.register_agent agent reg out in
  let '(reg2, out2) := AgentRegistry.unregister_agent a reg1 out1 in
  AgentRegistry.get_agent a reg1 = Some agent
  /\ AgentRegistry.get_agent other reg1 = AgentRegistry.get_agent other reg
  /\ AgentRegistry.get_agent a reg2 = None
  /\ AgentRegistry.get_agent other reg2 = AgentRegistry.get_agent other reg
  /\ out2 = out ++ [ConRegistered a (BaseAgent.agent_type agent); ConUnregistered a]
  /\ AgentRegistry.unregister_agent a reg2 out2 = (reg2, out2).
Proof.
  intros Hne. cbv zeta.
  unfold AgentRegistry.register_agent, AgentRegistry.unregister_agent, AgentRegistry.get_agent.
  cbn [AgentRegistry.agents]. rewrite dmem_dset, String.eqb_refl. cbn [orb AgentRegistry.agents].
  rewrite dmem_ddel, String.eqb_refl. cbn [negb andb].
  rewrite (dget_dset_same String.eqb String.eqb_eq), (dget_ddel_same String.eqb).
  rewrite (dget_ddel_other String.eqb String.eqb_eq) by exact Hne.
  rewrite (dget_dset_other String.eqb String.eqb_eq) by exact Hne.
  rewrite <- app_assoc. repeat split.
Qed.

Lemma X23_local_registry_lookup_witness :
  let '(reg1, out1) := AgentRegistry.register_agent Sample.agent0 AgentRegistry.init [] in
  AgentRegistry.get_agent "analyzer-1" reg1 = Some Sample.agent0
  /\ AgentRegistry.get_agent "ghost" reg1 = None.
Proof.
  pose proof (X23_local_registry_lookup Sample.agent0 AgentRegistry.init [] "ghost"
                ltac:(discriminate)) as H.
  cbv zeta in H.
  destruct (AgentRegistry.register_agent Sample.agent0 AgentRegistry.init []) as [reg1 out1].
  destruct (AgentRegistry.unregister_agent _ reg1 out1) as [reg2 out2].
  destruct H as (H1 & H2 & _). split; [exact H1|exact H2].
Defined.

(** ** Events and heartbeats end to end *)



(** X25.  A heartbeat keeps an agent alive: if the sweep runs no later than
    the timeout after [update_heartbeat], the agent is active afterwards
    (also when it had been inactive before the heartbeat) and the sweep
    publishes no event about it. *)
Theorem X25_heartbeat_keeps_agent_active (urandom : nat -> N) (clock : nat -> datetime)
    (reg : EnhancedAgentRegistry.t) (bus : MessageBus.t) (w : World)
    (agent_id : string) (info : EnhancedAgentRegistry.agent_info) :
  NoDup (map fst (EnhancedAgentRegistry.agents reg)) ->
  EnhancedAgentRegistry.get_agent_info agent_id reg = Some info ->
  (Datetime.to_us (clock (S (ticks w))) - Datetime.to_us (clock (ticks w))
   <= EnhancedAgentRegistry.heartbeat_timeout reg * 1000000)%Z ->
  let '(reg1, w1) := EnhancedAgentRegistry.update_heartbeat clock agent_id reg w in
  let '(reg2, _, _, evs) :=
    EnhancedAgentRegistry.check_agent_health urandom clock reg1 bus w1 in
  status_of agent_id reg2 = Some "active"
  /\ EnhancedAgentRegistry.get_agent_info agent_id reg2
     = EnhancedAgentRegistry.get_agent_info agent_id reg1
  /\ events_about agent_id evs = [].
Proof.
  intros Hnd Hg Hle.
  pose proof (update_heartbeat_activates clock agent_id reg w info Hg) as Hu. cbv zeta in Hu.
  assert (snd (EnhancedAgentRegistry.update_heartbeat clock agent_id reg w) = tick w
          /\ map fst (EnhancedAgentRegistry.agents
                        (fst (EnhancedAgentRegistry.update_heartbeat clock agent_id reg w)))
             = map fst (EnhancedAgentRegistry.agents reg)
          /\ EnhancedAgentRegistry.heartbeat_timeout
               (fst (EnhancedAgentRegistry.update_heartbeat clock agent_id reg w))
             = EnhancedAgentRegistry.heartbeat_timeout reg) as (Hw & Hk & Ht).
  { unfold EnhancedAgentRegistry.update_heartbeat, EnhancedAgentRegistry.get_agent_info in *.
    rewrite Hg. cbn. repeat split.
    now apply (dset_keys_present String.eqb agent_id _ info). }
  destruct (EnhancedAgentRegistry.update_heartbeat clock agent_id reg w) as [reg1 w1].
  cbn [fst snd] in *. subst w1.
  pose proof (check_agent_health_spec urandom clock reg1 bus (tick w)) as H.
  destruct (EnhancedAgentRegistry.check_agent_health urandom clock reg1 bus (tick w))
    as [[[reg2 bus2] w2] evs].
  cbv zeta in H. destruct H as (_ & _ & _ & Hi & He).
  specialize (Hi agent_id _ Hu).
  assert (NoDup (map fst (EnhancedAgentRegistry.agents reg1))) as Hnd1 by now rewrite Hk.
  specialize (He agent_id _ Hnd1 Hu).
  assert (flips (clock (ticks (tick w))) (EnhancedAgentRegistry.heartbeat_timeout reg1)
            (EnhancedAgentRegistry.set_status "active"
               (EnhancedAgentRegistry.set_last_heartbeat (clock (ticks w)) info)) = false)
    as Hf.
  { unfold flips, EnhancedAgentRegistry.timed_out. rewrite Ht. cbn [tick ticks].
    cbn [EnhancedAgentRegistry.last_heartbeat EnhancedAgentRegistry.set_status
         EnhancedAgentRegistry.set_last_heartbeat].
    destruct (_ <? _)%Z eqn:E; [apply Z.ltb_lt in E; lia|reflexivity]. }
  rewrite Hf in Hi, He. unfold status_of. rewrite Hi, Hu. repeat split. exact He.
Qed.

Lemma X25_heartbeat_keeps_agent_active_witness :
  let '(r, b, w) := Sample.swept_A in
  let '(reg1, w1) := EnhancedAgentRegistry.update_heartbeat Sample.minutes "A" r w in
  let '(reg2, _, _, evs) :=
    EnhancedAgentRegistry.check_agent_health Sample.urandom Sample.minutes reg1 b w1 in
  status_of "A" r = Some "inactive" /\ status_of "A" reg2 = Some "active".
Proof.
  destruct Sample.swept_A as [[r b] w] eqn:E.
  assert (r = fst (fst Sample.swept_A) /\ w = snd Sample.swept_A) as [Hr Hw]
      by (rewrite E; split; reflexivity).
  assert (NoDup (map fst (EnhancedAgentRegistry.agents r))) as Hnd.
  { rewrite Hr. apply (NoDup_cons "A" (@in_nil _ "A") (NoDup_nil _)). }
  assert (EnhancedAgentRegistry.get_agent_info "A" r
          = Some (EnhancedAgentRegistry.set_status "inactive" Sample.info_A)) as Hg
      by (rewrite Hr; reflexivity).
  assert (Datetime.to_us (Sample.minutes (S (ticks w))) - Datetime.to_us (Sample.minutes (ticks w))
          <= EnhancedAgentRegistry.heartbeat_timeout r * 1000000)%Z as Hle
      by (rewrite Hr, Hw; vm_compute; discriminate).
  pose proof (X25_heartbeat_keeps_agent_active Sample.urandom Sample.minutes r b w "A" _
                Hnd Hg Hle) as H.
  destruct (EnhancedAgentRegistry.update_heartbeat Sample.minutes "A" r w) as [reg1 w1].
  destruct (EnhancedAgentRegistry.check_agent_health Sample.urandom Sample.minutes reg1 b w1)
    as [[[reg2 bus2] w2] evs].
  destruct H as (H1 & _). split; [|exact H1].
  unfold status_of. rewrite Hg. reflexivity.
Defined.

(** X26.  The record of a message can be given to [json.dumps] exactly when
    its payload can: the other six entries are text or [None]. *)
Theorem X26_record_is_json_iff_payload_is (m : MCPMessage.t) :
  json_serializable (PyDict (MCPMessage.to_dict m)) = json_serializable (MCPMessage.payload m).
Proof.
  unfold json_serializable, MCPMessage.to_dict. cbn.
  destruct (json_reject (MCPMessage.payload m)); [reflexivity|].
  destruct (MCPMessage.target m); reflexivity.
Qed.
